(** * Oxy: risk classification and historical analytics

    A shallow embedding of [decision_engine.py], [historical_analytics.py],
    [history_analyzer.py], [city_report_builder.py],
    [json_to_csv_parser.py] and [timestamp_cleaner.py], followed by the
    properties of the written specification stated over it, and by
    further properties of the code.

    Numbers.  A Python float is modelled by [pyfloat]: a rational, one of
    the two infinities, or NaN.  Comparisons and [round] follow IEEE-754
    on those four shapes.  A literal (55.4, 35.4, 0.05) is the rational it
    denotes.  Python reads it as the nearest float64; no float64 lies
    between the two, and in the comparisons of the classifier and of the
    trend (at most 35.4, at most 55.4, at least 0.05, at most -0.05) the
    nearest float64 lies on the side where a float64 compares with the
    one as it does with the other.  The sums, differences and quotients
    that the code takes of readings are rounded; they are the operations
    of the class [Float64], whose instance [binary64] is IEEE-754
    binary64.

    Values.  What reaches the classifier is [None], a float, or another
    object; [pyval] records what the code can observe of it.  pandas
    stores a missing cell as the float NaN.

    Exceptions.  Code that can raise returns [result]; [try/except] is a
    match on it.

    Frames.  A [pd.Series] is the list of its entries, a data frame the
    list of its rows, both in position order.  Reading the CSV file is
    outside the model.

    Runs.  Whether a call returns depends on more than the computation:
    the module has to compile, and the summary file has to be written.
    [run] models a call with both, over the triple quotes of the module
    and over a file system given by what the code asks of it. *)

From Stdlib Require Import ZArith QArith Qround Qabs Lqa Lia.
From Stdlib Require Import List String Ascii Bool DecimalString.
Import ListNotations.

Local Open Scope string_scope.
Local Open Scope nat_scope.

(* ================================================================== *)
(** ** Exceptions *)

Inductive exn : Type :=
| TypeError
| ValueError
| OverflowError
| IndexError.

Inductive result (A : Type) : Type :=
| Ok (a : A)
| Raise (e : exn).

Arguments Ok {A} a.
Arguments Raise {A} e.

Definition bind {A B : Type} (m : result A) (k : A -> result B) : result B :=
  match m with
  | Ok a => k a
  | Raise e => Raise e
  end.

Notation "x <- m ;; k" := (bind m (fun x => k))
  (at level 61, m at next level, right associativity).

Definition returns {A : Type} (m : result A) : Prop :=
  exists a, m = Ok a.

(* ================================================================== *)
(** ** Python floats *)

Module Float.

Inductive pyfloat : Type :=
| Fin (q : Q)
| PosInf
| NegInf
| NaN.

Arguments Fin q%_Q.

Definition of_Z (z : Z) : pyfloat := Fin (inject_Z z).
Definition of_nat (n : nat) : pyfloat := Fin (inject_Z (Z.of_nat n)).

(** [x <= y]; every comparison with NaN is false. *)
Definition le (x y : pyfloat) : bool :=
  match x, y with
  | NaN, _ | _, NaN => false
  | NegInf, _ => true
  | _, PosInf => true
  | Fin a, Fin b => Qle_bool a b
  | _, _ => false
  end.

(** [x > y] *)
Definition gt (x y : pyfloat) : bool :=
  match x, y with
  | NaN, _ | _, NaN => false
  | NegInf, _ => false
  | _, PosInf => false
  | Fin a, Fin b => negb (Qle_bool a b)
  | _, _ => true
  end.

(** [x < y] and [x >= y] *)
Definition lt (x y : pyfloat) : bool := gt y x.
Definition ge (x y : pyfloat) : bool := le y x.

(** [x == y] and [x != y] *)
Definition eqb (x y : pyfloat) : bool :=
  match x, y with
  | Fin a, Fin b => Qeq_bool a b
  | PosInf, PosInf => true
  | NegInf, NegInf => true
  | _, _ => false
  end.

Definition neb (x y : pyfloat) : bool := negb (eqb x y).

Definition isnan (x : pyfloat) : bool :=
  match x with NaN => true | _ => false end.

Definition neg (x : pyfloat) : pyfloat :=
  match x with
  | Fin q => Fin (- q)
  | PosInf => NegInf
  | NegInf => PosInf
  | NaN => NaN
  end.

Definition abs (x : pyfloat) : pyfloat :=
  match x with
  | Fin q => Fin (Qabs q)
  | PosInf | NegInf => PosInf
  | NaN => NaN
  end.

Definition add (x y : pyfloat) : pyfloat :=
  match x, y with
  | NaN, _ | _, NaN => NaN
  | Fin a, Fin b => Fin (a + b)
  | PosInf, NegInf | NegInf, PosInf => NaN
  | PosInf, _ | _, PosInf => PosInf
  | NegInf, _ | _, NegInf => NegInf
  end.

Definition sub (x y : pyfloat) : pyfloat := add x (neg y).

Definition sign_inf (positive : bool) : pyfloat :=
  if positive then PosInf else NegInf.

Definition mul (x y : pyfloat) : pyfloat :=
  match x, y with
  | NaN, _ | _, NaN => NaN
  | Fin a, Fin b => Fin (a * b)
  | Fin a, PosInf | PosInf, Fin a =>
      if Qeq_bool a 0 then NaN else sign_inf (Qle_bool 0 a)
  | Fin a, NegInf | NegInf, Fin a =>
      if Qeq_bool a 0 then NaN else sign_inf (negb (Qle_bool 0 a))
  | PosInf, PosInf | NegInf, NegInf => PosInf
  | PosInf, NegInf | NegInf, PosInf => NegInf
  end.

(** numpy's float64 division: a zero divisor gives an infinity or NaN
    (with a warning), it does not raise. *)
Definition div (x y : pyfloat) : pyfloat :=
  match x, y with
  | NaN, _ | _, NaN => NaN
  | Fin a, Fin b =>
      if Qeq_bool b 0
      then (if Qeq_bool a 0 then NaN else sign_inf (Qle_bool 0 a))
      else Fin (a / b)
  | Fin _, _ => Fin 0
  | PosInf, Fin b => sign_inf (Qle_bool 0 b)
  | NegInf, Fin b => sign_inf (negb (Qle_bool 0 b))
  | _, _ => NaN
  end.

(** Round half to even, on a rational. *)
Definition round_half_even (q : Q) : Z :=
  let f := Qfloor q in
  let r := (q - inject_Z f)%Q in
  if Qle_bool r (1 # 2)
  then (if Qeq_bool r (1 # 2) then (if Z.even f then f else f + 1) else f)%Z
  else (f + 1)%Z.

(** [int(round(x))] *)
Definition round (x : pyfloat) : result Z :=
  match x with
  | Fin q => Ok (round_half_even q)
  | PosInf | NegInf => Raise OverflowError
  | NaN => Raise ValueError
  end.

End Float.

Import Float.

(* ================================================================== *)
(** ** Rounded arithmetic *)

(** The operations of [Float] are exact.  Python's are not: a sum, a
    difference and a quotient of floats are each rounded to a float64,
    and the sum that pandas takes for a mean adds the entries in an order
    of numpy's own.  Where the code computes with readings (a mean, a
    median of two entries, a relative change) the model uses the
    operations of this class, and what is proved of that code is proved
    for every arithmetic of the class, Python's among them.  Of an
    arithmetic the class asks only that a NaN operand gives NaN.  A
    percentage (a count divided by a count, times 100) stays the exact
    rational, of which Python's value is the float64 after two
    roundings. *)
Class Float64 : Type := {
  fl_sum : list pyfloat -> pyfloat;
  fl_add : pyfloat -> pyfloat -> pyfloat;
  fl_sub : pyfloat -> pyfloat -> pyfloat;
  fl_div : pyfloat -> pyfloat -> pyfloat;
  fl_sub_nan :
    forall x y, isnan x || isnan y = true -> fl_sub x y = NaN;
  fl_div_nan :
    forall x y, isnan x || isnan y = true -> fl_div x y = NaN
}.

(** [2 ** e] *)
Definition pow2 (e : Z) : Q :=
  if (0 <=? e)%Z then inject_Z (2 ^ e) else (1 # Z.to_pos (2 ^ (- e))).

(** The float64 nearest to a rational, ties to the even significand
    (IEEE 754 binary64): 53 significant bits, the least exponent of a
    unit in the last place -1074, and an infinity from 2 ** 1024 on. *)
Definition round64 (q : Q) : pyfloat :=
  if Qeq_bool q 0 then Fin 0
  else
    let a := Qabs q in
    let k := (Z.log2 (Qnum a) - Z.log2 (Zpos (Qden a)))%Z in
    let l := if Qle_bool (pow2 k) a then k else (k - 1)%Z in
    let e := Z.max (l - 52) (-1074) in
    let m := round_half_even (a / pow2 e) in
    let v := (inject_Z m * pow2 e)%Q in
    if Qle_bool (pow2 1024) v
    then (if Qle_bool 0 q then PosInf else NegInf)
    else Fin (Qred (if Qle_bool 0 q then v else - v)).

Definition rounded (x : pyfloat) : pyfloat :=
  match x with
  | Fin q => round64 q
  | _ => x
  end.

(** Python's arithmetic on float64, with the sum taken from left to
    right. *)
Definition binary64 : Float64.
Proof.
  refine
    {| fl_sum :=
         fun l => fold_left (fun acc x => rounded (Float.add acc x)) l (Fin 0);
       fl_add := fun x y => rounded (Float.add x y);
       fl_sub := fun x y => rounded (Float.sub x y);
       fl_div := fun x y => rounded (Float.div x y) |}.
  - intros x y H. destruct x, y; try discriminate H; reflexivity.
  - intros x y H. destruct x, y; try discriminate H; reflexivity.
Defined.

(** [str(n)] of a Python int *)
Definition str_of_int (z : Z) : string := NilZero.string_of_int (Z.to_int z).

(* ================================================================== *)
(** ** Python values as the engine observes them *)

(** A reading reaches the engine as [None], as a float (also a
    [numpy.float64]; pandas stores a missing cell as the float NaN), or as
    another object.  The engine applies [is None], [float(.)] and
    f-string formatting to it; [shown] is the text that formatting gives
    and [conv] the value of [float(.)], [None] when it raises. *)
Inductive pyval : Type :=
| PyNone
| PyFloat (x : pyfloat) (shown : string)
| PyOther (shown : string) (conv : option pyfloat).

Definition py_float (v : pyval) : result pyfloat :=
  match v with
  | PyNone => Raise TypeError
  | PyFloat x _ => Ok x
  | PyOther _ (Some x) => Ok x
  | PyOther _ None => Raise ValueError
  end.

Definition py_format (v : pyval) : string :=
  match v with
  | PyNone => "None"
  | PyFloat _ s => s
  | PyOther s _ => s
  end.

Definition is_none (v : pyval) : bool :=
  match v with PyNone => true | _ => false end.

(** [pd.isna(v)] on a scalar *)
Definition isna (v : pyval) : bool :=
  match v with
  | PyNone => true
  | PyFloat x _ => isnan x
  | PyOther _ _ => false
  end.

(** [xs[i]] for a non-negative index *)
Definition index {A : Type} (xs : list A) (i : nat) : result A :=
  match nth_error xs i with
  | Some x => Ok x
  | None => Raise IndexError
  end.

(** [xs.append(x)] *)
Definition append {A : Type} (xs : list A) (x : A) : list A :=
  (xs ++ [x])%list.

(* ================================================================== *)
(** ** decision_engine.py *)

Module DecisionEngine.

Definition LEVEL_NAMES : list string :=
  ["Normal"; "Moderate"; "Unhealthy"; "Hazardous"].

(** The body of [_aqi_to_level] once [a = float(aqi)] is known. *)
Definition aqi_level_of_float (a : pyfloat) : result nat :=
  if le a (Fin 5) then
    cat <- round a ;;
    if (cat <=? 1)%Z then Ok 0
    else if (cat =? 2)%Z then Ok 1
    else if (cat =? 3)%Z then Ok 2
    else if (cat =? 4)%Z then Ok 2
    else Ok 3
  else if le a (Fin 50) then Ok 0
  else if le a (Fin 100) then Ok 1
  else if le a (Fin 200) then Ok 2
  else Ok 3.

Definition _aqi_to_level (aqi : pyval) : result nat :=
  if is_none aqi then Ok 0
  else
    match py_float aqi with
    | Raise _ => Ok 0
    | Ok a => aqi_level_of_float a
    end.

Definition _pm25_to_level (pm25 : pyval) : result nat :=
  if is_none pm25 then Ok 0
  else
    match py_float pm25 with
    | Raise _ => Ok 0
    | Ok p =>
        if le p (Fin 12.0) then Ok 0
        else if le p (Fin 35.4) then Ok 1
        else if le p (Fin 55.4) then Ok 2
        else Ok 3
    end.

Definition _reason_strings (aqi pm25 : pyval) : result (list string) :=
  parts1 <-
    (if negb (is_none aqi) then
       match py_float aqi with
       | Raise _ => Ok ["AQI=invalid"]
       | Ok a =>
           if le a (Fin 5) then
             n <- round a ;;
             l <- aqi_level_of_float a ;;
             name <- index LEVEL_NAMES l ;;
             Ok ["AQI(category)=" ++ str_of_int n ++ " (" ++ name ++ ")"]
           else
             n <- round a ;;
             l <- aqi_level_of_float a ;;
             name <- index LEVEL_NAMES l ;;
             Ok ["AQI(index)=" ++ str_of_int n ++ " (" ++ name ++ ")"]
       end
     else Ok ["AQI=missing"]) ;;
  parts2 <-
    (if negb (is_none pm25) then
       l <- _pm25_to_level pm25 ;;
       name <- index LEVEL_NAMES l ;;
       Ok (append parts1 ("PM2.5=" ++ py_format pm25 ++ " µg/m3 (" ++ name ++ ")"))
     else Ok (append parts1 "PM2.5=missing")) ;;
  Ok parts2.

Definition _base_recommendations (level : nat) : list string :=
  match level with
  | 0 =>
      [ "Outdoor activities are safe for most people.";
        "No special precautions needed for healthy individuals.";
        "Vulnerable groups may still follow usual care (asthma meds)." ]
  | 1 =>
      [ "Unusually sensitive people should consider reducing prolonged or heavy exertion outdoors.";
        "Keep windows closed during heavy traffic or dust events.";
        "Consider indoor light activity instead of vigorous outdoor exercise." ]
  | 2 =>
      [ "Avoid vigorous outdoor exercise; prefer indoor exercise with good filtration.";
        "People with respiratory or cardiovascular conditions should follow their action plans and limit outdoor time.";
        "Consider using an N95/FFP2 mask when outdoors in crowded or polluted areas." ]
  | _ =>
      [ "Stay indoors and keep windows and doors closed where possible.";
        "Use indoor air cleaners (HEPA) or portable filters if available.";
        "Vulnerable people (children, elderly, pregnant, chronic disease) should avoid all outdoor exertion." ]
  end.

(** The literals the pollutant-specific adjustments of [interpret] test
    for and append. *)
Definition REC_CONSIDER_MASK : string :=
  "Consider using an N95/FFP2 mask when outdoors in crowded or polluted areas.".
Definition REC_USE_MASK : string :=
  "Use an N95/FFP2 mask when you must go outside; cloth masks offer limited PM2.5 protection.".
Definition REC_AVOID_ROADS : string :=
  "Avoid activities near busy roads, construction, or open burning.".
Definition REC_ACTION_PLANS : string :=
  "People with respiratory or cardiovascular conditions should follow their action plans and limit outdoor time.".
Definition REC_MEDICAL_PLANS : string :=
  "Follow medical action plans if you have asthma or heart disease; keep rescue meds at hand.".

(** [x in xs] on strings *)
Definition mem (x : string) (xs : list string) : bool :=
  existsb (String.eqb x) xs.

(** The deduplication loop of [interpret]: [seen] is the set, [deduped]
    the list built so far; the loop leaves as soon as six items are
    kept. *)
Fixpoint dedup_loop (recs seen deduped : list string) : list string :=
  match recs with
  | [] => deduped
  | r :: rest =>
      let seen' := if mem r seen then seen else r :: seen in
      let deduped' := if mem r seen then deduped else append deduped r in
      if 6 <=? List.length deduped' then deduped'
      else dedup_loop rest seen' deduped'
  end.

(** The dict [interpret] returns; [city] and [timestamp] are keys that
    may be absent. *)
Record interpretation : Type := {
  risk_level : string;
  score : nat;
  reasons : list string;
  recommendations : list string;
  explanation : string;
  city : option string;
  timestamp : option string
}.

(** Truth value of an optional string: [None] and the empty string are
    false. *)
Definition truthy (s : option string) : bool :=
  match s with
  | Some t => negb (String.eqb t "")
  | None => false
  end.

(** The recommendation list before deduplication. *)
Definition adjust_recommendations (level aqi_level pm25_level : nat)
  : list string :=
  let recs := _base_recommendations level in
  let recs :=
    if 2 <=? pm25_level then
      let recs :=
        if negb (mem REC_CONSIDER_MASK recs) then append recs REC_USE_MASK
        else recs in
      append recs REC_AVOID_ROADS
    else recs in
  if 2 <=? aqi_level then
    if negb (mem REC_ACTION_PLANS recs) then append recs REC_MEDICAL_PLANS
    else recs
  else recs.

Definition interpret (aqi pm25 : pyval) (timestamp city : option string)
  : result interpretation :=
  aqi_level <- _aqi_to_level aqi ;;
  pm25_level <- _pm25_to_level pm25 ;;
  let level := Nat.max aqi_level pm25_level in
  reasons <- _reason_strings aqi pm25 ;;
  let recs := adjust_recommendations level aqi_level pm25_level in
  let deduped := dedup_loop recs [] [] in
  name <- index LEVEL_NAMES level ;;
  let explanation :=
    "Air quality assessed as " ++ name ++ " based on AQI and PM2.5. "
    ++ "Higher pollutant determines the risk level; see reasons." in
  name' <- index LEVEL_NAMES level ;;
  Ok {| risk_level := name';
        score := level;
        reasons := reasons;
        recommendations := deduped;
        explanation := explanation;
        city := if truthy city then city else None;
        timestamp := if truthy timestamp then timestamp else None |}.


End DecisionEngine.

(* ================================================================== *)
(** ** pandas Series of floats *)

(** A numeric [pd.Series] is the list of its float64 entries in position
    order; a missing entry is NaN. *)
Module Series.

Definition dropna (s : list pyfloat) : list pyfloat :=
  filter (fun x => negb (isnan x)) s.

(** [s.count()] *)
Definition count (s : list pyfloat) : nat := List.length (dropna s).

(** [s.fillna(v)] *)
Definition fillna (v : pyfloat) (s : list pyfloat) : list pyfloat :=
  map (fun x => if isnan x then v else x) s.

(** [s.shift(1, fill_value=fill)] *)
Definition shift1 {A : Type} (fill : A) (s : list A) : list A :=
  match s with
  | [] => []
  | _ :: _ => fill :: removelast s
  end.

(** Element-wise [a & b] of two boolean series of one length. *)
Definition band (a b : list bool) : list bool :=
  map (fun p => andb (fst p) (snd p)) (combine a b).

(** [s.sum()] of a boolean series *)
Definition count_true (s : list bool) : nat :=
  List.length (filter (fun b => b) s).

(** [s.mean()]: missing entries are skipped, the sum of the others is
    divided by their number; NaN when nothing is left. *)
Definition mean {fl : Float64} (s : list pyfloat) : pyfloat :=
  let v := dropna s in
  match v with
  | [] => NaN
  | _ :: _ => fl_div (fl_sum v) (Float.of_nat (List.length v))
  end.

Definition smaller (x y : pyfloat) : pyfloat := if Float.le x y then x else y.
Definition larger (x y : pyfloat) : pyfloat := if Float.le x y then y else x.

(** [s.min()] and [s.max()], missing entries skipped. *)
Definition min (s : list pyfloat) : pyfloat :=
  match dropna s with
  | [] => NaN
  | x :: rest => fold_left smaller rest x
  end.

Definition max (s : list pyfloat) : pyfloat :=
  match dropna s with
  | [] => NaN
  | x :: rest => fold_left larger rest x
  end.

Fixpoint insert_sorted (x : pyfloat) (s : list pyfloat) : list pyfloat :=
  match s with
  | [] => [x]
  | y :: rest => if Float.le x y then x :: s else y :: insert_sorted x rest
  end.

Definition sort (s : list pyfloat) : list pyfloat :=
  fold_right insert_sorted [] s.

(** [s.median()]: the middle of the sorted non-missing entries, the mean
    of the two middle ones when their number is even. *)
Definition median {fl : Float64} (s : list pyfloat) : pyfloat :=
  let v := sort (dropna s) in
  let n := List.length v in
  match v with
  | [] => NaN
  | _ :: _ =>
      if Nat.even n
      then fl_div (fl_add (nth (n / 2 - 1) v NaN) (nth (n / 2) v NaN))
                  (Fin 2)
      else nth (n / 2) v NaN
  end.

(** [pd.to_numeric(series, errors="coerce")], one entry: what does not
    convert becomes NaN. *)
Definition to_numeric (v : pyval) : pyfloat :=
  match py_float v with
  | Ok x => x
  | Raise _ => NaN
  end.

End Series.

(* ================================================================== *)
(** ** historical_analytics.py *)

Module HistoricalAnalytics.

(** A thresholds dict; [thresholds.get("safe")] is [None] when the key is
    absent. *)
Record thresholds : Type := {
  safe : option pyfloat;
  hazard : option pyfloat
}.

Definition mk_thresholds (s h : Q) : thresholds :=
  {| safe := Some (Fin s); hazard := Some (Fin h) |}.

Definition DEFAULT_THRESHOLDS : list (string * thresholds) :=
  [ ("aqi", mk_thresholds 50 200);
    ("pm2_5", mk_thresholds 12.0 55.4);
    ("pm10", mk_thresholds 54.0 254.0);
    ("o3", mk_thresholds 70.0 200.0);
    ("no2", mk_thresholds 100.0 400.0);
    ("so2", mk_thresholds 20.0 500.0);
    ("co", mk_thresholds 1000.0 10000.0) ].

(** [d.get(key, default)] on a dict kept as an association list *)
Fixpoint dict_get {V : Type} (d : list (string * V)) (key : string)
  (default : V) : V :=
  match d with
  | [] => default
  | (k, v) :: rest => if String.eqb k key then v else dict_get rest key default
  end.

Inductive trend_label : Type :=
| worsening
| improving
| no_change.

Definition _safe_count (series : list pyfloat) (safe_threshold : pyfloat)
  : pyfloat :=
  match Series.dropna series with
  | [] => Fin 0
  | _ :: _ =>
      Float.mul
        (Float.div
           (Float.of_nat
              (Series.count_true
                 (map (fun x => Float.gt x safe_threshold) series)))
           (Float.of_nat (List.length series)))
        (Fin 100)
  end.

Definition _count_hazard_entries (series : list pyfloat)
  (hazard_threshold : pyfloat) : nat :=
  let s := Series.fillna NegInf series in
  let above := map (fun x => Float.gt x hazard_threshold) s in
  let edges := Series.band (map negb (Series.shift1 false above)) above in
  Series.count_true edges.

(** [_detect_trend].  The two means, their difference and the quotient
    are rounded; [abs] is exact. *)
Definition _detect_trend {fl : Float64} (series : list pyfloat)
  : trend_label :=
  let vals := Series.dropna series in
  let n := List.length vals in
  if n <? 6 then no_change
  else
    let third := Nat.max 1 (n / 3) in
    let first := firstn third vals in
    let last := skipn (n - third) vals in
    let mean_first := Series.mean first in
    let mean_last := Series.mean last in
    if isnan mean_first || isnan mean_last then no_change
    else
      let rel_change :=
        if Float.neb mean_first (Fin 0)
        then fl_div (fl_sub mean_last mean_first) (Float.abs mean_first)
        else Fin 0 in
      if (10 <=? n) && Float.ge rel_change (Fin 0.05) then worsening
      else if (10 <=? n) && Float.le rel_change (Fin (-0.05)) then improving
      else no_change.

Record pollutant_summary : Type := {
  n_measurements : nat;
  min : option pyfloat;
  max : option pyfloat;
  mean : option pyfloat;
  median : option pyfloat;
  percent_above_safe : option pyfloat;
  hazard_entries : option nat;
  trend : option trend_label
}.

(** [float(x) if not pd.isna(x) else None] *)
Definition present (x : pyfloat) : option pyfloat :=
  if isnan x then None else Some x.

(** A threshold that is given and is not NaN. *)
Definition usable (th : option pyfloat) : option pyfloat :=
  match th with
  | Some t => if isnan t then None else Some t
  | None => None
  end.

(** The thresholds in force: the caller's, or the defaults of the
    pollutant, or NaN for a pollutant without defaults. *)
Definition effective_thresholds (name : string) (ths : option thresholds)
  : thresholds :=
  match ths with
  | Some t => t
  | None =>
      dict_get DEFAULT_THRESHOLDS name
        {| safe := Some NaN; hazard := Some NaN |}
  end.

Definition analyze_pollutant {fl : Float64} (series : list pyval)
  (name : string) (ths : option thresholds) : pollutant_summary :=
  let ths := effective_thresholds name ths in
  let safe_th := safe ths in
  let hazard_th := hazard ths in
  let s := map Series.to_numeric series in
  let n := Series.count s in
  let result :=
    {| n_measurements := n;
       min := None; max := None; mean := None; median := None;
       percent_above_safe := None; hazard_entries := None;
       trend := None |} in
  if n =? 0 then result
  else
    {| n_measurements := n;
       min := present (Series.min s);
       max := present (Series.max s);
       mean := present (Series.mean s);
       median := present (Series.median s);
       percent_above_safe :=
         match usable safe_th with
         | Some t => Some (_safe_count s t)
         | None => None
         end;
       hazard_entries :=
         match usable hazard_th with
         | Some t => Some (_count_hazard_entries s t)
         | None => None
         end;
       trend := Some (_detect_trend s) |}.

(** A data frame by columns: the number of its rows and, under each
    column name, the series of that column.  Column names are taken to be
    distinct. *)
Record frame : Type := {
  frame_len : nat;
  frame_columns : list (string * list pyval)
}.

(** [df[name]] when [name in df.columns] *)
Fixpoint column (cols : list (string * list pyval)) (name : string)
  : option (list pyval) :=
  match cols with
  | [] => None
  | (k, v) :: rest => if String.eqb k name then Some v else column rest name
  end.

(** [thresholds.get(p)] on the per-pollutant dict *)
Fixpoint thresholds_get (d : list (string * thresholds)) (p : string)
  : option thresholds :=
  match d with
  | [] => None
  | (k, v) :: rest => if String.eqb k p then Some v else thresholds_get rest p
  end.

Definition POLLUTANTS : list string :=
  ["aqi"; "pm2_5"; "pm10"; "o3"; "no2"; "so2"; "co"].

Record city_history : Type := {
  pollutants : list (string * pollutant_summary);
  n_rows : nat
}.

Definition analyze_city_history {fl : Float64} (df : frame)
  (ths : option (list (string * thresholds))) : city_history :=
  let ths :=
    match ths with
    | Some t => t
    | None => DEFAULT_THRESHOLDS
    end in
  {| pollutants :=
       flat_map
         (fun p =>
            match column (frame_columns df) p with
            | Some series =>
                [(p, analyze_pollutant series p (thresholds_get ths p))]
            | None => []
            end)
         POLLUTANTS;
     n_rows := frame_len df |}.

End HistoricalAnalytics.


(* ================================================================== *)
(** ** history_analyzer.py *)

Module HistoryAnalyzer.

(** A parsed [pd.Timestamp], by what the analyzer uses of it: its place on
    the time line (nanoseconds since the epoch, which orders timestamps
    and gives the calendar day of a naive timestamp) and the texts pandas
    renders for it. *)
Record Timestamp : Type := {
  ts_ns : Z;
  ts_str : string;       (* str(ts) *)
  ts_iso : string;       (* ts.isoformat() *)
  ts_date : string       (* str(ts.date()) *)
}.

Definition NS_PER_DAY : Z := 86400000000000.

Definition day_of (t : Timestamp) : Z := (ts_ns t / NS_PER_DAY)%Z.

(** One row of the data frame read from the CSV, after
    [pd.to_datetime(..., errors="coerce")]: an unparseable timestamp is
    NaT ([None] here), a missing cell is NaN. *)
Record Row : Type := {
  col_timestamp : option Timestamp;
  col_city : option string;
  col_aqi : pyval;
  col_pm2_5 : pyval
}.

Definition BAD_LEVELS : list string := ["Unhealthy"; "Hazardous"].
Definition MODERATE_OR_WORSE_LEVELS : list string :=
  ["Moderate"; "Unhealthy"; "Hazardous"].

(** An interpretation dict after the analyzer has added its ["driver"]
    and ["__idx"] keys. *)
Record annotated : Type := {
  base : DecisionEngine.interpretation;
  driver : string;
  idx : nat
}.

Record count_pct : Type := {
  count : nat;
  pct : pyfloat
}.

Record worst_entry : Type := {
  worst_timestamp : option string;
  worst_risk_level : string;
  worst_reasons : list string;
  determined_by : string
}.

Record day_stat : Type := {
  date : string;
  moderate_or_worse_share : pyfloat;
  unhealthy_or_worse_share : pyfloat;
  n : nat;
  representative_worst : annotated
}.

Record city_summary : Type := {
  city : string;
  total_measurements : nat;
  dropped_rows : nat;
  period_start : option string;
  period_end : option string;
  distribution : list (string * count_pct);
  moderate_or_worse_share_pct : pyfloat;
  unhealthy_or_worse_share_pct : pyfloat;
  drivers_distribution : list (string * count_pct);
  worst_moment : option worst_entry;
  top_bad_windows_moderate_or_worse : list day_stat;
  top_bad_windows_unhealthy_or_worse : list day_stat;
  top_bad_windows : list day_stat;
  summary : string
}.

Fixpoint mapM {A B : Type} (f : A -> result B) (xs : list A)
  : result (list B) :=
  match xs with
  | [] => Ok []
  | x :: rest =>
      y <- f x ;;
      ys <- mapM f rest ;;
      Ok (y :: ys)
  end.

Definition _apply_interpret_row (row : Row)
  : result DecisionEngine.interpretation :=
  DecisionEngine.interpret (col_aqi row) (col_pm2_5 row)
    (match col_timestamp row with
     | Some ts => Some (ts_str ts)
     | None => None
     end)
    (col_city row).

(** [df["city"] == city] *)
Definition city_is (c : string) (row : Row) : bool :=
  match col_city row with
  | Some c' => String.eqb c' c
  | None => false
  end.

(** [mask_missing], one row *)
Definition mask_missing (row : Row) : bool :=
  match col_timestamp row with None => true | Some _ => false end
  || (isna (col_aqi row) && isna (col_pm2_5 row)).

(** The driver label of a row, from its two sub-levels. *)
Definition driver_of (row : Row) : result string :=
  a_level <- DecisionEngine._aqi_to_level (col_aqi row) ;;
  p_level <- DecisionEngine._pm25_to_level (col_pm2_5 row) ;;
  Ok (if p_level <? a_level then "AQI"
      else if a_level <? p_level then "PM2.5"
      else "Both").

(** [Counter(xs)]: counts by key, keys in first-seen order. *)
Fixpoint counter_add (k : string) (c : list (string * nat))
  : list (string * nat) :=
  match c with
  | [] => [(k, 1)]
  | (k', m) :: rest =>
      if String.eqb k' k then (k', S m) :: rest
      else (k', m) :: counter_add k rest
  end.

Definition Counter (xs : list string) : list (string * nat) :=
  fold_left (fun c k => counter_add k c) xs [].

Fixpoint counter_get (c : list (string * nat)) (k : string) : nat :=
  match c with
  | [] => 0
  | (k', m) :: rest => if String.eqb k' k then m else counter_get rest k
  end.

(** [float(c / total * 100) if total > 0 else 0.0] *)
Definition share (c total : nat) : pyfloat :=
  if 0 <? total
  then Float.mul (Float.div (Float.of_nat c) (Float.of_nat total)) (Fin 100)
  else Fin 0.

Definition sum_in (levels : list string) (c : list (string * nat)) : nat :=
  fold_left Nat.add
    (map snd (filter (fun kv => DecisionEngine.mem (fst kv) levels) c)) 0.

(** The timestamp of a retained row; retained rows have one. *)
Definition stamp (row : Row) : Timestamp :=
  match col_timestamp row with
  | Some ts => ts
  | None => {| ts_ns := 0; ts_str := ""; ts_iso := ""; ts_date := "" |}
  end.

(** [min()] and [max()] of a column of timestamps. *)
Definition earliest (ts : list Timestamp) : option Timestamp :=
  match ts with
  | [] => None
  | t :: rest =>
      Some (fold_left (fun m x => if (ts_ns x <? ts_ns m)%Z then x else m)
              rest t)
  end.

Definition latest (ts : list Timestamp) : option Timestamp :=
  match ts with
  | [] => None
  | t :: rest =>
      Some (fold_left (fun m x => if (ts_ns m <? ts_ns x)%Z then x else m)
              rest t)
  end.

(** Position [i] of a list known to be long enough. *)
Definition at_ {A : Type} (xs : list A) (i : nat) (d : A) : A := nth i xs d.

(** The candidate loop of the worst-moment selection: the first candidate
    with the smallest timestamp. *)
Fixpoint choose_earliest (rows : list Row) (candidates : list annotated)
  (chosen : option annotated) : option annotated :=
  match candidates with
  | [] => chosen
  | c :: rest =>
      let ts := stamp (at_ rows (idx c) (Build_Row None None PyNone PyNone)) in
      match chosen with
      | None => choose_earliest rows rest (Some c)
      | Some ch =>
          let chosen_ts :=
            stamp (at_ rows (idx ch) (Build_Row None None PyNone PyNone)) in
          if (ts_ns ts <? ts_ns chosen_ts)%Z
          then choose_earliest rows rest (Some c)
          else choose_earliest rows rest chosen
      end
  end.

(** A stable sort: every element goes in front of the first one that is
    strictly after it, so equal keys keep their order. *)
Fixpoint insert_by {A : Type} (before : A -> A -> bool) (x : A)
  (s : list A) : list A :=
  match s with
  | [] => [x]
  | y :: rest =>
      if before x y then x :: s else y :: insert_by before x rest
  end.

Definition sorted_by {A : Type} (before : A -> A -> bool) (xs : list A)
  : list A :=
  fold_left (fun acc x => insert_by before x acc) xs [].

(** The distinct calendar days of the retained rows, ascending, as
    [groupby("date")] iterates them. *)
Fixpoint insert_day (d : Z) (ds : list Z) : list Z :=
  match ds with
  | [] => [d]
  | e :: rest =>
      if (d <? e)%Z then d :: ds
      else if (d =? e)%Z then ds
      else e :: insert_day d rest
  end.

Definition days_of (rows : list Row) : list Z :=
  fold_left (fun ds r => insert_day (day_of (stamp r)) ds) rows [].

(** [f"{x:.1f}"], on the exact value: one decimal, ties to even. *)
Definition format_1f (x : pyfloat) : string :=
  match x with
  | NaN => "nan"
  | PosInf => "inf"
  | NegInf => "-inf"
  | Fin q =>
      let z := Float.round_half_even (q * 10) in
      (if Qle_bool 0 q then "" else "-")
      ++ str_of_int (Z.abs z / 10) ++ "." ++ str_of_int (Z.abs z mod 10)
  end.

Definition is_nonempty (s : option string) : bool := DecisionEngine.truthy s.

Definition show_option (s : option string) : string :=
  match s with
  | Some t => t
  | None => "None"
  end.

(** Key [(-score, timestamp)] of the per-day ranking. *)
Definition worse_then_earlier (rows : list Row) (x y : annotated) : bool :=
  let sx := DecisionEngine.score (base x) in
  let sy := DecisionEngine.score (base y) in
  let tx := ts_ns (stamp (at_ rows (idx x) (Build_Row None None PyNone PyNone))) in
  let ty := ts_ns (stamp (at_ rows (idx y) (Build_Row None None PyNone PyNone))) in
  (sy <? sx) || ((sx =? sy) && (tx <? ty)%Z).

(** Keys [(-share, -n)] of the two day rankings. *)
Definition by_share (f : day_stat -> pyfloat) (x y : day_stat) : bool :=
  Float.gt (f x) (f y) || (Float.eqb (f x) (f y) && (n y <? n x)).

Definition level_in (levels : list string) (a : annotated) : bool :=
  DecisionEngine.mem (DecisionEngine.risk_level (base a)) levels.

Definition day_stats_of (rows : list Row) (interpretations : list annotated)
  : list day_stat :=
  flat_map
    (fun d =>
       let g :=
         filter
           (fun a =>
              (day_of (stamp (at_ rows (idx a)
                                (Build_Row None None PyNone PyNone))) =? d)%Z)
           interpretations in
       match g, sorted_by (worse_then_earlier rows) g with
       | [], _ | _, [] => []
       | member :: _, top :: _ =>
           let n := List.length g in
           let unhealthy_n := List.length (filter (level_in BAD_LEVELS) g) in
           let moderate_n :=
             List.length (filter (level_in MODERATE_OR_WORSE_LEVELS) g) in
           [ {| date :=
                  ts_date (stamp (at_ rows (idx member)
                                    (Build_Row None None PyNone PyNone)));
                moderate_or_worse_share := share moderate_n n;
                unhealthy_or_worse_share := share unhealthy_n n;
                n := n;
                representative_worst := top |} ]
       end)
    (days_of rows).

(** The narrative sentence for a non-empty set of measurements. *)
Definition narrative (first_ts last_ts : option Timestamp)
  (period_start period_end : option string)
  (moderate_share unhealthy_share : pyfloat) (worst : option worst_entry)
  (drivers_distribution : list (string * count_pct)) : string :=
  let days_span :=
    if is_nonempty period_start && is_nonempty period_end then
      match first_ts, last_ts with
      | Some a, Some b => Some ((ts_ns b - ts_ns a) / NS_PER_DAY + 1)%Z
      | _, _ => None
      end
    else None in
  let span_text :=
    match days_span with
    | Some d =>
        if (0 <? d)%Z then "the last " ++ str_of_int d ++ " days"
        else "the analysed period"
    | None => "the analysed period"
    end in
  let head :=
    "Over " ++ span_text ++ ", Moderate or worse occurred "
    ++ format_1f moderate_share ++ "% of the time; "
    ++ "Unhealthy or worse occurred " ++ format_1f unhealthy_share ++ "%. " in
  let body :=
    match worst with
    | Some w =>
        head ++ "The worst recorded moment was on "
        ++ show_option (worst_timestamp w) ++ " (" ++ worst_risk_level w
        ++ ")."
    | None => head ++ "No single worst moment identified."
    end in
  let top :=
    fold_left
      (fun best kv => if count (snd best) <? count (snd kv) then kv else best)
      (tl drivers_distribution)
      (hd ("AQI", {| count := 0; pct := Fin 0 |}) drivers_distribution) in
  let top_driver := fst top in
  let top_pct := pct (snd top) in
  let driver_text :=
    if String.eqb top_driver "AQI"
    then "AQI category (" ++ format_1f top_pct ++ "%)"
    else if String.eqb top_driver "PM2.5"
    then "PM2.5 (" ++ format_1f top_pct ++ "%)"
    else "both AQI and PM2.5 equally (" ++ format_1f top_pct ++ "%)" in
  body ++ " The risk level was most often driven by " ++ driver_text ++ ".".

(** [analyze_city_from_csv], from the frame that [pd.read_csv] and
    [pd.to_datetime] produced to the dict [out] of lines 197-212.
    [Ok out] says that the computation reaches line 214 with [out], and
    [Raise e] that it raises before.  Whether the call then returns
    [out] is another matter: lines 214-217 write a file first, and the
    module has to compile before any of it runs; both are in
    [run_analyze_city_from_csv] below. *)
Definition analyze_city_from_csv (city_name : string) (df : list Row)
  : result city_summary :=
  let df_city := filter (city_is city_name) df in
  let dropped_rows := List.length (filter mask_missing df_city) in
  let df_city := filter (fun r => negb (mask_missing r)) df_city in
  let total_measurements := List.length df_city in
  outs <- mapM _apply_interpret_row df_city ;;
  drivers <- mapM driver_of df_city ;;
  let interpretations :=
    map (fun p => {| base := fst (fst p); driver := snd (fst p);
                     idx := snd p |})
      (combine (combine outs drivers) (seq 0 (List.length outs))) in
  let level_counts :=
    Counter (map (fun i => DecisionEngine.risk_level (base i))
               interpretations) in
  let distribution :=
    map (fun kv => (fst kv, {| count := snd kv;
                               pct := share (snd kv) total_measurements |}))
      level_counts in
  let unhealthy_count := sum_in BAD_LEVELS level_counts in
  let unhealthy_or_worse_share_pct := share unhealthy_count total_measurements in
  let moderate_count := sum_in MODERATE_OR_WORSE_LEVELS level_counts in
  let moderate_or_worse_share_pct := share moderate_count total_measurements in
  let driver_counts := Counter drivers in
  let drivers_distribution :=
    map (fun k => (k, {| count := counter_get driver_counts k;
                         pct := share (counter_get driver_counts k)
                                  total_measurements |}))
      ["AQI"; "PM2.5"; "Both"] in
  let first_ts :=
    if 0 <? total_measurements then earliest (map stamp df_city) else None in
  let last_ts :=
    if 0 <? total_measurements then latest (map stamp df_city) else None in
  let period_start := option_map ts_iso first_ts in
  let period_end := option_map ts_iso last_ts in
  worst <-
    (match interpretations with
     | [] => Ok None
     | _ :: _ =>
         let max_score :=
           fold_left Nat.max
             (map (fun i => DecisionEngine.score (base i)) interpretations)
             0 in
         let candidates :=
           filter (fun i => DecisionEngine.score (base i) =? max_score)
             interpretations in
         match choose_earliest df_city candidates None with
         | None => Ok None
         | Some chosen =>
             determined <-
               (match nth_error df_city (idx chosen) with
                | Some orig_row => driver_of orig_row
                | None => Ok (driver chosen)
                end) ;;
             Ok (Some
                   {| worst_timestamp :=
                        Some (ts_iso
                                (stamp (at_ df_city (idx chosen)
                                          (Build_Row None None PyNone
                                             PyNone))));
                      worst_risk_level :=
                        DecisionEngine.risk_level (base chosen);
                      worst_reasons := DecisionEngine.reasons (base chosen);
                      determined_by := determined |})
         end
     end) ;;
  let day_stats :=
    if 0 <? total_measurements then day_stats_of df_city interpretations
    else [] in
  let top_moderate :=
    firstn 3 (sorted_by (by_share moderate_or_worse_share) day_stats) in
  let top_unhealthy :=
    firstn 3 (sorted_by (by_share unhealthy_or_worse_share) day_stats) in
  let summary :=
    if total_measurements =? 0
    then "No valid measurements for " ++ city_name
         ++ " in the provided file."
    else narrative first_ts last_ts period_start period_end
           moderate_or_worse_share_pct unhealthy_or_worse_share_pct worst
           drivers_distribution in
  Ok {| city := city_name;
        total_measurements := total_measurements;
        dropped_rows := dropped_rows;
        period_start := period_start;
        period_end := period_end;
        distribution := distribution;
        moderate_or_worse_share_pct := moderate_or_worse_share_pct;
        unhealthy_or_worse_share_pct := unhealthy_or_worse_share_pct;
        drivers_distribution := drivers_distribution;
        worst_moment := worst;
        top_bad_windows_moderate_or_worse := top_moderate;
        top_bad_windows_unhealthy_or_worse := top_unhealthy;
        top_bad_windows := top_moderate;
        summary := summary |}.

(** *** A call, as a run of the program *)

(** How a run ends: it returns, or it fails because the module does not
    compile, because the file system refuses, or because an exception of
    the computation is not caught. *)
Inductive failure : Type :=
| SyntaxError
| OSError
| Uncaught (e : exn).

Inductive run (A : Type) : Type :=
| Returns (a : A)
| Fails (f : failure).

Arguments Returns {A} a.
Arguments Fails {A} f.

(** The lines of [history_analyzer.py] that hold a triple quote.  There
    is one: line 1 opens the docstring of the module, and no line of the
    file closes it. *)
Definition TRIPLE_QUOTE_LINES : list nat := [1].

(** Compiling a module whose triple quotes all delimit strings: they
    open and close a string in turn, and a string that is still open at
    the end of the file is a [SyntaxError] (unterminated triple-quoted
    string literal).  Python compiles the whole file before it runs any
    statement of it, under [import] and as a script alike. *)
Definition compile_module (triple_quote_lines : list nat) : run unit :=
  if Nat.even (List.length triple_quote_lines) then Returns tt
  else Fails SyntaxError.

(** The file system, by what lines 214-217 ask of it: whether
    [output_dir.mkdir(parents=True, exist_ok=True)] succeeds, and whether
    the file at a path can be opened for writing and written. *)
Record filesystem : Type := {
  mkdir_ok : string -> bool;
  open_ok : string -> bool
}.

(** [output_dir / f"history_summary_{city}.json"] *)
Definition out_path (output_dir city : string) : string :=
  output_dir ++ "/history_summary_" ++ city ++ ".json".

(** Lines 214-217; neither call is inside a [try]. *)
Definition write_summary (fs : filesystem) (output_dir city : string)
  : run unit :=
  if mkdir_ok fs output_dir
  then (if open_ok fs (out_path output_dir city) then Returns tt
        else Fails OSError)
  else Fails OSError.

(** A call of [analyze_city_from_csv] in a program whose module has the
    given triple quotes: the module is compiled, the summary computed,
    the file written, and the summary returned. *)
Definition run_analyze_city_from_csv (triple_quote_lines : list nat)
  (fs : filesystem) (output_dir city : string) (df : list Row)
  : run city_summary :=
  match compile_module triple_quote_lines with
  | Fails f => Fails f
  | Returns _ =>
      match analyze_city_from_csv city df with
      | Raise e => Fails (Uncaught e)
      | Ok out =>
          match write_summary fs output_dir city with
          | Fails f => Fails f
          | Returns _ => Returns out
          end
      end
  end.

End HistoryAnalyzer.

(* ================================================================== *)
(** ** city_report_builder.py *)

Module CityReportBuilder.

(** [_safe_get(row, col)], on the cell of the column ([None] when the row
    has no such column): a missing cell is handed on as [None]. *)
Definition _safe_get (cell : option pyval) : pyval :=
  match cell with
  | None => PyNone
  | Some v => if isna v then PyNone else v
  end.

(** [xs[-1]] of a list that may be empty. *)
Definition iloc_last {A : Type} (xs : list A) : option A :=
  match xs with
  | [] => None
  | x :: rest => Some (last rest x)
  end.

(** [row["timestamp"]] is not NaT. *)
Definition notna_timestamp (row : HistoryAnalyzer.Row) : bool :=
  match HistoryAnalyzer.col_timestamp row with
  | Some _ => true
  | None => false
  end.

Section Current.

(** [df_city.sort_values("timestamp")]: ascending, rows without a
    timestamp last.  pandas sorts with numpy's default kind, which is not
    stable, so the order among rows of equal timestamp is not fixed by the
    source; the sort is a parameter, and what is proved about [last_row]
    is proved for every sort that orders the frame. *)
Variable sort_values : list HistoryAnalyzer.Row -> list HistoryAnalyzer.Row.

(** The row [build_city_report] calls [last], for the rows of the city;
    [None] stands for the branch of an empty [df_city], where no row is
    picked. *)
Definition last_row (df_city : list HistoryAnalyzer.Row)
  : option HistoryAnalyzer.Row :=
  match df_city with
  | [] => None
  | _ :: _ =>
      if existsb notna_timestamp df_city
      then iloc_last (sort_values df_city)
      else iloc_last df_city
  end.

End Current.

(** The value that the local variable [decision] holds after lines
    82-96, for the row [last]: the two readings go through [_safe_get],
    the timestamp is the ISO text or [None], and any exception of
    [interpret] gives [None].  This is not yet an entry of a report:
    lines 98-110 convert the cells and call the history analyzer, and
    either can raise, so a report that carries this value is returned
    only if they do not. *)
Definition decision (last : HistoryAnalyzer.Row) (city : string)
  : option DecisionEngine.interpretation :=
  let aqi_val := _safe_get (Some (HistoryAnalyzer.col_aqi last)) in
  let pm25_val := _safe_get (Some (HistoryAnalyzer.col_pm2_5 last)) in
  match
    DecisionEngine.interpret aqi_val pm25_val
      (match HistoryAnalyzer.col_timestamp last with
       | Some ts => Some (HistoryAnalyzer.ts_iso ts)
       | None => None
       end)
      (Some city)
  with
  | Ok d => Some d
  | Raise _ => None
  end.

(** The value line 99 computes for the [timestamp] entry of
    [current]. *)
Definition current_timestamp (last : HistoryAnalyzer.Row) : option string :=
  match HistoryAnalyzer.col_timestamp last with
  | Some ts => Some (HistoryAnalyzer.ts_iso ts)
  | None => None
  end.

(** *** The report *)

(** The [current] dict of a report, for a frame with the columns
    [timestamp], [city], [aqi] and [pm2_5], as the parser of this
    repository writes it: [_safe_get] answers [None] for the columns
    [pm10], [o3], [no2], [so2] and [co], which the row does not have, so
    these five entries are [None] and their conversions are not
    reached. *)
Record current_entry : Type := {
  cur_timestamp : option string;
  aqi_category : option Z;
  pm2_5 : option pyfloat;
  cur_decision : option DecisionEngine.interpretation
}.

(** The report, by its entries [city], [current] and [history].  The
    entries [generated_at], [indicators], [handbook_mode] and [notes] are
    computed after [history]; the handbook is read inside [try] with
    [except Exception], and the rest are constants and the clock, so none
    of them changes whether a report is returned. *)
Record city_report : Type := {
  report_city : string;
  current : current_entry;
  history : HistoryAnalyzer.city_summary
}.

(** [current] of the branch of an empty [df_city]. *)
Definition no_current : current_entry :=
  {| cur_timestamp := None;
     aqi_category := None;
     pm2_5 := None;
     cur_decision := None |}.

(** [f(v) if v is not None else None] *)
Definition unless_none {A : Type} (f : pyval -> result A) (v : pyval)
  : result (option A) :=
  match v with
  | PyNone => Ok None
  | _ => bind (f v) (fun x => Ok (Some x))
  end.

Section Report.

Variable sort_values : list HistoryAnalyzer.Row -> list HistoryAnalyzer.Row.

(** [int(v)] of a cell that is no float: a text, in a column that pandas
    read as objects.  The model keeps of such a cell its text and its
    conversion to a float, which do not settle what [int] makes of it
    (["3.0"] converts to a float and is refused by [int]), so this is a
    parameter, given the text of the cell. *)
Variable int_of_object : string -> result Z.

(** [int(v)]: a float is truncated toward zero; NaN and the infinities
    raise. *)
Definition py_int (v : pyval) : result Z :=
  match v with
  | PyNone => Raise TypeError
  | PyFloat (Fin q) _ => Ok (Z.quot (Qnum q) (Zpos (Qden q)))
  | PyFloat NaN _ => Raise ValueError
  | PyFloat _ _ => Raise OverflowError
  | PyOther shown _ => int_of_object shown
  end.

(** Lines 73-108 for the row [last]: the entries of the dict are
    evaluated in the order they are written, and neither conversion is
    inside a [try]. *)
Definition current_of (last : HistoryAnalyzer.Row) (city : string)
  : result current_entry :=
  let aqi_val := _safe_get (Some (HistoryAnalyzer.col_aqi last)) in
  let pm25_val := _safe_get (Some (HistoryAnalyzer.col_pm2_5 last)) in
  let decision := decision last city in
  bind (unless_none py_int aqi_val) (fun a =>
  bind (unless_none py_float pm25_val) (fun p =>
  Ok {| cur_timestamp := current_timestamp last;
        aqi_category := a;
        pm2_5 := p;
        cur_decision := decision |})).

(** A call of [build_city_report], on the frame that [pd.read_csv] and
    [pd.to_datetime] produced from an input file that exists.  Line 31
    imports [history_analyzer], so that module is compiled before any
    line of the function runs; line 110 (line 68 for a city without
    rows) calls the history analyzer on the same file, with the output
    directory [outputs]. *)
Definition run_build_city_report (triple_quote_lines : list nat)
  (fs : HistoryAnalyzer.filesystem) (city : string)
  (df : list HistoryAnalyzer.Row) : HistoryAnalyzer.run city_report :=
  match HistoryAnalyzer.compile_module triple_quote_lines with
  | HistoryAnalyzer.Fails f => HistoryAnalyzer.Fails f
  | HistoryAnalyzer.Returns _ =>
      let df_city := filter (HistoryAnalyzer.city_is city) df in
      let with_history (cur : current_entry) :=
        match
          HistoryAnalyzer.run_analyze_city_from_csv triple_quote_lines fs
            "outputs" city df
        with
        | HistoryAnalyzer.Fails f => HistoryAnalyzer.Fails f
        | HistoryAnalyzer.Returns h =>
            HistoryAnalyzer.Returns
              {| report_city := city; current := cur; history := h |}
        end in
      match df_city with
      | [] => with_history no_current
      | _ :: _ =>
          match last_row sort_values df_city with
          | None => HistoryAnalyzer.Fails (HistoryAnalyzer.Uncaught IndexError)
          | Some last =>
              match current_of last city with
              | Raise e => HistoryAnalyzer.Fails (HistoryAnalyzer.Uncaught e)
              | Ok cur => with_history cur
              end
          end
      end
  end.

End Report.

End CityReportBuilder.


(* ================================================================== *)
(** ** Text of a timestamp cell *)

(** A Python [str] where its characters matter: the list of its code
    points.  The functions are those of pandas' [.str] accessor on one
    element. *)
Module Str.

Definition pystr : Type := list N.

Definition BOM : N := 0xfeff.
Definition SPACE : N := 0x20.
Definition LETTER_T : N := 0x54.
Definition LETTER_Z : N := 0x5a.

(** [.str.replace(c, "", regex=False)] for a pattern of one character *)
Definition remove (c : N) (s : pystr) : pystr :=
  filter (fun x => negb (x =? c)%N) s.

(** [.str.replace(c, d, regex=False)] for one character by another *)
Definition replace (c d : N) (s : pystr) : pystr :=
  map (fun x => if (x =? c)%N then d else x) s.

(** [.str.replace(r"[\x00-\x1f]", "", regex=True)] *)
Definition remove_controls (s : pystr) : pystr :=
  filter (fun x => negb (x <=? 0x1f)%N) s.

(** [str.isspace] of one character: the characters [str.strip()]
    removes. *)
Definition isspace (x : N) : bool :=
  ((0x9 <=? x) && (x <=? 0xd)
   || (0x1c <=? x) && (x <=? 0x20)
   || (x =? 0x85) || (x =? 0xa0) || (x =? 0x1680)
   || (0x2000 <=? x) && (x <=? 0x200a)
   || (x =? 0x2028) || (x =? 0x2029) || (x =? 0x202f)
   || (x =? 0x205f) || (x =? 0x3000))%N.

Fixpoint lstrip (s : pystr) : pystr :=
  match s with
  | [] => []
  | x :: rest => if isspace x then lstrip rest else s
  end.

Definition rstrip (s : pystr) : pystr := rev (lstrip (rev s)).

(** [.str.strip()] *)
Definition strip (s : pystr) : pystr := rstrip (lstrip s).

End Str.

(* ================================================================== *)
(** ** json_to_csv_parser.py *)

Module JsonToCsvParser.

(** What [json.load] returns: [None], a bool, an int, a float, a str, a
    list, or a dict (by its items; [get] reads it by key). *)
#[warnings="-register-all"]
Inductive json : Type :=
| JNull
| JBool (b : bool)
| JInt (z : Z)
| JFloat (x : pyfloat)
| JString (s : Str.pystr)
| JArray (items : list json)
| JObject (fields : list (string * json)).

(** [bool(v)] *)
Definition truthy (v : json) : bool :=
  match v with
  | JNull => false
  | JBool b => b
  | JInt z => negb (z =? 0)%Z
  | JFloat (Fin q) => negb (Qeq_bool q 0)
  | JFloat _ => true
  | JString s => match s with [] => false | _ :: _ => true end
  | JArray items => match items with [] => false | _ :: _ => true end
  | JObject fields => match fields with [] => false | _ :: _ => true end
  end.

(** [d.get(k)] of a dict: the value, [None] when the key is absent. *)
Fixpoint get (fields : list (string * json)) (k : string) : json :=
  match fields with
  | [] => JNull
  | (k', v) :: rest => if String.eqb k' k then v else get rest k
  end.

(** A call returns, or raises [AttributeError] at a [.get] on a value
    that is no dict. *)
Inductive outcome (A : Type) : Type :=
| Returned (a : A)
| AttributeError.

Arguments Returned {A} a.
Arguments AttributeError {A}.

Record parsed : Type := {
  timestamp : json;
  city : json;
  aqi : json;
  pm2_5 : json
}.

Definition parse_record (rec : json) : outcome parsed :=
  match rec with
  | JObject fields =>
      let ts := get fields "timestamp" in
      let city := get fields "city" in
      let data :=
        if truthy (get fields "data") then get fields "data"
        else JObject [] in
      match data with
      | JObject dfields =>
          Returned {| timestamp := ts;
                      city := city;
                      aqi := get dfields "aqi";
                      pm2_5 := get dfields "pm2_5" |}
      | _ => AttributeError
      end
  | _ => AttributeError
  end.

(** The loop over the records of one file. *)
Fixpoint parse_records (recs : list json) (rows : list parsed)
  : outcome (list parsed) :=
  match recs with
  | [] => Returned rows
  | rec :: rest =>
      match parse_record rec with
      | Returned parsed => parse_records rest (append rows parsed)
      | AttributeError => AttributeError
      end
  end.

(** The loop of [read_all] that collects [rows], over the files in the
    order [find_json_files] gives them.  A file is given by what
    [json.load] made of it, [None] when opening or loading it raised
    (the exception is caught and the file skipped). *)
Fixpoint read_rows (files : list (option json)) (rows : list parsed)
  : outcome (list parsed) :=
  match files with
  | [] => Returned rows
  | f :: rest =>
      match f with
      | None => read_rows rest rows
      | Some (JArray obj) =>
          match parse_records obj rows with
          | Returned rows' => read_rows rest rows'
          | AttributeError => AttributeError
          end
      | Some _ => read_rows rest rows
      end
  end.

(** The cleaning of one timestamp text in [read_all]; a missing value
    stays missing. *)
Definition ts_clean (ts_raw : option Str.pystr) : option Str.pystr :=
  option_map
    (fun s =>
       Str.remove Str.LETTER_Z
         (Str.replace Str.LETTER_T Str.SPACE
            (Str.strip (Str.remove_controls (Str.remove Str.BOM s)))))
    ts_raw.

End JsonToCsvParser.

(* ================================================================== *)
(** ** timestamp_cleaner.py *)

Module TimestampCleaner.

(** The cleaning of one timestamp text, as [main] chains it. *)
Definition ts_clean (ts_raw : option Str.pystr) : option Str.pystr :=
  option_map
    (fun s =>
       Str.remove Str.LETTER_Z
         (Str.replace Str.LETTER_T Str.SPACE
            (Str.strip (Str.remove_controls (Str.remove Str.BOM s)))))
    ts_raw.

(** What [main] writes.  [cleaned] is the frame written to the output
    path, before [sort_values] orders it, each row with its new timestamp
    cell; [invalid] is the frame written to the invalid-rows path, [None]
    when that file is not written. *)
Record written (R T : Type) : Type := {
  dropped_invalid : bool;
  cleaned : list (R * option T);
  invalid : option (list R)
}.

Arguments dropped_invalid {R T} w.
Arguments cleaned {R T} w.
Arguments invalid {R T} w.

Section Main.

(** A row of the CSV, with the text of its timestamp cell, and
    [pd.to_datetime(..., errors="coerce")] on one cleaned text. *)
Context {R T : Type}.
Variable timestamp_of : R -> option Str.pystr.
Variable to_datetime : option Str.pystr -> option T.

Definition parsed_of (row : R) : option T :=
  to_datetime (ts_clean (timestamp_of row)).

Definition is_invalid (row : R) : bool :=
  match parsed_of row with
  | None => true
  | Some _ => false
  end.

(** [main], from the frame read to the frames written.  The rate is the
    exact quotient; in float64 the comparison with 0.05 comes out the
    same for every frame of fewer than 10^15 rows. *)
Definition main (df : list R) : written R T :=
  let total_rows := List.length df in
  let n_invalid := List.length (filter is_invalid df) in
  let invalid_rate :=
    if 0 <? total_rows
    then Float.div (Float.of_nat n_invalid) (Float.of_nat total_rows)
    else Fin 0 in
  let invalid_out :=
    if 0 <? n_invalid then Some (filter is_invalid df) else None in
  let threshold := Fin (5 # 100) in
  if Float.lt invalid_rate threshold
  then {| dropped_invalid := true;
          cleaned :=
            map (fun row => (row, parsed_of row))
              (filter (fun row => negb (is_invalid row)) df);
          invalid := invalid_out |}
  else {| dropped_invalid := false;
          cleaned := map (fun row => (row, parsed_of row)) df;
          invalid := invalid_out |}.

End Main.

End TimestampCleaner.

(* ================================================================== *)
(** * The specification's notions

    Definitions that follow the words of the specification, to be
    compared with the code, and the concrete inputs used below. *)

Import DecisionEngine.
Import HistoricalAnalytics.
Import HistoryAnalyzer.

(** ** Classifier *)

(** A reading whose conversion [float(.)] is NaN or infinite; [round]
    raises on exactly those. *)
Definition unroundable (v : pyval) : bool :=
  match py_float v with
  | Ok (Fin _) => false
  | Ok _ => true
  | Raise _ => false
  end.

(** Deduplication by exact match in first-seen order, as the
    specification words it: keep an item when it has not been seen. *)
Fixpoint first_seen (recs seen : list string) : list string :=
  match recs with
  | [] => []
  | r :: rest =>
      if mem r seen then first_seen rest seen
      else r :: first_seen rest (r :: seen)
  end.

(** The cell pandas gives for a missing value, and a reading that is not
    a number. *)
Definition nan_cell : pyval := PyFloat NaN "nan".
Definition text_abc : pyval := PyOther "abc" None.

(** ** Pollutant statistics *)









(** Rising-edge crossings in the words of the specification: a sample
    counts when the value before it, a missing one taken as minus
    infinity, is at most the threshold and the sample itself is above.
    Nothing precedes the first sample: its predecessor is missing. *)
Fixpoint crossings (previous : pyfloat) (series : list pyfloat)
  (hazard_threshold : pyfloat) : nat :=
  match series with
  | [] => 0
  | x :: rest =>
      let current := if isnan x then NegInf else x in
      (if Float.le previous hazard_threshold
          && Float.gt current hazard_threshold
       then 1 else 0)
      + crossings current rest hazard_threshold
  end.

(** The samples above the threshold. *)
Definition samples_above (series : list pyfloat) (hazard_threshold : pyfloat)
  : nat :=
  List.length (filter (fun x => Float.gt x hazard_threshold) series).

(** The edge count of a boolean series whose predecessor flag is [b]. *)
Definition rises (b : bool) (above : list bool) : nat :=
  Series.count_true
    (Series.band (map negb (b :: removelast above)) above).

(** The non-missing entries strictly above the safe threshold. *)
Definition above_safe (t : pyfloat) (s : list pyfloat) : list pyfloat :=
  filter (fun x => negb (isnan x) && Float.gt x t) s.

(** ** City history *)



(** The rows kept for the city, as the analyzer selects them. *)
Definition retained (city_name : string) (df : list Row) : list Row :=
  filter (fun r => negb (mask_missing r)) (filter (city_is city_name) df).

Definition stamp_1 : Timestamp :=
  {| ts_ns := 1700000000000000000;
     ts_str := "2023-11-14 22:13:20";
     ts_iso := "2023-11-14T22:13:20";
     ts_date := "2023-11-14" |}.

Definition stamp_2 : Timestamp :=
  {| ts_ns := 1700100000000000000;
     ts_str := "2023-11-16 02:00:00";
     ts_iso := "2023-11-16T02:00:00";
     ts_date := "2023-11-16" |}.

(** A row with both readings and no parseable timestamp, and a row with a
    timestamp and neither reading. *)
Definition row_without_timestamp : Row :=
  {| col_timestamp := None;
     col_city := Some "Almaty";
     col_aqi := PyFloat (Fin 3) "3.0";
     col_pm2_5 := PyFloat (Fin 40) "40.0" |}.


(** Rows with a timestamp and one of the two readings. *)
Definition row_without_index : Row :=
  {| col_timestamp := Some stamp_1;
     col_city := Some "Almaty";
     col_aqi := nan_cell;
     col_pm2_5 := PyFloat (Fin 10) "10.0" |}.

Definition row_without_particulate : Row :=
  {| col_timestamp := Some stamp_1;
     col_city := Some "Almaty";
     col_aqi := PyFloat (Fin 2) "2.0";
     col_pm2_5 := nan_cell |}.

Definition row_complete : Row :=
  {| col_timestamp := Some stamp_2;
     col_city := Some "Almaty";
     col_aqi := PyFloat (Fin 2) "2.0";
     col_pm2_5 := PyFloat (Fin 40) "40.0" |}.

(** ** Notions used by the further properties *)

(** A float that is a number: neither NaN nor an infinity. *)
Definition finite (x : pyfloat) : bool :=
  match x with Fin _ => true | _ => false end.

(** A frame whose columns come in another order than the pollutant list,
    with a column that is no pollutant. *)
Definition frame_co_city_aqi : frame :=
  {| frame_len := 2;
     frame_columns :=
       [ ("co", [PyFloat (Fin 900) "900.0"; PyFloat (Fin 1200) "1200.0"]);
         ("city", [PyOther "Almaty" None; PyOther "Almaty" None]);
         ("aqi", [PyFloat (Fin 2) "2.0"; PyFloat (Fin 3) "3.0"]) ] |}.

(** The interpretations of the retained rows with their driver and
    position, as [analyze_city_from_csv] builds them. *)
Definition annotate (outs : list interpretation) (drivers : list string)
  : list annotated :=
  map (fun p => {| base := fst (fst p); driver := snd (fst p);
                   idx := snd p |})
    (combine (combine outs drivers) (seq 0 (List.length outs))).

(** The empty row that stands for a position outside the frame. *)
Definition no_row : Row := Build_Row None None PyNone PyNone.

(** The timestamp, on the time line, of the row an interpretation came
    from. *)
Definition moment (rows : list Row) (a : annotated) : Z :=
  ts_ns (stamp (at_ rows (idx a) no_row)).

(** The counts of a distribution, added up. *)
Definition counted (d : list (string * count_pct)) : nat :=
  list_sum (map (fun kv => count (snd kv)) d).

(** The interpretations at or above a score. *)
Definition at_least (k : nat) (outs : list interpretation)
  : list interpretation :=
  filter (fun i => k <=? score i) outs.

(** The worst-moment selection of [analyze_city_from_csv], on the
    retained rows and their interpretations. *)
Definition worst_of (df_city : list Row) (interpretations : list annotated)
  : result (option worst_entry) :=
  match interpretations with
  | [] => Ok None
  | _ :: _ =>
      let max_score :=
        fold_left Nat.max
          (map (fun i => score (base i)) interpretations) 0 in
      let candidates :=
        filter (fun i => score (base i) =? max_score) interpretations in
      match choose_earliest df_city candidates None with
      | None => Ok None
      | Some chosen =>
          determined <-
            (match nth_error df_city (idx chosen) with
             | Some orig_row => driver_of orig_row
             | None => Ok (driver chosen)
             end) ;;
          Ok (Some
                {| worst_timestamp :=
                     Some (ts_iso (stamp (at_ df_city (idx chosen) no_row)));
                   worst_risk_level := risk_level (base chosen);
                   worst_reasons := reasons (base chosen);
                   determined_by := determined |})
      end
  end.

(** A small frame: three retained rows of Almaty on two days, one row
    that is dropped, and a row of another city. *)
Definition stamp_3 : Timestamp :=
  {| ts_ns := 1700100001000000000;
     ts_str := "2023-11-16 02:00:01";
     ts_iso := "2023-11-16T02:00:01";
     ts_date := "2023-11-16" |}.

Definition row_index_driven : Row :=
  {| col_timestamp := Some stamp_1;
     col_city := Some "Almaty";
     col_aqi := PyFloat (Fin 3) "3.0";
     col_pm2_5 := PyFloat (Fin 10) "10.0" |}.

Definition row_normal : Row :=
  {| col_timestamp := Some stamp_3;
     col_city := Some "Almaty";
     col_aqi := PyFloat (Fin 1) "1.0";
     col_pm2_5 := PyFloat (Fin 10) "10.0" |}.

Definition row_elsewhere : Row :=
  {| col_timestamp := Some stamp_3;
     col_city := Some "Astana";
     col_aqi := PyFloat (Fin 5) "5.0";
     col_pm2_5 := PyFloat (Fin 80) "80.0" |}.

Definition sample_frame : list Row :=
  [row_complete; row_without_timestamp; row_index_driven; row_elsewhere;
   row_normal].

(** Interpretations listed by increasing position. *)
Fixpoint ascending (l : list annotated) : Prop :=
  match l with
  | [] => True
  | a :: rest => (forall b, In b rest -> idx a < idx b) /\ ascending rest
  end.

(** [a] comes before [b] in the order of the worst-moment selection:
    earlier on the time line, or at the same instant and not later in the
    frame. *)
Definition not_after (rows : list Row) (a b : annotated) : Prop :=
  (moment rows a < moment rows b)%Z
  \/ (moment rows a = moment rows b /\ idx a <= idx b).

(** A list in which every element stands in [R] to all that follow it. *)
Fixpoint ranked {A : Type} (R : A -> A -> Prop) (l : list A) : Prop :=
  match l with
  | [] => True
  | x :: rest => (forall y, In y rest -> R x y) /\ ranked R rest
  end.

(** Day [x] ranks no lower than day [y] by the share [f]: its share is at
    least that of [y], and with equal shares it has at least as many
    measurements. *)
Definition no_worse (f : day_stat -> pyfloat) (x y : day_stat) : Prop :=
  Float.le (f y) (f x) = true
  /\ (Float.eqb (f x) (f y) = true -> n y <= n x).

(** Position [j] of the retained rows falls on calendar day [d]. *)
Definition on_day (rows : list Row) (d : Z) (j : nat) : bool :=
  (day_of (stamp (at_ rows j no_row)) =? d)%Z.

(** The interpretation at position [j] has score [k] or more. *)
Definition scored (outs : list interpretation) (k j : nat) : bool :=
  match nth_error outs j with
  | Some o => k <=? score o
  | None => false
  end.

(** ** Notions for the report builder *)

(** Row [x] may stand before row [y] in a frame sorted by timestamp with
    the rows without a timestamp last. *)
Definition precedes (x y : Row) : Prop :=
  match col_timestamp y with
  | None => True
  | Some ty =>
      match col_timestamp x with
      | Some tx => (ts_ns tx <= ts_ns ty)%Z
      | None => False
      end
  end.

(** What [sort_values("timestamp")] promises, whatever its algorithm: the
    same rows, in ascending order of timestamp, those without one last. *)
Definition sorts_by_timestamp (sort : list Row -> list Row) : Prop :=
  forall df,
    (forall r, In r (sort df) <-> In r df)
    /\ List.length (sort df) = List.length df
    /\ ranked precedes (sort df).

(** A sort with that contract: insertion by timestamp. *)
Definition earlier (x y : Row) : bool :=
  match col_timestamp x, col_timestamp y with
  | Some tx, Some ty => (ts_ns tx <? ts_ns ty)%Z
  | Some _, None => true
  | None, _ => false
  end.

Definition insertion_sort_values (df : list Row) : list Row :=
  sorted_by earlier df.

(** ** Notions for the timestamp texts *)

(** A character the cleaning leaves in place: no byte-order mark, no
    control character, neither [T] nor [Z]. *)
Definition clean_char (x : N) : bool :=
  (negb (x =? Str.BOM) && negb (x <=? 0x1f)
   && negb (x =? Str.LETTER_T) && negb (x =? Str.LETTER_Z))%N.

(** The cleaning of a text that is present. *)
Definition cleaned_text (s : Str.pystr) : Str.pystr :=
  Str.remove Str.LETTER_Z
    (Str.replace Str.LETTER_T Str.SPACE
       (Str.strip (Str.remove_controls (Str.remove Str.BOM s)))).

(** The code points of an ASCII text. *)
Definition code_points (s : string) : Str.pystr :=
  map N_of_ascii (list_ascii_of_string s).

(** ** Notions for the parser and the cleaner *)

(** A record [parse_record] can read: a dict whose ["data"] is falsy (or
    absent) or a dict. *)
Definition readable_record (rec : JsonToCsvParser.json) : bool :=
  match rec with
  | JsonToCsvParser.JObject fields =>
      match JsonToCsvParser.get fields "data" with
      | JsonToCsvParser.JObject _ => true
      | v => negb (JsonToCsvParser.truthy v)
      end
  | _ => false
  end.

(** The records a file contributes: the elements of its top-level list;
    none when the file could not be loaded or holds no list. *)
Definition records_of (f : option JsonToCsvParser.json)
  : list JsonToCsvParser.json :=
  match f with
  | Some (JsonToCsvParser.JArray obj) => obj
  | _ => []
  end.

(** Sample files: one that cannot be loaded, one with a dict at top
    level, and one with two records, the second without data. *)
Definition record_with_data : JsonToCsvParser.json :=
  JsonToCsvParser.JObject
    [ ("timestamp", JsonToCsvParser.JString (code_points "2024-01-01T10:00:00Z"));
      ("city", JsonToCsvParser.JString (code_points "Almaty"));
      ("aqi", JsonToCsvParser.JInt 5);
      ("data", JsonToCsvParser.JObject
                 [ ("aqi", JsonToCsvParser.JInt 2);
                   ("pm2_5", JsonToCsvParser.JFloat (Fin 40)) ]) ].

Definition record_without_data : JsonToCsvParser.json :=
  JsonToCsvParser.JObject
    [ ("city", JsonToCsvParser.JString (code_points "Almaty"));
      ("data", JsonToCsvParser.JNull) ].

Definition record_with_text_data : JsonToCsvParser.json :=
  JsonToCsvParser.JObject
    [ ("city", JsonToCsvParser.JString (code_points "Almaty"));
      ("data", JsonToCsvParser.JString (code_points "n/a")) ].

Definition sample_files : list (option JsonToCsvParser.json) :=
  [ None;
    Some (JsonToCsvParser.JObject [("data", JsonToCsvParser.JArray [])]);
    Some (JsonToCsvParser.JArray [record_with_data; record_without_data]) ].

(** A stand-in for [pd.to_datetime] on the sample texts: a text of the
    form of ["2024-01-01 10:00:00"] is read as its length, anything else
    is not a date. *)
Definition sample_to_datetime (c : option Str.pystr) : option nat :=
  match c with
  | Some s => if List.length s =? 19 then Some 19 else None
  | None => None
  end.

Definition sample_cells : list (option Str.pystr) :=
  [ Some (code_points "2024-01-01T10:00:00Z");
    Some (code_points "yesterday");
    Some (code_points " 2024-01-02 11:30:00") ].

(** ** Runs of the program *)

(** The triple quotes [history_analyzer.py] would have with its docstring
    closed on a line of its own below the last line of its text, line
    14. *)
Definition triple_quotes_closed : list nat := [1; 15].

(** A text holds the path separator. *)
Fixpoint has_separator (s : string) : bool :=
  match s with
  | EmptyString => false
  | String c rest => Ascii.eqb c "/" || has_separator rest
  end.

(** What is left of a text behind a prefix. *)
Fixpoint behind (prefix s : string) : option string :=
  match prefix, s with
  | EmptyString, _ => Some s
  | String a prefix', String b s' =>
      if Ascii.eqb a b then behind prefix' s' else None
  | String _ _, EmptyString => None
  end.

(** A file system where the directory [outputs] can be made and holds no
    directory: a file opens for writing exactly when it lies in
    [outputs] itself. *)
Definition fs_outputs : filesystem :=
  {| mkdir_ok := fun dir => String.eqb dir "outputs";
     open_ok := fun path =>
       match behind "outputs/" path with
       | Some name => negb (has_separator name)
       | None => false
       end |}.

(** [int] of a text, for the texts of the examples: no text is an
    integer literal. *)
Definition int_of_no_literal (shown : string) : result Z := Raise ValueError.

(** A row whose index cell holds a text. *)
Definition row_with_text_index : Row :=
  {| col_timestamp := Some stamp_2;
     col_city := Some "Almaty";
     col_aqi := PyOther "3.0" (Some (Fin 3));
     col_pm2_5 := PyFloat (Fin 40) "40.0" |}.

(* ================================================================== *)
(** * Properties *)

(** ** Comparisons of floats *)

Ltac break_if :=
  match goal with
  | |- context [if ?b then _ else _] => destruct b eqn:?
  | H : context [if ?b then _ else _] |- _ => destruct b eqn:?
  end.

Lemma gt_not_le (a b : pyfloat) : Float.gt a b = true -> Float.le a b = false.
Proof.
  destruct a, b; simpl; try discriminate; try reflexivity.
  intros H. apply negb_true_iff in H. exact H.
Qed.

Lemma le_not_gt (a b : pyfloat) : Float.le a b = true -> Float.gt a b = false.
Proof.
  destruct a, b; simpl; try discriminate; try reflexivity.
  intros H. rewrite H. reflexivity.
Qed.

Lemma gt_negb_le (a b : pyfloat) :
  isnan a = false -> isnan b = false -> Float.gt a b = negb (Float.le a b).
Proof. destruct a, b; simpl; try discriminate; reflexivity. Qed.

Lemma le_trans_fin (a : pyfloat) (p q : Q) :
  (p <= q)%Q -> Float.le a (Fin p) = true -> Float.le a (Fin q) = true.
Proof.
  intros Hpq. destruct a; simpl; try discriminate; try reflexivity.
  rewrite !Qle_bool_iff. intros H. lra.
Qed.

Lemma eqb_fin (a : pyfloat) (c : Q) :
  Float.eqb a (Fin c) = true -> exists q, a = Fin q /\ (q == c)%Q.
Proof.
  destruct a; simpl; try discriminate.
  intros H. exists q. split; [reflexivity | now apply Qeq_bool_eq].
Qed.

Lemma round_half_even_comp (p q : Q) :
  (p == q)%Q -> Float.round_half_even p = Float.round_half_even q.
Proof.
  intros H. unfold Float.round_half_even.
  rewrite (Qfloor_comp _ _ H).
  assert (E : (p - inject_Z (Qfloor q) == q - inject_Z (Qfloor q))%Q)
    by (rewrite H; reflexivity).
  rewrite (Qleb_comp _ _ E _ _ (Qeq_refl _)).
  rewrite (Qeqb_comp _ _ E _ _ (Qeq_refl _)).
  reflexivity.
Qed.

Lemma round_half_even_Z (z : Z) :
  Float.round_half_even (inject_Z z) = z.
Proof.
  unfold Float.round_half_even. rewrite Qfloor_Z.
  assert (E : (inject_Z z - inject_Z z == 0)%Q) by ring.
  rewrite (Qleb_comp _ _ E _ _ (Qeq_refl _)).
  rewrite (Qeqb_comp _ _ E _ _ (Qeq_refl _)).
  reflexivity.
Qed.

(** ** The classifier *)

Lemma pm25_level_total (v : pyval) :
  exists l, _pm25_to_level v = Ok l /\ l <= 3.
Proof.
  unfold _pm25_to_level.
  destruct (is_none v); [exists 0; split; [reflexivity | lia] |].
  destruct (py_float v); [| exists 0; split; [reflexivity | lia]].
  repeat break_if; eexists; (split; [reflexivity | lia]).
Qed.

Lemma aqi_level_of_float_bound (a : pyfloat) (l : nat) :
  aqi_level_of_float a = Ok l -> l <= 3.
Proof.
  unfold aqi_level_of_float. intros H.
  destruct (Float.le a (Fin 5)).
  - destruct (Float.round a); simpl in H; [| discriminate].
    repeat break_if; injection H as <-; lia.
  - repeat break_if; injection H as <-; lia.
Qed.

Lemma aqi_level_bound (v : pyval) (l : nat) :
  _aqi_to_level v = Ok l -> l <= 3.
Proof.
  unfold _aqi_to_level. intros H.
  destruct (is_none v); [injection H as <-; lia |].
  destruct (py_float v); [| injection H as <-; lia].
  eapply aqi_level_of_float_bound; eassumption.
Qed.

Lemma index_level_names (l : nat) :
  l <= 3 -> exists name, index LEVEL_NAMES l = Ok name.
Proof.
  intros H.
  destruct l as [|[|[|[|l]]]]; try lia; eexists; reflexivity.
Qed.

Lemma aqi_level_returns (v : pyval) :
  unroundable v = false -> exists l, _aqi_to_level v = Ok l.
Proof.
  unfold unroundable, _aqi_to_level.
  destruct v as [|x s|s [x|]]; simpl; eauto;
    destruct x; try discriminate; intros _;
    unfold aqi_level_of_float; simpl;
    repeat break_if; eauto.
Qed.

Lemma reason_strings_returns (a p : pyval) :
  unroundable a = false -> exists rs, _reason_strings a p = Ok rs.
Proof.
  intros Ha.
  destruct (pm25_level_total p) as (lp & Hp & Hlp).
  destruct (index_level_names lp Hlp) as (np & Hnp).
  assert (P2 : forall parts1, exists rs,
    (parts2 <-
       (if negb (is_none p) then
          l <- _pm25_to_level p ;;
          name <- index LEVEL_NAMES l ;;
          Ok (append parts1
                ("PM2.5=" ++ py_format p ++ " µg/m3 (" ++ name ++ ")"))
        else Ok (append parts1 "PM2.5=missing")) ;;
     Ok parts2) = Ok rs).
  { intros parts1. destruct (negb (is_none p)).
    - rewrite Hp. simpl. rewrite Hnp. simpl. eauto.
    - simpl. eauto. }
  unfold _reason_strings.
  destruct (negb (is_none a)) eqn:Hn; [| simpl; apply P2].
  unfold unroundable in Ha.
  destruct (py_float a) as [x|e]; [| simpl; apply P2].
  destruct x; try discriminate.
  destruct (aqi_level_returns (PyFloat (Fin q) "") eq_refl) as (la & Hla).
  change (aqi_level_of_float (Fin q) = Ok la) in Hla.
  destruct (index_level_names la
              (aqi_level_of_float_bound _ _ Hla)) as (na & Hna).
  destruct (Float.le (Fin q) (Fin 5)); cbn [bind Float.round];
    rewrite Hla; cbn [bind]; rewrite Hna; cbn [bind]; apply P2.
Qed.

Lemma interpret_inv (a p : pyval) (ts c : option string)
  (out : interpretation) :
  interpret a p ts c = Ok out ->
  exists la lp rs name,
    _aqi_to_level a = Ok la /\ _pm25_to_level p = Ok lp /\
    _reason_strings a p = Ok rs /\
    index LEVEL_NAMES (Nat.max la lp) = Ok name /\
    score out = Nat.max la lp /\
    risk_level out = name /\
    reasons out = rs /\
    recommendations out =
      dedup_loop (adjust_recommendations (Nat.max la lp) la lp) [] [].
Proof.
  unfold interpret. intros H.
  destruct (_aqi_to_level a) as [la|] eqn:Ea; [| discriminate].
  destruct (_pm25_to_level p) as [lp|] eqn:Ep; [| discriminate].
  cbn [bind] in H.
  destruct (_reason_strings a p) as [rs|] eqn:Er; [| discriminate].
  cbn [bind] in H.
  destruct (index LEVEL_NAMES (Nat.max la lp)) as [name|] eqn:En;
    [| discriminate].
  cbn [bind] in H. injection H as <-.
  exists la, lp, rs, name. auto 10.
Qed.

Lemma interpret_returns (a p : pyval) (ts c : option string) :
  unroundable a = false -> exists out, interpret a p ts c = Ok out.
Proof.
  intros Ha. unfold interpret.
  destruct (aqi_level_returns a Ha) as (la & Hla).
  destruct (pm25_level_total p) as (lp & Hlp & Blp).
  destruct (reason_strings_returns a p Ha) as (rs & Hrs).
  pose proof (aqi_level_bound _ _ Hla) as Bla.
  destruct (index_level_names (Nat.max la lp)) as (name & Hn); [lia |].
  rewrite Hla, Hlp. cbn [bind]. rewrite Hrs. cbn [bind].
  rewrite Hn. cbn [bind]. eauto.
Qed.

Lemma interpret_raises (a p : pyval) (ts c : option string) :
  unroundable a = true -> exists e, interpret a p ts c = Raise e.
Proof.
  unfold unroundable, interpret, _aqi_to_level, _reason_strings.
  destruct (pm25_level_total p) as (lp & Hlp & _). rewrite Hlp.
  destruct a as [|x s|s [x|]]; simpl; try discriminate;
    destruct x; try discriminate; intros _; simpl; eauto.
Qed.

(** *** Deduplication *)

Lemma mem_In (x : string) (xs : list string) : mem x xs = true <-> In x xs.
Proof.
  unfold mem. rewrite existsb_exists. split.
  - intros (y & Hy & E). apply String.eqb_eq in E. now subst.
  - intros H. exists x. split; [exact H | apply String.eqb_refl].
Qed.

Lemma first_seen_fresh (recs seen : list string) (x : string) :
  In x (first_seen recs seen) -> In x recs /\ ~ In x seen.
Proof.
  revert seen. induction recs as [|r rest IH]; intros seen; simpl.
  - intros [].
  - destruct (mem r seen) eqn:E.
    + intros H. destruct (IH _ H). tauto.
    + intros [<- | H].
      * split; [now left |]. intros Hin. apply mem_In in Hin. congruence.
      * destruct (IH _ H) as [H1 H2]. split; [now right |].
        intros Hin. apply H2. now right.
Qed.

Lemma first_seen_NoDup (recs seen : list string) :
  NoDup (first_seen recs seen).
Proof.
  revert seen. induction recs as [|r rest IH]; intros seen; simpl.
  - constructor.
  - destruct (mem r seen); [apply IH |].
    constructor; [| apply IH].
    intros H. apply first_seen_fresh in H. destruct H as [_ H].
    apply H. now left.
Qed.

Lemma first_seen_complete (recs seen : list string) (x : string) :
  In x recs -> ~ In x seen -> In x (first_seen recs seen).
Proof.
  revert seen. induction recs as [|r rest IH]; intros seen; simpl.
  - intros [].
  - intros [-> | H] Hs.
    + destruct (mem x seen) eqn:E; [apply mem_In in E; tauto | now left].
    + destruct (mem r seen) eqn:E; [now apply IH |].
      destruct (String.eqb_spec r x) as [-> | N]; [now left |].
      right. apply IH; [exact H |]. intros [E' | E']; tauto.
Qed.

(** The loop is that deduplication cut after six items. *)
Lemma dedup_loop_first_seen (recs seen deduped : list string) :
  List.length deduped < 6 ->
  dedup_loop recs seen deduped
  = firstn 6 (deduped ++ first_seen recs seen)%list.
Proof.
  revert seen deduped.
  induction recs as [|r rest IH]; intros seen deduped Hlen;
    cbn [dedup_loop first_seen].
  - rewrite app_nil_r. symmetry. apply firstn_all2. lia.
  - destruct (mem r seen) eqn:E.
    + destruct (Nat.leb_spec 6 (List.length deduped)); [lia |].
      now apply IH.
    + unfold append.
      destruct (Nat.leb_spec 6 (List.length (deduped ++ [r])%list))
        as [H6 | H6].
      * rewrite length_app in H6. cbn [List.length] in H6.
        change (r :: first_seen rest (r :: seen))
          with ([r] ++ first_seen rest (r :: seen))%list.
        rewrite app_assoc.
        replace 6 with (List.length (deduped ++ [r])%list + 0)
          by (rewrite length_app; cbn [List.length]; lia).
        rewrite firstn_app_2. cbn [firstn]. now rewrite app_nil_r.
      * rewrite IH by exact H6.
        now rewrite <- app_assoc.
Qed.

Lemma firstn_incl {A : Type} (k : nat) (l : list A) (x : A) :
  In x (firstn k l) -> In x l.
Proof.
  revert k. induction l as [|y l IH]; intros [|k]; simpl; try tauto.
  intros [-> | H]; [now left | right; eapply IH; eassumption].
Qed.

Lemma firstn_NoDup {A : Type} (k : nat) (l : list A) :
  NoDup l -> NoDup (firstn k l).
Proof.
  revert k. induction l as [|x l IH]; intros [|k] H; simpl;
    try constructor.
  - inversion H; subst. intros Hin. apply firstn_incl in Hin. contradiction.
  - inversion H; subst. now apply IH.
Qed.

Lemma dedup_loop_shape (recs : list string) :
  let out := dedup_loop recs [] [] in
  out = firstn 6 (first_seen recs []) /\ NoDup out /\ List.length out <= 6.
Proof.
  cbv zeta. rewrite dedup_loop_first_seen by (simpl; lia).
  rewrite app_nil_l. repeat split.
  - apply firstn_NoDup, first_seen_NoDup.
  - apply firstn_le_length.
Qed.

(** *** What [interpret] returns, when it returns *)

(** [interpret] returns exactly when rounding the primary reading does
    not raise. *)
Lemma interpret_returns_iff (a p : pyval) (ts c : option string) :
  returns (interpret a p ts c) <-> unroundable a = false.
Proof.
  split.
  - intros (out & H). destruct (unroundable a) eqn:E; [| reflexivity].
    destruct (interpret_raises a p ts c E) as (e & He). congruence.
  - apply interpret_returns.
Qed.

(** On every input on which [interpret] returns, the score is the larger
    of the two sub-levels, both within 0..3, and the label is the name of
    the score. *)
Lemma score_is_max_when_returned (a p : pyval) (ts c : option string)
  (out : interpretation) :
  interpret a p ts c = Ok out ->
  exists la lp,
    _aqi_to_level a = Ok la /\ _pm25_to_level p = Ok lp /\
    la <= 3 /\ lp <= 3 /\
    score out = Nat.max la lp /\
    index LEVEL_NAMES (score out) = Ok (risk_level out).
Proof.
  intros H.
  destruct (interpret_inv _ _ _ _ _ H)
    as (la & lp & rs & name & Ha & Hp & _ & Hn & Hs & Hr & _).
  exists la, lp. rewrite Hs, Hr.
  destruct (pm25_level_total p) as (lp' & Hp' & B).
  assert (lp' = lp) by congruence. subst lp'.
  pose proof (aqi_level_bound _ _ Ha). auto 10.
Qed.

(** A change of the input that is not dominant leaves the score as it
    is, unless the changed input becomes the larger one. *)
Lemma non_dominant_change (a p p' : pyval) (ts c : option string)
  (out out' : interpretation) (la lp lp' : nat) :
  interpret a p ts c = Ok out -> interpret a p' ts c = Ok out' ->
  _aqi_to_level a = Ok la -> _pm25_to_level p = Ok lp ->
  _pm25_to_level p' = Ok lp' ->
  lp <= la -> lp' <= la -> score out' = score out.
Proof.
  intros H H' Ha Hp Hp' L L'.
  destruct (score_is_max_when_returned _ _ _ _ _ H)
    as (x & y & Hx & Hy & _ & _ & Hs & _).
  destruct (score_is_max_when_returned _ _ _ _ _ H')
    as (x' & y' & Hx' & Hy' & _ & _ & Hs' & _).
  assert (x = la) by congruence. assert (x' = la) by congruence.
  assert (y = lp) by congruence. assert (y' = lp') by congruence.
  subst. lia.
Qed.

(** On every input on which [interpret] returns, the recommendations are
    the three base items of the score, followed by the refinements, with
    no duplicate and at most six. *)
Lemma recommendations_when_returned (a p : pyval) (ts c : option string)
  (out : interpretation) :
  interpret a p ts c = Ok out ->
  exists la lp,
    _aqi_to_level a = Ok la /\ _pm25_to_level p = Ok lp /\
    let recs := recommendations out in
    3 <= List.length recs <= 6 /\
    NoDup recs /\
    firstn 3 recs = _base_recommendations (score out) /\
    recs = firstn 6 (first_seen (adjust_recommendations (score out) la lp) [])
    /\ (In REC_USE_MASK recs \/ In REC_AVOID_ROADS recs -> 2 <= lp)
    /\ (In REC_MEDICAL_PLANS recs -> 2 <= la).
Proof.
  intros H.
  destruct (interpret_inv _ _ _ _ _ H)
    as (la & lp & rs & name & Ha & Hp & _ & _ & Hs & _ & _ & Hr).
  exists la, lp. split; [exact Ha |]. split; [exact Hp |].
  cbv zeta. rewrite Hr, Hs.
  destruct (dedup_loop_shape (adjust_recommendations (Nat.max la lp) la lp))
    as (E & N & _).
  split; [| split; [exact N | split; [| split; [exact E |]]]].
  - pose proof (aqi_level_bound _ _ Ha) as Ba.
    destruct (pm25_level_total p) as (lp' & Hp' & Bp).
    assert (lp' = lp) by congruence. subst lp'.
    clear - Ba Bp.
    destruct la as [|[|[|[|la]]]]; try lia;
      destruct lp as [|[|[|[|lp]]]]; try lia; vm_compute; lia.
  - pose proof (aqi_level_bound _ _ Ha) as Ba.
    destruct (pm25_level_total p) as (lp' & Hp' & Bp).
    assert (lp' = lp) by congruence. subst lp'.
    clear - Ba Bp.
    destruct la as [|[|[|[|la]]]]; try lia;
      destruct lp as [|[|[|[|lp]]]]; try lia; reflexivity.
  - pose proof (aqi_level_bound _ _ Ha) as Ba.
    destruct (pm25_level_total p) as (lp' & Hp' & Bp).
    assert (lp' = lp) by congruence. subst lp'.
    clear - Ba Bp.
    destruct la as [|[|[|[|la]]]]; try lia;
      destruct lp as [|[|[|[|lp]]]]; try lia;
      (split; [intros [I | I] | intros I]); try lia;
      exfalso; vm_compute in I; intuition discriminate.
Qed.

(** *** Breakpoints *)

Lemma round_half_even_le_5 (q : Q) :
  (q <= 5)%Q -> (Float.round_half_even q <= 5)%Z.
Proof.
  intros H. unfold Float.round_half_even.
  pose proof (Qfloor_resp_le _ _ H) as F.
  change (Qfloor 5) with 5%Z in F.
  destruct (Z.eq_dec (Qfloor q) 5) as [E | N].
  - rewrite E. pose proof (Qfloor_le q) as L. rewrite E in L.
    assert (Z0 : (q - inject_Z 5 == 0)%Q).
    { change (inject_Z 5) with 5%Q in *. lra. }
    rewrite (Qleb_comp _ _ Z0 _ _ (Qeq_refl _)).
    rewrite (Qeqb_comp _ _ Z0 _ _ (Qeq_refl _)).
    vm_compute. discriminate.
  - repeat break_if; lia.
Qed.

(** A finite reading at most 5 has the level of the category it rounds
    to. *)
Lemma category_of_small_reading (q : Q) :
  (q <= 5)%Q ->
  aqi_level_of_float (Fin q)
  = aqi_level_of_float (Float.of_Z (Float.round_half_even q)).
Proof.
  intros H. unfold aqi_level_of_float, Float.of_Z. simpl Float.le.
  assert (H1 : Qle_bool q 5 = true) by now apply Qle_bool_iff.
  assert (H2 : Qle_bool (inject_Z (Float.round_half_even q)) 5 = true).
  { apply Qle_bool_iff. change 5%Q with (inject_Z 5).
    rewrite <- Zle_Qle. now apply round_half_even_le_5. }
  rewrite H1, H2. cbn [Float.round bind].
  now rewrite round_half_even_Z.
Qed.

Lemma aqi_level_of_category (a : pyfloat) (c : Z) :
  (c <= 5)%Z -> Float.eqb a (Float.of_Z c) = true ->
  aqi_level_of_float a = aqi_level_of_float (Float.of_Z c).
Proof.
  intros Hc H. apply eqb_fin in H. destruct H as (q & -> & E).
  rewrite category_of_small_reading.
  - rewrite (round_half_even_comp _ _ E), round_half_even_Z. reflexivity.
  - rewrite E. change 5%Q with (inject_Z 5). now rewrite <- Zle_Qle.
Qed.

Lemma aqi_level_of_conversion (v : pyval) (a : pyfloat) :
  py_float v = Ok a -> _aqi_to_level v = aqi_level_of_float a.
Proof.
  unfold _aqi_to_level.
  destruct v as [|x s|s [x|]]; simpl; try discriminate;
    intros H; injection H as <-; reflexivity.
Qed.

Lemma pm25_level_of_conversion (v : pyval) (p : pyfloat) :
  py_float v = Ok p ->
  _pm25_to_level v =
    if Float.le p (Fin 12.0) then Ok 0
    else if Float.le p (Fin 35.4) then Ok 1
    else if Float.le p (Fin 55.4) then Ok 2
    else Ok 3.
Proof.
  unfold _pm25_to_level.
  destruct v as [|x s|s [x|]]; simpl; try discriminate;
    intros H; injection H as <-; reflexivity.
Qed.

(** C2.  The sub-level mappings realise the breakpoints exactly.  For a
    reading that converts to the float [a]: the categories 1, 2, 3, 4, 5
    give Normal, Moderate, Unhealthy, Unhealthy, Hazardous, and any
    finite reading at most 5 has the level of the category it rounds to;
    above 5 the index ladder is 50 / 100 / 200; the particulate ladder is
    12.0 / 35.4 / 55.4, each bound belonging to the lower level.  In
    particular 120 and 200 are Unhealthy, 201 is Hazardous, 55.4 is
    Unhealthy and 55.41 is Hazardous, under the names Normal = 0,
    Moderate = 1, Unhealthy = 2, Hazardous = 3. *)
Theorem level_breakpoints (v : pyval) (a : pyfloat) :
  py_float v = Ok a ->
  ((Float.eqb a (Fin 1) = true -> _aqi_to_level v = Ok 0) /\
   (Float.eqb a (Fin 2) = true -> _aqi_to_level v = Ok 1) /\
   (Float.eqb a (Fin 3) = true -> _aqi_to_level v = Ok 2) /\
   (Float.eqb a (Fin 4) = true -> _aqi_to_level v = Ok 2) /\
   (Float.eqb a (Fin 5) = true -> _aqi_to_level v = Ok 3) /\
   (forall q, a = Fin q -> (q <= 5)%Q ->
      _aqi_to_level v
      = aqi_level_of_float (Float.of_Z (Float.round_half_even q))))
  /\
  ((Float.gt a (Fin 5) = true -> Float.le a (Fin 50) = true ->
      _aqi_to_level v = Ok 0) /\
   (Float.gt a (Fin 50) = true -> Float.le a (Fin 100) = true ->
      _aqi_to_level v = Ok 1) /\
   (Float.gt a (Fin 100) = true -> Float.le a (Fin 200) = true ->
      _aqi_to_level v = Ok 2) /\
   (Float.gt a (Fin 200) = true -> _aqi_to_level v = Ok 3))
  /\
  ((Float.le a (Fin 12.0) = true -> _pm25_to_level v = Ok 0) /\
   (Float.gt a (Fin 12.0) = true -> Float.le a (Fin 35.4) = true ->
      _pm25_to_level v = Ok 1) /\
   (Float.gt a (Fin 35.4) = true -> Float.le a (Fin 55.4) = true ->
      _pm25_to_level v = Ok 2) /\
   (Float.gt a (Fin 55.4) = true -> _pm25_to_level v = Ok 3))
  /\
  (aqi_level_of_float (Fin 120) = Ok 2 /\
   aqi_level_of_float (Fin 200) = Ok 2 /\
   aqi_level_of_float (Fin 201) = Ok 3 /\
   (forall s, _pm25_to_level (PyFloat (Fin 55.4) s) = Ok 2) /\
   (forall s, _pm25_to_level (PyFloat (Fin 55.41) s) = Ok 3) /\
   LEVEL_NAMES = ["Normal"; "Moderate"; "Unhealthy"; "Hazardous"]).
Proof.
  intros Hv.
  rewrite (aqi_level_of_conversion v a Hv).
  rewrite (pm25_level_of_conversion v a Hv).
  split; [| split; [| split]].
  - repeat split.
    + intros H. now rewrite (aqi_level_of_category a 1 ltac:(lia) H).
    + intros H. now rewrite (aqi_level_of_category a 2 ltac:(lia) H).
    + intros H. now rewrite (aqi_level_of_category a 3 ltac:(lia) H).
    + intros H. now rewrite (aqi_level_of_category a 4 ltac:(lia) H).
    + intros H. now rewrite (aqi_level_of_category a 5 ltac:(lia) H).
    + intros q -> Hq. now apply category_of_small_reading.
  - unfold aqi_level_of_float. repeat split.
    + intros G L. now rewrite (gt_not_le _ _ G), L.
    + intros G L. apply gt_not_le in G.
      assert (G5 : Float.le a (Fin 5) = false).
      { destruct (Float.le a (Fin 5)) eqn:E; [| reflexivity].
        rewrite (le_trans_fin a 5 50) in G; [discriminate | lra | exact E]. }
      now rewrite G5, G, L.
    + intros G L. apply gt_not_le in G.
      assert (G50 : Float.le a (Fin 50) = false).
      { destruct (Float.le a (Fin 50)) eqn:E; [| reflexivity].
        rewrite (le_trans_fin a 50 100) in G; [discriminate | lra | exact E]. }
      assert (G5 : Float.le a (Fin 5) = false).
      { destruct (Float.le a (Fin 5)) eqn:E; [| reflexivity].
        rewrite (le_trans_fin a 5 100) in G; [discriminate | lra | exact E]. }
      now rewrite G5, G50, G, L.
    + intros G. apply gt_not_le in G.
      assert (G100 : Float.le a (Fin 100) = false).
      { destruct (Float.le a (Fin 100)) eqn:E; [| reflexivity].
        rewrite (le_trans_fin a 100 200) in G; [discriminate | lra | exact E]. }
      assert (G50 : Float.le a (Fin 50) = false).
      { destruct (Float.le a (Fin 50)) eqn:E; [| reflexivity].
        rewrite (le_trans_fin a 50 200) in G; [discriminate | lra | exact E]. }
      assert (G5 : Float.le a (Fin 5) = false).
      { destruct (Float.le a (Fin 5)) eqn:E; [| reflexivity].
        rewrite (le_trans_fin a 5 200) in G; [discriminate | lra | exact E]. }
      now rewrite G5, G50, G100, G.
  - repeat split.
    + intros L. now rewrite L.
    + intros G L. now rewrite (gt_not_le _ _ G), L.
    + intros G L. apply gt_not_le in G.
      assert (G12 : Float.le a (Fin 12.0) = false).
      { destruct (Float.le a (Fin 12.0)) eqn:E; [| reflexivity].
        rewrite (le_trans_fin a 12.0 35.4) in G;
          [discriminate | lra | exact E]. }
      now rewrite G12, G, L.
    + intros G. apply gt_not_le in G.
      assert (G35 : Float.le a (Fin 35.4) = false).
      { destruct (Float.le a (Fin 35.4)) eqn:E; [| reflexivity].
        rewrite (le_trans_fin a 35.4 55.4) in G;
          [discriminate | lra | exact E]. }
      assert (G12 : Float.le a (Fin 12.0) = false).
      { destruct (Float.le a (Fin 12.0)) eqn:E; [| reflexivity].
        rewrite (le_trans_fin a 12.0 55.4) in G;
          [discriminate | lra | exact E]. }
      now rewrite G12, G35, G.
  - repeat split; reflexivity.
Qed.

Lemma level_breakpoints_witness :
  _aqi_to_level (PyFloat (Fin 120) "120") = Ok 2
  /\ _aqi_to_level (PyFloat (Fin 4) "4") = Ok 2
  /\ _pm25_to_level (PyOther "55.41" (Some (Fin 55.41))) = Ok 3.
Proof.
  split; [| split].
  - apply (level_breakpoints (PyFloat (Fin 120) "120") (Fin 120) eq_refl);
      reflexivity.
  - apply (level_breakpoints (PyFloat (Fin 4) "4") (Fin 4) eq_refl);
      reflexivity.
  - apply (level_breakpoints (PyOther "55.41" (Some (Fin 55.41)))
             (Fin 55.41) eq_refl); reflexivity.
Defined.

(** *** Readings on which the engine does not answer as specified *)

(** The report builder hands a missing cell on as [None], and then
    [interpret] returns and records the reading as missing; the history
    analyzer passes the cell itself. *)
Lemma missing_cell_through_safe_get (p : pyval) (ts c : option string) :
  exists out,
    interpret (CityReportBuilder._safe_get (Some nan_cell)) p ts c = Ok out
    /\ hd_error (reasons out) = Some "AQI=missing".
Proof.
  change (CityReportBuilder._safe_get (Some nan_cell)) with PyNone.
  destruct (interpret_returns PyNone p ts c eq_refl) as (out & H).
  exists out. split; [exact H |].
  destruct (interpret_inv _ _ _ _ _ H)
    as (la & lp & rs & name & _ & _ & Hr & _ & _ & _ & -> & _).
  unfold _reason_strings in Hr. cbn [is_none negb bind] in Hr.
  destruct (negb (is_none p)).
  - destruct (_pm25_to_level p) as [l|]; [| discriminate].
    cbn [bind] in Hr.
    destruct (index LEVEL_NAMES l); [| discriminate].
    cbn [bind] in Hr. injection Hr as <-. reflexivity.
  - cbn [bind] in Hr. injection Hr as <-. reflexivity.
Qed.

(** C1.  On a primary reading that is the float NaN the two sub-levels
    are defined (3 and 0 here), but [interpret] raises [ValueError] while
    it builds the reason strings, so it returns no score. *)
Theorem interpret_nan_index_no_score :
  _aqi_to_level nan_cell = Ok 3
  /\ _pm25_to_level (PyFloat (Fin 10) "10.0") = Ok 0
  /\ interpret nan_cell (PyFloat (Fin 10) "10.0")
       (Some "2024-01-01 00:00:00") (Some "Almaty")
     = Raise ValueError.
Proof. repeat split; reflexivity. Qed.

(** C4.  A non-numeric particulate reading is not recorded as invalid
    (a non-numeric primary reading is); a NaN primary reading makes
    [interpret] raise; and a NaN particulate reading is graded Hazardous
    and not recorded as missing. *)
Theorem reasons_of_unusable_readings :
  (exists out,
     interpret text_abc text_abc None None = Ok out
     /\ score out = 0
     /\ reasons out = ["AQI=invalid"; "PM2.5=abc µg/m3 (Normal)"])
  /\ interpret nan_cell PyNone None None = Raise ValueError
  /\ interpret (PyFloat NegInf "-inf") PyNone None None
     = Raise OverflowError
  /\ (exists out,
        interpret (PyFloat (Fin 2) "2.0") nan_cell None None = Ok out
        /\ risk_level out = "Hazardous"
        /\ reasons out
           = ["AQI(category)=2 (Moderate)"; "PM2.5=nan µg/m3 (Hazardous)"]).
Proof.
  split; [| split; [| split]].
  - eexists. split; [reflexivity |]. split; reflexivity.
  - reflexivity.
  - reflexivity.
  - eexists. split; [reflexivity |]. split; reflexivity.
Qed.

(** C9.  On a primary reading that is NaN or infinite, also when it
    comes as the text ["inf"], [interpret] raises and returns no
    recommendation list, whatever the particulate reading. *)
Theorem interpret_unrounded_index_no_recommendations :
  interpret nan_cell (PyFloat (Fin 60) "60.0") None None = Raise ValueError
  /\ interpret (PyFloat PosInf "inf") (PyFloat (Fin 60) "60.0") None None
     = Raise OverflowError
  /\ interpret (PyOther "inf" (Some PosInf)) PyNone None None
     = Raise OverflowError.
Proof. repeat split; reflexivity. Qed.

(* ================================================================== *)
(** ** The pollutant statistics *)

(** *** Empty series *)

Section EmptySeries.

Context {fl : Float64}.

(** C5, as the code has it.  When no entry of the series converts to a
    number, the summary has a zero count and every other field absent:
    the six statistics and the trend as well. *)
Theorem analyze_without_measurements (series : list pyval) (name : string)
  (ths : option thresholds) :
  Series.count (map Series.to_numeric series) = 0 ->
  analyze_pollutant series name ths
  = {| n_measurements := 0;
       HistoricalAnalytics.min := None;
       HistoricalAnalytics.max := None;
       mean := None;
       median := None;
       percent_above_safe := None;
       hazard_entries := None;
       trend := None |}.
Proof.
  intros H. unfold analyze_pollutant. rewrite H. reflexivity.
Qed.

End EmptySeries.

Section EmptySeriesExamples.

#[local] Existing Instance binary64.

Lemma analyze_without_measurements_witness :
  trend (analyze_pollutant [PyOther "n/a" None; PyNone; nan_cell] "pm2_5" None)
  = None.
Proof.
  rewrite (analyze_without_measurements
             [PyOther "n/a" None; PyNone; nan_cell] "pm2_5" None eq_refl).
  reflexivity.
Defined.

(** C5, as the specification states it, fails: on a series without any
    number the trend field is absent, it is not [no_change]. *)
Lemma trend_of_empty_series_not_no_change :
  Series.count (map Series.to_numeric [PyOther "n/a" None; PyNone]) = 0
  /\ trend (analyze_pollutant [PyOther "n/a" None; PyNone] "aqi" None)
     <> Some no_change.
Proof. split; [reflexivity | discriminate]. Qed.

End EmptySeriesExamples.

(** *** Trend *)










Section Trend.

Context {fl : Float64}.




End Trend.

Section TrendExamples.

#[local] Existing Instance binary64.


End TrendExamples.

(** *** Hazard entries *)

Lemma rises_cons (b x : bool) (rest : list bool) :
  rises b (x :: rest)
  = (if negb b && x then 1 else 0) + rises x rest.
Proof.
  unfold rises, Series.count_true, Series.band.
  destruct rest as [|y rest].
  - simpl. destruct (negb b && x); reflexivity.
  - change (removelast (x :: y :: rest)) with (x :: removelast (y :: rest)).
    cbn [map combine filter fst snd].
    destruct (negb b && x); reflexivity.
Qed.

Lemma count_hazard_entries_rises (series : list pyfloat) (h : pyfloat) :
  _count_hazard_entries series h
  = rises false
      (map (fun x => Float.gt x h) (Series.fillna NegInf series)).
Proof.
  unfold _count_hazard_entries, rises, Series.shift1.
  destruct (map (fun x => Float.gt x h) (Series.fillna NegInf series));
    reflexivity.
Qed.

Lemma edge_test (previous current h : pyfloat) :
  isnan previous = false -> isnan current = false ->
  negb (Float.gt previous h) && Float.gt current h
  = Float.le previous h && Float.gt current h.
Proof.
  intros P C. destruct (isnan h) eqn:N.
  - destruct h; try discriminate.
    destruct previous, current; reflexivity.
  - rewrite (gt_negb_le previous h P N), negb_involutive. reflexivity.
Qed.

Lemma rises_crossings (previous : pyfloat) (series : list pyfloat)
  (h : pyfloat) :
  isnan previous = false ->
  rises (Float.gt previous h)
    (map (fun x => Float.gt x h) (Series.fillna NegInf series))
  = crossings previous series h.
Proof.
  revert previous. induction series as [|x rest IH]; intros previous P.
  - reflexivity.
  - cbn [Series.fillna map crossings]. rewrite rises_cons.
    assert (C : isnan (if isnan x then NegInf else x) = false)
      by (destruct x; reflexivity).
    rewrite (edge_test previous _ h P C).
    f_equal. apply (IH _ C).
Qed.

Lemma one_episode (h x : pyfloat) (k : nat) :
  Float.gt x h = true -> crossings x (repeat x k) h = 0.
Proof.
  intros G. assert (N : isnan x = false) by (destruct x, h; easy).
  induction k as [|k IH]; [reflexivity |].
  cbn [repeat crossings]. rewrite N, IH, G, (gt_not_le _ _ G). reflexivity.
Qed.

Section HazardEntries.

Context {fl : Float64}.

(** C7.  [hazard_entries] is the number of rising-edge crossings of the
    hazard threshold: samples above it whose predecessor, a missing value
    counting as minus infinity, is at or below it.  It counts episodes,
    not samples: an excursion that stays above the threshold counts once
    however long it is, and the series 0, 0, 600, 600, 600, 0, 600 with
    threshold 500 has 2 entries while 4 of its samples are above. *)
Theorem hazard_entries_rising_edges :
  (forall series h,
     _count_hazard_entries series h = crossings NegInf series h)
  /\ (forall series name ths h,
        Series.count (map Series.to_numeric series) <> 0 ->
        usable (hazard (effective_thresholds name ths)) = Some h ->
        hazard_entries (analyze_pollutant series name ths)
        = Some (crossings NegInf (map Series.to_numeric series) h))
  /\ (forall h x k,
        Float.gt x h = true ->
        _count_hazard_entries (repeat x (S k)) h = 1)
  /\ (let s := map Float.of_Z [0; 0; 600; 600; 600; 0; 600]%Z in
      _count_hazard_entries s (Fin 500) = 2
      /\ samples_above s (Fin 500) = 4).
Proof.
  assert (A : forall series h,
            _count_hazard_entries series h = crossings NegInf series h).
  { intros series h. rewrite count_hazard_entries_rises.
    rewrite <- (rises_crossings NegInf series h eq_refl).
    f_equal. destruct h; reflexivity. }
  split; [exact A |]. split; [| split].
  - intros series name ths h Hn Hh. unfold analyze_pollutant.
    destruct (Nat.eqb_spec (Series.count (map Series.to_numeric series)) 0)
      as [E | _]; [contradiction |].
    cbn [hazard_entries]. rewrite Hh, A. reflexivity.
  - intros h x k G. rewrite A.
    assert (N : isnan x = false) by (destruct x, h; easy).
    cbn [repeat crossings]. rewrite N, (one_episode h x k G), G.
    destruct h; try reflexivity. destruct x; discriminate.
  - split; reflexivity.
Qed.

End HazardEntries.

Section HazardEntriesExamples.

#[local] Existing Instance binary64.

Lemma hazard_entries_rising_edges_witness :
  hazard_entries
    (analyze_pollutant
       [PyFloat (Fin 10) "10.0"; nan_cell; PyFloat (Fin 300) "300.0";
        PyOther "n/a" None; PyFloat (Fin 280) "280.0"]
       "pm10" None)
  = Some 2
  /\ _count_hazard_entries (repeat (Fin 600) 5) (Fin 500) = 1.
Proof.
  split.
  - rewrite (proj1 (proj2 hazard_entries_rising_edges)
               [PyFloat (Fin 10) "10.0"; nan_cell; PyFloat (Fin 300) "300.0";
                PyOther "n/a" None; PyFloat (Fin 280) "280.0"]
               "pm10" None (Fin 254.0) ltac:(discriminate) eq_refl).
    reflexivity.
  - apply (proj1 (proj2 (proj2 hazard_entries_rising_edges))
             (Fin 500) (Fin 600) 4 eq_refl).
Defined.

End HazardEntriesExamples.

(** *** Percent above safe *)

Lemma count_true_map {A : Type} (f : A -> bool) (l : list A) :
  Series.count_true (map f l) = List.length (filter f l).
Proof.
  unfold Series.count_true.
  induction l as [|x l IH]; simpl; [reflexivity |].
  destruct (f x); simpl; now rewrite IH.
Qed.

Lemma gt_excludes_missing (t x : pyfloat) :
  Float.gt x t = negb (isnan x) && Float.gt x t.
Proof. destruct x; reflexivity. Qed.

Lemma of_nat_nonzero (k : nat) :
  Qeq_bool (inject_Z (Z.of_nat (S k))) 0 = false.
Proof. reflexivity. Qed.

Lemma safe_count_ratio (s : list pyfloat) (t : pyfloat) :
  Series.count s <> 0 ->
  _safe_count s t
  = Fin (inject_Z (Z.of_nat (List.length (above_safe t s)))
         / inject_Z (Z.of_nat (List.length s)) * 100).
Proof.
  unfold Series.count, _safe_count, above_safe. intros H.
  destruct (Series.dropna s) eqn:D; [contradiction |].
  rewrite count_true_map.
  rewrite (filter_ext _ _ (gt_excludes_missing t)).
  destruct s as [|x s]; [discriminate |].
  unfold Float.of_nat at 2. cbn [List.length].
  unfold Float.of_nat, Float.div. rewrite of_nat_nonzero. reflexivity.
Qed.

Section PercentAboveSafe.

Context {fl : Float64}.

(** C8.  For a series with at least one entry that converts to a number
    and a safe threshold in force, [percent_above_safe] is the number of
    non-missing entries strictly above the threshold, divided by the
    length of the whole series, missing entries included, times 100. *)
Theorem percent_above_safe_of_whole_length (series : list pyval)
  (name : string) (ths : option thresholds) (t : pyfloat) :
  Series.count (map Series.to_numeric series) <> 0 ->
  usable (safe (effective_thresholds name ths)) = Some t ->
  percent_above_safe (analyze_pollutant series name ths)
  = Some (Fin (inject_Z
                 (Z.of_nat
                    (List.length
                       (above_safe t (map Series.to_numeric series))))
               / inject_Z (Z.of_nat (List.length series)) * 100)).
Proof.
  intros Hn Ht. unfold analyze_pollutant.
  destruct (Nat.eqb_spec (Series.count (map Series.to_numeric series)) 0)
    as [E | _]; [contradiction |].
  cbn [percent_above_safe]. rewrite Ht.
  rewrite (safe_count_ratio _ t Hn), length_map. reflexivity.
Qed.

End PercentAboveSafe.

Section PercentAboveSafeExamples.

#[local] Existing Instance binary64.

Lemma percent_above_safe_of_whole_length_witness :
  percent_above_safe
    (analyze_pollutant
       [PyFloat (Fin 60) "60.0"; nan_cell; PyOther "n/a" None;
        PyFloat (Fin 10) "10.0"]
       "pm2_5" None)
  = Some (Fin (inject_Z 1 / inject_Z 4 * 100)).
Proof.
  apply (percent_above_safe_of_whole_length
           [PyFloat (Fin 60) "60.0"; nan_cell; PyOther "n/a" None;
            PyFloat (Fin 10) "10.0"]
           "pm2_5" None (Fin 12.0)).
  - discriminate.
  - reflexivity.
Defined.

End PercentAboveSafeExamples.

(* ================================================================== *)
(** ** The city history *)



(** What a returned summary says about counts, and what it holds when
    nothing was retained. *)
Lemma analyze_inv (city_name : string) (df : list Row) (out : city_summary) :
  analyze_city_from_csv city_name df = Ok out ->
  total_measurements out = List.length (retained city_name df)
  /\ dropped_rows out
     = List.length (filter mask_missing (filter (city_is city_name) df)).
Proof.
  unfold analyze_city_from_csv, retained. intros H.
  destruct (mapM _apply_interpret_row _) as [outs|]; [| discriminate].
  cbn [bind] in H.
  destruct (mapM driver_of _) as [drivers|]; [| discriminate].
  cbn [bind] in H.
  match type of H with
  | bind ?w _ = _ => destruct w as [worst|]; [| discriminate]
  end.
  cbn [bind] in H. injection H as <-. split; reflexivity.
Qed.

Lemma analyze_nothing_retained (city_name : string) (df : list Row) :
  retained city_name df = [] ->
  exists out,
    analyze_city_from_csv city_name df = Ok out
    /\ city out = city_name
    /\ total_measurements out = 0
    /\ period_start out = None /\ period_end out = None
    /\ worst_moment out = None
    /\ distribution out = []
    /\ top_bad_windows out = []
    /\ summary out
       = "No valid measurements for " ++ city_name
         ++ " in the provided file.".
Proof.
  unfold retained, analyze_city_from_csv. intros E. rewrite E.
  cbn [mapM bind]. eexists. split; [reflexivity |].
  repeat split; reflexivity.
Qed.

(** *** Which rows are retained *)

(** The history analyzer passes the cells of a row on as they are: a
    retained row whose index cell is missing makes the whole analysis
    raise, and one whose particulate cell is missing is graded
    Hazardous. *)
Lemma history_of_rows_with_a_missing_cell :
  analyze_city_from_csv "Almaty" [row_without_index] = Raise ValueError
  /\ exists out,
       analyze_city_from_csv "Almaty" [row_without_particulate] = Ok out
       /\ map fst (distribution out) = ["Hazardous"].
Proof.
  split; [reflexivity |]. eexists. split; reflexivity.
Qed.

(** A summary is computed only when the interpretation of every retained
    row returns, that is when no retained row has an index reading that
    converts to NaN or to an infinity. *)
Lemma mapM_all_ok {A B : Type} (f : A -> result B) (xs : list A)
  (ys : list B) :
  mapM f xs = Ok ys -> forall x, In x xs -> exists y, f x = Ok y.
Proof.
  revert ys. induction xs as [|x xs IH]; intros ys H z Hz; [destruct Hz |].
  cbn [mapM] in H.
  destruct (f x) as [y|] eqn:E; cbn [bind] in H; [| discriminate].
  destruct (mapM f xs) as [ys'|]; cbn [bind] in H; [| discriminate].
  destruct Hz as [<- | Hz]; [eauto |]. exact (IH ys' eq_refl z Hz).
Qed.

Lemma analyze_returns_roundable (city_name : string) (df : list Row)
  (out : city_summary) :
  analyze_city_from_csv city_name df = Ok out ->
  forall r, In r (retained city_name df) -> unroundable (col_aqi r) = false.
Proof.
  unfold analyze_city_from_csv. fold (retained city_name df). intros H r Hr.
  destruct (mapM _apply_interpret_row (retained city_name df))
    as [outs|] eqn:E; [| discriminate].
  destruct (mapM_all_ok _ _ _ E r Hr) as (o & Ho).
  unfold _apply_interpret_row in Ho.
  eapply (proj1 (interpret_returns_iff _ _ _ _)). exists o. exact Ho.
Qed.

(** A call returns a summary only if the module compiles, the summary is
    computed and the file is written; in the program as it is shipped the
    module does not compile. *)
Lemma run_analyze_returns_inv (source : list nat) (fs : filesystem)
  (output_dir city_name : string) (df : list Row) (out : city_summary) :
  run_analyze_city_from_csv source fs output_dir city_name df = Returns out ->
  compile_module source = Returns tt
  /\ analyze_city_from_csv city_name df = Ok out
  /\ write_summary fs output_dir city_name = Returns tt.
Proof.
  unfold run_analyze_city_from_csv.
  destruct (compile_module source) as [[]|]; [| discriminate].
  destruct (analyze_city_from_csv city_name df) as [o|]; [| discriminate].
  destruct (write_summary fs output_dir city_name) as [[]|]; [| discriminate].
  intros H. injection H as <-. auto.
Qed.

Lemma run_analyze_returns (source : list nat) (fs : filesystem)
  (output_dir city_name : string) (df : list Row) (out : city_summary) :
  compile_module source = Returns tt ->
  analyze_city_from_csv city_name df = Ok out ->
  write_summary fs output_dir city_name = Returns tt ->
  run_analyze_city_from_csv source fs output_dir city_name df = Returns out.
Proof.
  unfold run_analyze_city_from_csv. intros -> -> ->. reflexivity.
Qed.

Lemma run_analyze_as_shipped (fs : filesystem) (output_dir city_name : string)
  (df : list Row) :
  run_analyze_city_from_csv TRIPLE_QUOTE_LINES fs output_dir city_name df
  = Fails SyntaxError.
Proof. reflexivity. Qed.




(** *** Nothing to aggregate *)

(** The summary that lines 38-212 compute when no row is retained for
    the city, in particular when the frame holds no row of it: zero
    measurements, no period bounds, no worst moment, and the fallback
    sentence, which is not empty and names the city. *)
Lemma aggregate_of_nothing (city_name : string) (df : list Row) :
  retained city_name df = [] ->
  exists out,
    analyze_city_from_csv city_name df = Ok out
    /\ total_measurements out = 0
    /\ (filter (city_is city_name) df = [] -> dropped_rows out = 0)
    /\ period_start out = None
    /\ period_end out = None
    /\ worst_moment out = None
    /\ summary out <> ""
    /\ (exists before after, summary out = before ++ city_name ++ after)
    /\ summary out
       = "No valid measurements for " ++ city_name
         ++ " in the provided file.".
Proof.
  intros E.
  destruct (analyze_nothing_retained city_name df E)
    as (out & H & _ & T & Ps & Pe & W & _ & _ & S).
  exists out. split; [exact H |]. split; [exact T |].
  split; [| split; [exact Ps | split; [exact Pe | split; [exact W |]]]].
  - intros N. destruct (analyze_inv _ _ _ H) as [_ D].
    rewrite D, N. reflexivity.
  - split; [| split; [| exact S]].
    + rewrite S. discriminate.
    + exists "No valid measurements for ", " in the provided file.".
      exact S.
Qed.

(** C10, as the specification states it, does not hold of the program:
    aggregation over an empty observation set does not return a summary.
    The module of the aggregator opens a docstring on line 1 that no line
    closes, so every call, whatever the file system, the city and the
    frame, ends in a [SyntaxError] before a line of the function runs.
    With the docstring closed, a call on an empty observation set returns
    exactly when the output directory can be made and the file
    [history_summary_<city>.json] can be written in it, which lines
    214-217 do outside any [try]: a city whose name holds a path
    separator names a file in a directory that does not exist, and the
    call raises, although the summary with zero measurements, no period
    bounds, no worst moment and the fallback sentence was computed. *)
Theorem aggregate_of_nothing_not_returned :
  (forall fs output_dir city_name df,
     run_analyze_city_from_csv TRIPLE_QUOTE_LINES fs output_dir city_name df
     = Fails SyntaxError)
  /\ (forall source fs output_dir city_name df,
        retained city_name df = [] ->
        ((exists out,
            run_analyze_city_from_csv source fs output_dir city_name df
            = Returns out)
         <-> compile_module source = Returns tt
             /\ write_summary fs output_dir city_name = Returns tt))
  /\ run_analyze_city_from_csv TRIPLE_QUOTE_LINES fs_outputs "outputs"
       "Almaty" [] = Fails SyntaxError
  /\ (exists out,
        analyze_city_from_csv "Almaty/East" [] = Ok out
        /\ total_measurements out = 0
        /\ period_start out = None /\ period_end out = None
        /\ worst_moment out = None
        /\ summary out
           = "No valid measurements for Almaty/East in the provided file.")
  /\ run_analyze_city_from_csv triple_quotes_closed fs_outputs "outputs"
       "Almaty/East" [] = Fails OSError
  /\ (exists out,
        run_analyze_city_from_csv triple_quotes_closed fs_outputs "outputs"
          "Almaty" [] = Returns out
        /\ total_measurements out = 0
        /\ period_start out = None /\ period_end out = None
        /\ worst_moment out = None
        /\ summary out
           = "No valid measurements for Almaty in the provided file.").
Proof.
  split; [intros; reflexivity |].
  split; [| split; [reflexivity | split; [| split; [reflexivity |]]];
            eexists; (split; [reflexivity |]); repeat split; reflexivity].
  intros source fs output_dir city_name df E.
  destruct (aggregate_of_nothing city_name df E) as (out & H & _).
  split.
  - intros (out' & R).
    destruct (run_analyze_returns_inv _ _ _ _ _ _ R) as (C & _ & W). auto.
  - intros (C & W). exists out. now apply run_analyze_returns.
Qed.

Lemma aggregate_of_nothing_not_returned_witness :
  retained "Almaty" [row_elsewhere] = []
  /\ compile_module triple_quotes_closed = Returns tt
  /\ write_summary fs_outputs "outputs" "Almaty" = Returns tt
  /\ (exists out,
        run_analyze_city_from_csv triple_quotes_closed fs_outputs "outputs"
          "Almaty" [row_elsewhere] = Returns out)
  /\ ~ (exists out,
          run_analyze_city_from_csv TRIPLE_QUOTE_LINES fs_outputs "outputs"
            "Almaty" [row_elsewhere] = Returns out).
Proof.
  destruct aggregate_of_nothing_not_returned as (_ & K & _).
  split; [reflexivity |]. split; [reflexivity |]. split; [reflexivity |].
  split.
  - apply (proj2 (K triple_quotes_closed fs_outputs "outputs" "Almaty"
                    [row_elsewhere] eq_refl)).
    split; reflexivity.
  - intros R.
    destruct (proj1 (K TRIPLE_QUOTE_LINES fs_outputs "outputs" "Almaty"
                       [row_elsewhere] eq_refl) R) as (C & _).
    discriminate C.
Defined.

(* ================================================================== *)
(** * Further properties of the code *)

(** ** decision_engine.py *)

Lemma le_trans (a b c : pyfloat) :
  Float.le a b = true -> Float.le b c = true -> Float.le a c = true.
Proof.
  destruct a, b, c; simpl; try discriminate; try reflexivity.
  rewrite !Qle_bool_iff. intros. lra.
Qed.

Lemma gt_le_gt (a b c : pyfloat) :
  Float.gt a c = true -> Float.le a b = true -> Float.gt b c = true.
Proof.
  destruct a, b, c; simpl; try discriminate; try reflexivity.
  rewrite !negb_true_iff. intros H1 H2.
  apply Qle_bool_iff in H2.
  destruct (Qle_bool q0 q1) eqn:E; [| reflexivity].
  apply Qle_bool_iff in E.
  assert (Qle_bool q q1 = true) by (apply Qle_bool_iff; lra). congruence.
Qed.

Lemma ladder_monotone (c1 c2 c3 : Q) (p p' : pyfloat) (l l' : nat) :
  Float.le p p' = true ->
  (if Float.le p (Fin c1) then Ok 0
   else if Float.le p (Fin c2) then Ok 1
   else if Float.le p (Fin c3) then Ok 2 else Ok 3) = Ok l ->
  (if Float.le p' (Fin c1) then Ok 0
   else if Float.le p' (Fin c2) then Ok 1
   else if Float.le p' (Fin c3) then Ok 2 else Ok 3) = Ok l' ->
  l <= l'.
Proof.
  intros H Hl Hl'.
  destruct (Float.le p' (Fin c1)) eqn:E1.
  { rewrite (le_trans _ _ _ H E1) in Hl.
    injection Hl as <-. lia. }
  destruct (Float.le p' (Fin c2)) eqn:E2.
  { rewrite (le_trans _ _ _ H E2) in Hl.
    injection Hl' as <-. destruct (Float.le p (Fin c1));
      injection Hl as <-; lia. }
  destruct (Float.le p' (Fin c3)) eqn:E3.
  { rewrite (le_trans _ _ _ H E3) in Hl.
    injection Hl' as <-.
    destruct (Float.le p (Fin c1)); [injection Hl as <-; lia |].
    destruct (Float.le p (Fin c2)); injection Hl as <-; lia. }
  injection Hl' as <-.
  repeat break_if; injection Hl as <-; lia.
Qed.

(** X1.  The particulate level never decreases when the reading grows:
    for two readings that convert to floats [p <= p'], the level of the
    first is at most the level of the second. *)
Theorem pm25_level_monotone (v v' : pyval) (p p' : pyfloat) (l l' : nat) :
  py_float v = Ok p -> py_float v' = Ok p' ->
  Float.le p p' = true ->
  _pm25_to_level v = Ok l -> _pm25_to_level v' = Ok l' ->
  l <= l'.
Proof.
  intros Hv Hv' H.
  rewrite (pm25_level_of_conversion v p Hv).
  rewrite (pm25_level_of_conversion v' p' Hv').
  apply ladder_monotone. exact H.
Qed.

Lemma pm25_level_monotone_witness :
  _pm25_to_level (PyFloat (Fin 35.4) "35.4") = Ok 1
  /\ _pm25_to_level (PyOther "35.5" (Some (Fin 35.5))) = Ok 2
  /\ 1 <= 2.
Proof.
  split; [reflexivity |]. split; [reflexivity |].
  apply (pm25_level_monotone (PyFloat (Fin 35.4) "35.4")
           (PyOther "35.5" (Some (Fin 35.5))) (Fin 35.4) (Fin 35.5) 1 2
           eq_refl eq_refl eq_refl eq_refl eq_refl).
Defined.

Lemma round_half_even_bounds (q : Q) :
  (Qfloor q <= Float.round_half_even q <= Qfloor q + 1)%Z.
Proof. unfold Float.round_half_even. repeat break_if; lia. Qed.

Lemma round_half_even_monotone (p q : Q) :
  (p <= q)%Q -> (Float.round_half_even p <= Float.round_half_even q)%Z.
Proof.
  intros H.
  pose proof (Qfloor_resp_le _ _ H) as F.
  destruct (Z.eq_dec (Qfloor p) (Qfloor q)) as [E | N].
  2:{ pose proof (round_half_even_bounds p).
      pose proof (round_half_even_bounds q). lia. }
  unfold Float.round_half_even. rewrite E.
  set (f := Qfloor q).
  destruct (Qle_bool (q - inject_Z f) (1 # 2)) eqn:Lq.
  2:{ repeat break_if; lia. }
  apply Qle_bool_iff in Lq.
  assert (Lp : Qle_bool (p - inject_Z f) (1 # 2) = true)
    by (apply Qle_bool_iff; lra).
  rewrite Lp.
  destruct (Qeq_bool (q - inject_Z f) (1 # 2)) eqn:Eq.
  - repeat break_if; lia.
  - assert (Ep : Qeq_bool (p - inject_Z f) (1 # 2) = false).
    { destruct (Qeq_bool (p - inject_Z f) (1 # 2)) eqn:Ep; [| reflexivity].
      apply Qeq_bool_iff in Ep. apply Qeq_bool_neq in Eq.
      exfalso. apply Eq. lra. }
    rewrite Ep. lia.
Qed.

Lemma category_level_monotone (c c' : Z) (l l' : nat) :
  (c <= c')%Z ->
  (if (c <=? 1)%Z then Ok 0
   else if (c =? 2)%Z then Ok 1
   else if (c =? 3)%Z then Ok 2
   else if (c =? 4)%Z then Ok 2 else Ok 3) = Ok l ->
  (if (c' <=? 1)%Z then Ok 0
   else if (c' =? 2)%Z then Ok 1
   else if (c' =? 3)%Z then Ok 2
   else if (c' =? 4)%Z then Ok 2 else Ok 3) = Ok l' ->
  l <= l'.
Proof.
  intros H Hl Hl'.
  repeat match goal with
         | H : context [(?x <=? ?y)%Z] |- _ =>
             destruct (Z.leb_spec x y)
         | H : context [(?x =? ?y)%Z] |- _ =>
             destruct (Z.eqb_spec x y)
         end;
    injection Hl as <-; injection Hl' as <-; lia.
Qed.

(** X2.  Within each of its two scales the index level never decreases
    when the reading grows: for readings [a <= a'] that are both at most
    5 (categories) or both above 5 (numeric index).  Across the switch it
    does decrease: category 5 is Hazardous, and every numeric index above
    5 and up to 200 is graded lower. *)
Theorem aqi_level_monotone_within_scale (v v' : pyval) (a a' : pyfloat) :
  py_float v = Ok a -> py_float v' = Ok a' ->
  (forall l l',
     Float.le a a' = true ->
     Float.le a' (Fin 5) = true \/ Float.gt a (Fin 5) = true ->
     _aqi_to_level v = Ok l -> _aqi_to_level v' = Ok l' -> l <= l')
  /\ (Float.eqb a (Fin 5) = true ->
      Float.gt a' (Fin 5) = true -> Float.le a' (Fin 200) = true ->
      exists l', _aqi_to_level v = Ok 3 /\ _aqi_to_level v' = Ok l' /\ l' < 3).
Proof.
  intros Hv Hv'.
  rewrite (aqi_level_of_conversion v a Hv).
  rewrite (aqi_level_of_conversion v' a' Hv').
  split.
  - intros l l' H [S | S] Hl Hl'.
    + pose proof (le_trans _ _ _ H S) as S0.
      unfold aqi_level_of_float in Hl, Hl'. rewrite S0 in Hl. rewrite S in Hl'.
      destruct a as [q| | |]; try discriminate;
        destruct a' as [q'| | |]; try discriminate.
      cbn [Float.round bind] in Hl, Hl'.
      simpl in H. apply Qle_bool_iff in H.
      eapply category_level_monotone;
        [apply round_half_even_monotone; exact H | exact Hl | exact Hl'].
    + pose proof (gt_le_gt _ _ _ S H) as S'.
      unfold aqi_level_of_float in Hl, Hl'.
      rewrite (gt_not_le _ _ S) in Hl. rewrite (gt_not_le _ _ S') in Hl'.
      eapply ladder_monotone; eassumption.
  - intros E G L.
    rewrite (aqi_level_of_category a 5 ltac:(lia) E).
    unfold aqi_level_of_float at 2. rewrite (gt_not_le _ _ G).
    destruct (Float.le a' (Fin 50)).
    { exists 0. split; [reflexivity |]. split; [reflexivity | lia]. }
    destruct (Float.le a' (Fin 100)).
    { exists 1. split; [reflexivity |]. split; [reflexivity | lia]. }
    rewrite L. exists 2. split; [reflexivity |]. split; [reflexivity | lia].
Qed.

Lemma aqi_level_monotone_within_scale_witness :
  2 <= 3
  /\ exists l',
       _aqi_to_level (PyFloat (Fin 5) "5") = Ok 3
       /\ _aqi_to_level (PyFloat (Fin 6) "6") = Ok l' /\ l' < 3.
Proof.
  pose proof (aqi_level_monotone_within_scale
                (PyFloat (Fin 3.4) "3.4") (PyFloat (Fin 4.6) "4.6")
                (Fin 3.4) (Fin 4.6) eq_refl eq_refl) as [M _].
  pose proof (aqi_level_monotone_within_scale
                (PyFloat (Fin 5) "5") (PyFloat (Fin 6) "6")
                (Fin 5) (Fin 6) eq_refl eq_refl) as [_ B].
  split.
  - apply (M 2 3 eq_refl (or_introl eq_refl) eq_refl eq_refl).
  - apply (B eq_refl eq_refl eq_refl).
Defined.

Lemma interpret_outcome (a p : pyval) (ts c : option string) :
  match py_float a with
  | Ok NaN => interpret a p ts c = Raise ValueError
  | Ok PosInf | Ok NegInf => interpret a p ts c = Raise OverflowError
  | Ok (Fin _) | Raise _ => exists out, interpret a p ts c = Ok out
  end.
Proof.
  destruct (py_float a) as [x|e] eqn:E.
  - destruct x.
    + apply interpret_returns. unfold unroundable. now rewrite E.
    + unfold interpret, _aqi_to_level, _reason_strings.
      destruct (pm25_level_total p) as (lp & Hlp & _). rewrite Hlp.
      destruct a as [|x s|s [x|]]; simpl in E; try discriminate;
        injection E as ->; reflexivity.
    + unfold interpret, _aqi_to_level.
      destruct a as [|x s|s [x|]]; simpl in E; try discriminate;
        injection E as ->; reflexivity.
    + unfold interpret, _aqi_to_level, _reason_strings.
      destruct (pm25_level_total p) as (lp & Hlp & _). rewrite Hlp.
      destruct a as [|x s|s [x|]]; simpl in E; try discriminate;
        injection E as ->; reflexivity.
  - apply interpret_returns. unfold unroundable. now rewrite E.
Qed.

(** X3.  Whether [interpret] answers depends on the primary reading
    alone: it raises [ValueError] when the reading converts to NaN,
    [OverflowError] when it converts to an infinity, and returns a result
    in every other case (a finite number, [None], or a value that does not
    convert), whatever the particulate reading, timestamp and city. *)
Theorem interpret_raises_or_returns (a p : pyval) (ts c : option string) :
  match py_float a with
  | Ok NaN => interpret a p ts c = Raise ValueError
  | Ok PosInf | Ok NegInf => interpret a p ts c = Raise OverflowError
  | Ok (Fin _) | Raise _ => exists out, interpret a p ts c = Ok out
  end.
Proof. exact (interpret_outcome a p ts c). Qed.

(** X4.  When [interpret] returns, the recommendation list is settled by
    the two sub-levels alone, and the deduplication loop with its cap of
    six never changes the list it is given.  The list is the three base
    items of the score; the advice to avoid busy roads is added exactly
    when the particulate level is Unhealthy or worse; the N95 and the
    medical-plan refinements are added only at score Hazardous (at
    Unhealthy the base items already hold their counterparts), for a
    particulate, respectively index, level of Unhealthy or worse. *)
Theorem recommendations_by_levels (a p : pyval) (ts c : option string)
  (out : interpretation) :
  interpret a p ts c = Ok out ->
  exists la lp,
    _aqi_to_level a = Ok la /\ _pm25_to_level p = Ok lp /\
    let recs := recommendations out in
    recs = adjust_recommendations (score out) la lp
    /\ firstn 3 recs = _base_recommendations (score out)
    /\ mem REC_AVOID_ROADS recs = (2 <=? lp)
    /\ mem REC_USE_MASK recs = (2 <=? lp) && (score out =? 3)
    /\ mem REC_MEDICAL_PLANS recs = (2 <=? la) && (score out =? 3)
    /\ List.length recs
       = 3 + (if 2 <=? lp then (if score out =? 3 then 2 else 1) else 0)
         + (if (2 <=? la) && (score out =? 3) then 1 else 0).
Proof.
  intros H.
  destruct (interpret_inv _ _ _ _ _ H)
    as (la & lp & rs & name & Ha & Hp & _ & _ & Hs & _ & _ & Hr).
  exists la, lp. split; [exact Ha |]. split; [exact Hp |].
  cbv zeta. rewrite Hr, Hs.
  pose proof (aqi_level_bound _ _ Ha) as Ba.
  destruct (pm25_level_total p) as (lp' & Hp' & Bp).
  assert (lp' = lp) by congruence. subst lp'.
  clear - Ba Bp.
  destruct la as [|[|[|[|la]]]]; try lia;
    destruct lp as [|[|[|[|lp]]]]; try lia;
    repeat split; reflexivity.
Qed.

Lemma recommendations_by_levels_witness :
  exists out,
    interpret (PyFloat (Fin 3) "3.0") (PyFloat (Fin 40) "40.0") None None
    = Ok out
    /\ List.length (recommendations out) = 4
    /\ mem REC_USE_MASK (recommendations out) = false.
Proof.
  eexists. split; [reflexivity |].
  destruct (recommendations_by_levels
              (PyFloat (Fin 3) "3.0") (PyFloat (Fin 40) "40.0") None None
              _ eq_refl)
    as (la & lp & Ha & Hp & _ & _ & _ & M & _ & L).
  injection Ha as <-. injection Hp as <-.
  split; [exact L | exact M].
Defined.

Lemma length_append (s t : string) :
  String.length (s ++ t) = String.length s + String.length t.
Proof. induction s as [|ch s IH]; simpl; [reflexivity | now rewrite IH]. Qed.

(** X5.  When [_reason_strings] returns, it returns exactly two reasons,
    the first for the index and the second for the particulate reading.
    A reading is recorded as missing exactly when it is [None], and the
    index is recorded as invalid exactly when it is not [None] and does
    not convert to a float. *)
Theorem reason_strings_shape (a p : pyval) (rs : list string) :
  _reason_strings a p = Ok rs ->
  exists r1 r2,
    rs = [r1; r2]
    /\ (r1 = "AQI=missing" <-> a = PyNone)
    /\ (r1 = "AQI=invalid" <-> exists e, a <> PyNone /\ py_float a = Raise e)
    /\ (r2 = "PM2.5=missing" <-> p = PyNone).
Proof.
  unfold _reason_strings. intros H.
  assert (P2 : forall parts1 l name,
            _pm25_to_level p = Ok l -> index LEVEL_NAMES l = Ok name ->
            (parts2 <-
               (if negb (is_none p) then
                  l <- _pm25_to_level p ;;
                  name <- index LEVEL_NAMES l ;;
                  Ok (append parts1
                        ("PM2.5=" ++ py_format p ++ " µg/m3 (" ++ name
                         ++ ")"))
                else Ok (append parts1 "PM2.5=missing")) ;;
             Ok parts2) = Ok rs ->
            exists r2, rs = append parts1 r2
                       /\ (r2 = "PM2.5=missing" <-> p = PyNone)).
  { intros parts1 l name Hl Hn Hrs.
    destruct p as [|x s|s o]; cbn [is_none negb bind] in Hrs.
    - injection Hrs as <-. eexists. split; [reflexivity |]. tauto.
    - rewrite Hl in Hrs. cbn [bind] in Hrs. rewrite Hn in Hrs.
      cbn [bind] in Hrs. injection Hrs as <-.
      eexists. split; [reflexivity |].
      split; [| discriminate]. intros E. exfalso.
      apply (f_equal String.length) in E.
      simpl in E. rewrite !length_append in E. simpl in E. lia.
    - rewrite Hl in Hrs. cbn [bind] in Hrs. rewrite Hn in Hrs.
      cbn [bind] in Hrs. injection Hrs as <-.
      eexists. split; [reflexivity |].
      split; [| discriminate]. intros E. exfalso.
      apply (f_equal String.length) in E.
      simpl in E. rewrite !length_append in E. simpl in E. lia. }
  destruct (pm25_level_total p) as (lp & Hlp & Blp).
  destruct (index_level_names lp Blp) as (np & Hnp).
  destruct a as [|x s|s [x|]]; cbn [is_none negb py_float] in H.
  - cbn [bind] in H.
    destruct (P2 _ _ _ Hlp Hnp H) as (r2 & -> & I2).
    exists "AQI=missing", r2. split; [reflexivity |].
    split; [tauto |]. split; [| exact I2].
    split; [discriminate |]. intros (e & N & _). contradiction.
  - destruct (Float.le x (Fin 5));
      (destruct (Float.round x) as [n|]; [| discriminate]);
      cbn [bind] in H;
      (destruct (aqi_level_of_float x) as [l|]; [| discriminate]);
      cbn [bind] in H;
      (destruct (index LEVEL_NAMES l) as [name|]; [| discriminate]);
      cbn [bind] in H;
      destruct (P2 _ _ _ Hlp Hnp H) as (r2 & -> & I2);
      eexists; exists r2; (split; [reflexivity |]);
      (split; [split; discriminate |]);
      (split; [| exact I2]);
      (split; [discriminate |]); intros (e & _ & E); discriminate.
  - destruct (Float.le x (Fin 5));
      (destruct (Float.round x) as [n|]; [| discriminate]);
      cbn [bind] in H;
      (destruct (aqi_level_of_float x) as [l|]; [| discriminate]);
      cbn [bind] in H;
      (destruct (index LEVEL_NAMES l) as [name|]; [| discriminate]);
      cbn [bind] in H;
      destruct (P2 _ _ _ Hlp Hnp H) as (r2 & -> & I2);
      eexists; exists r2; (split; [reflexivity |]);
      (split; [split; discriminate |]);
      (split; [| exact I2]);
      (split; [discriminate |]); intros (e & _ & E); discriminate.
  - cbn [bind] in H.
    destruct (P2 _ _ _ Hlp Hnp H) as (r2 & -> & I2).
    exists "AQI=invalid", r2. split; [reflexivity |].
    split; [split; discriminate |]. split; [| exact I2].
    split; [| reflexivity]. intros _. exists ValueError.
    split; [discriminate | reflexivity].
Qed.

Lemma reason_strings_shape_witness :
  exists r1 r2,
    _reason_strings (PyOther "n/a" None) PyNone = Ok [r1; r2]
    /\ r1 = "AQI=invalid" /\ r2 = "PM2.5=missing".
Proof.
  destruct (reason_strings_shape (PyOther "n/a" None) PyNone _ eq_refl)
    as (r1 & r2 & E & _ & I1 & I2).
  exists r1, r2. injection E as <- <-.
  split; [reflexivity |]. split; reflexivity.
Defined.

(** ** historical_analytics.py *)

(** *** Hazard entries and samples *)

Lemma rises_le_count_true (b : bool) (l : list bool) :
  rises b l <= Series.count_true l.
Proof.
  revert b. induction l as [|x l IH]; intros b.
  - reflexivity.
  - rewrite rises_cons. specialize (IH x).
    unfold Series.count_true in *. simpl.
    destruct b, x; simpl; lia.
Qed.

Lemma rises_none (l : list bool) :
  rises false l = 0 -> Series.count_true l = 0.
Proof.
  induction l as [|x l IH].
  - reflexivity.
  - rewrite rises_cons. destruct x; simpl; [discriminate |].
    intros H. unfold Series.count_true in *. simpl. now apply IH.
Qed.

Lemma rises_half (b : bool) (l : list bool) :
  2 * rises b l <= List.length l + (if b then 0 else 1).
Proof.
  revert b. induction l as [|x l IH]; intros b.
  - unfold rises, Series.count_true, Series.band. simpl.
    destruct b; simpl; lia.
  - rewrite rises_cons. specialize (IH x).
    destruct b, x; simpl in *; lia.
Qed.

Lemma above_after_fillna (s : list pyfloat) (h : pyfloat) :
  map (fun x => Float.gt x h) (Series.fillna NegInf s)
  = map (fun x => Float.gt x h) s.
Proof.
  unfold Series.fillna. rewrite map_map. apply map_ext.
  intros x. destruct x, h; reflexivity.
Qed.

(** X6.  The number of hazard entries is at most the number of samples
    above the threshold and at most half the length of the series rounded
    up, and it is zero exactly when no sample is above the threshold. *)
Theorem hazard_entries_bounds (series : list pyfloat) (h : pyfloat) :
  _count_hazard_entries series h <= samples_above series h
  /\ 2 * _count_hazard_entries series h <= List.length series + 1
  /\ (_count_hazard_entries series h = 0 <-> samples_above series h = 0).
Proof.
  rewrite count_hazard_entries_rises, above_after_fillna.
  unfold samples_above. rewrite <- count_true_map.
  set (above := map (fun x => Float.gt x h) series).
  pose proof (rises_le_count_true false above) as L.
  pose proof (rises_half false above) as Hh.
  unfold above in Hh at 2. rewrite length_map in Hh.
  split; [exact L |]. split; [exact Hh |].
  split; [apply rises_none | lia].
Qed.

(** *** Percent above safe *)

Lemma inject_nat_pos (k : nat) : (0 < inject_Z (Z.of_nat (S k)))%Q.
Proof.
  change 0%Q with (inject_Z 0). rewrite <- Zlt_Qlt. lia.
Qed.

Lemma inject_nat_le (j k : nat) :
  j <= k -> (inject_Z (Z.of_nat j) <= inject_Z (Z.of_nat k))%Q.
Proof. intros H. rewrite <- Zle_Qle. lia. Qed.

(** X7.  [_safe_count] always gives a finite percentage between 0 and
    100, and it is 0 exactly when the series has no entry above the
    threshold (an empty series or one without any number included). *)
Theorem safe_count_bounds (series : list pyfloat) (t : pyfloat) :
  exists q,
    _safe_count series t = Fin q
    /\ (0 <= q <= 100)%Q
    /\ ((q == 0)%Q <-> above_safe t series = []).
Proof.
  destruct (Nat.eq_dec (Series.count series) 0) as [Z0 | NZ].
  - exists 0%Q. unfold _safe_count.
    unfold Series.count in Z0.
    destruct (Series.dropna series) eqn:D; [| discriminate].
    split; [reflexivity |]. split; [lra |].
    split; [| reflexivity]. intros _.
    unfold above_safe.
    destruct (filter _ series) as [|x l] eqn:F; [reflexivity |].
    assert (I : In x (Series.dropna series)).
    { unfold Series.dropna. apply filter_In.
      assert (I : In x (x :: l)) by now left.
      rewrite <- F in I. apply filter_In in I. destruct I as [I1 I2].
      apply andb_true_iff in I2. tauto. }
    rewrite D in I. destruct I.
  - rewrite (safe_count_ratio series t NZ).
    eexists. split; [reflexivity |].
    destruct series as [|x s]; [contradiction NZ; reflexivity |].
    set (c := List.length (above_safe t (x :: s))).
    assert (C : c <= S (List.length s)) by apply filter_length_le.
    cbn [List.length].
    pose proof (inject_nat_pos (List.length s)) as P.
    pose proof (inject_nat_le _ _ C) as Lc.
    assert (N0 : (0 <= inject_Z (Z.of_nat c))%Q).
    { change 0%Q with (inject_Z 0). rewrite <- Zle_Qle. lia. }
    set (n := inject_Z (Z.of_nat (S (List.length s)))) in *.
    set (k := inject_Z (Z.of_nat c)) in *.
    assert (D1 : (0 <= k / n)%Q)
      by (apply Qle_shift_div_l; [exact P | lra]).
    assert (D2 : (k / n <= 1)%Q)
      by (apply Qle_shift_div_r; [exact P | lra]).
    split; [split; lra |].
    split.
    + intros E.
      assert (K : (k == 0)%Q).
      { assert (E' : (k / n == 0)%Q) by lra.
        assert (M : (k == k / n * n)%Q) by (field; lra).
        rewrite M, E'. ring. }
      unfold k in K. change 0%Q with (inject_Z 0) in K.
      pose proof (proj1 (inject_Z_injective (Z.of_nat c) 0) K) as K0.
      apply (Nat2Z.inj c 0) in K0.
      now apply length_zero_iff_nil.
    + intros E. unfold k, c. rewrite E. simpl.
      unfold Qdiv. ring.
Qed.

(** *** Minimum, maximum, mean and median *)

Lemma le_refl (x : pyfloat) : isnan x = false -> Float.le x x = true.
Proof.
  destruct x; simpl; try discriminate; try reflexivity.
  intros _. apply Qle_bool_iff. lra.
Qed.

Lemma le_total (x y : pyfloat) :
  isnan x = false -> isnan y = false ->
  Float.le x y = false -> Float.le y x = true.
Proof.
  destruct x, y; simpl; try discriminate; try reflexivity.
  intros _ _ H. apply Qle_bool_iff.
  destruct (Qlt_le_dec q0 q) as [L | L]; [lra |].
  apply Qle_bool_iff in L. congruence.
Qed.

Lemma fold_smaller (rest : list pyfloat) (x : pyfloat) :
  (forall y, In y (x :: rest) -> isnan y = false) ->
  let m := fold_left Series.smaller rest x in
  In m (x :: rest) /\ forall y, In y (x :: rest) -> Float.le m y = true.
Proof.
  revert x. induction rest as [|z rest IH]; intros x N; cbn [fold_left].
  - split; [now left |]. intros y [<- | []]. apply le_refl, N. now left.
  - assert (Nx : isnan x = false) by (apply N; now left).
    assert (Nz : isnan z = false) by (apply N; right; now left).
    destruct (IH (Series.smaller x z)) as [I B].
    { intros y [<- | Hy].
      - unfold Series.smaller. destruct (Float.le x z); assumption.
      - apply N. right. now right. }
    split.
    + destruct I as [<- | I].
      * unfold Series.smaller. destruct (Float.le x z);
          [now left | right; now left].
      * right. now right.
    + intros y Hy.
      assert (S0 : Float.le (fold_left Series.smaller rest
                               (Series.smaller x z))
                     (Series.smaller x z) = true)
        by (apply B; now left).
      destruct Hy as [<- | [<- | Hy]].
      * eapply le_trans; [exact S0 |]. unfold Series.smaller.
        destruct (Float.le x z) eqn:E; [now apply le_refl |].
        now apply le_total.
      * eapply le_trans; [exact S0 |]. unfold Series.smaller.
        destruct (Float.le x z) eqn:E; [exact E | now apply le_refl].
      * apply B. now right.
Qed.

Lemma fold_larger (rest : list pyfloat) (x : pyfloat) :
  (forall y, In y (x :: rest) -> isnan y = false) ->
  let m := fold_left Series.larger rest x in
  In m (x :: rest) /\ forall y, In y (x :: rest) -> Float.le y m = true.
Proof.
  revert x. induction rest as [|z rest IH]; intros x N; cbn [fold_left].
  - split; [now left |]. intros y [<- | []]. apply le_refl, N. now left.
  - assert (Nx : isnan x = false) by (apply N; now left).
    assert (Nz : isnan z = false) by (apply N; right; now left).
    destruct (IH (Series.larger x z)) as [I B].
    { intros y [<- | Hy].
      - unfold Series.larger. destruct (Float.le x z); assumption.
      - apply N. right. now right. }
    split.
    + destruct I as [<- | I].
      * unfold Series.larger. destruct (Float.le x z);
          [right; now left | now left].
      * right. now right.
    + intros y Hy.
      assert (S0 : Float.le (Series.larger x z)
                     (fold_left Series.larger rest (Series.larger x z))
                   = true)
        by (apply B; now left).
      destruct Hy as [<- | [<- | Hy]].
      * eapply le_trans; [| exact S0]. unfold Series.larger.
        destruct (Float.le x z) eqn:E; [exact E | now apply le_refl].
      * eapply le_trans; [| exact S0]. unfold Series.larger.
        destruct (Float.le x z) eqn:E; [now apply le_refl |].
        now apply le_total.
      * apply B. now right.
Qed.

Lemma dropna_not_nan (s : list pyfloat) (x : pyfloat) :
  In x (Series.dropna s) <-> In x s /\ isnan x = false.
Proof.
  unfold Series.dropna. rewrite filter_In, negb_true_iff. tauto.
Qed.

Lemma series_min_max (s : list pyfloat) :
  Series.count s <> 0 ->
  exists lo hi,
    Series.min s = lo /\ Series.max s = hi
    /\ In lo (Series.dropna s) /\ In hi (Series.dropna s)
    /\ forall x, In x (Series.dropna s) ->
                 Float.le lo x = true /\ Float.le x hi = true.
Proof.
  unfold Series.count, Series.min, Series.max. intros H.
  destruct (Series.dropna s) as [|x rest] eqn:D; [contradiction |].
  assert (N : forall y, In y (x :: rest) -> isnan y = false).
  { intros y Hy. rewrite <- D in Hy. now apply dropna_not_nan in Hy. }
  destruct (fold_smaller rest x N) as [I1 B1].
  destruct (fold_larger rest x N) as [I2 B2].
  eexists. eexists. split; [reflexivity |]. split; [reflexivity |].
  split; [exact I1 |]. split; [exact I2 |].
  intros y Hy. split; [now apply B1 | now apply B2].
Qed.

Lemma insert_sorted_In (x y : pyfloat) (s : list pyfloat) :
  In y (Series.insert_sorted x s) <-> y = x \/ In y s.
Proof.
  induction s as [|z s IH]; simpl.
  - intuition congruence.
  - destruct (Float.le x z); simpl; rewrite ?IH; intuition congruence.
Qed.

Lemma insert_sorted_length (x : pyfloat) (s : list pyfloat) :
  List.length (Series.insert_sorted x s) = S (List.length s).
Proof.
  induction s as [|z s IH]; simpl; [reflexivity |].
  destruct (Float.le x z); simpl; [reflexivity | now rewrite IH].
Qed.

Lemma sort_In (y : pyfloat) (s : list pyfloat) :
  In y (Series.sort s) <-> In y s.
Proof.
  unfold Series.sort. induction s as [|x s IH]; simpl; [tauto |].
  rewrite insert_sorted_In, IH. intuition congruence.
Qed.

Lemma sort_length (s : list pyfloat) :
  List.length (Series.sort s) = List.length s.
Proof.
  unfold Series.sort. induction s as [|x s IH]; simpl; [reflexivity |].
  now rewrite insert_sorted_length, IH.
Qed.

Section Statistics.

Context {fl : Float64}.

(** X8.  When at least one entry converts to a number, the minimum and
    the maximum of the summary are entries of the numeric series and
    enclose every non-missing entry, and the count is the number of
    non-missing entries.  When that number is odd, the median is an
    entry of the series as well, so it lies between the two. *)
Theorem statistics_ordered (series : list pyval) (name : string)
  (ths : option thresholds) :
  Series.count (map Series.to_numeric series) <> 0 ->
  let r := analyze_pollutant series name ths in
  let s := Series.dropna (map Series.to_numeric series) in
  n_measurements r = List.length s
  /\ exists lo hi,
       HistoricalAnalytics.min r = Some lo
       /\ HistoricalAnalytics.max r = Some hi
       /\ In lo s /\ In hi s
       /\ (forall x, In x s -> Float.le lo x = true /\ Float.le x hi = true)
       /\ (Nat.odd (List.length s) = true ->
           exists md,
             median r = Some md /\ In md s
             /\ Float.le lo md = true /\ Float.le md hi = true).
Proof.
  intros Hn. cbv zeta. unfold analyze_pollutant.
  destruct (Nat.eqb_spec (Series.count (map Series.to_numeric series)) 0)
    as [E | _]; [contradiction |].
  cbn [n_measurements HistoricalAnalytics.min HistoricalAnalytics.max
       mean median].
  set (s := map Series.to_numeric series) in *.
  split; [reflexivity |].
  destruct (series_min_max s Hn) as (lo & hi & -> & -> & Ilo & Ihi & B).
  exists lo, hi.
  assert (Nlo : isnan lo = false) by now apply dropna_not_nan in Ilo.
  assert (Nhi : isnan hi = false) by now apply dropna_not_nan in Ihi.
  unfold present. rewrite Nlo, Nhi.
  split; [reflexivity |]. split; [reflexivity |].
  split; [exact Ilo |]. split; [exact Ihi |]. split; [exact B |].
  intros Odd. unfold Series.median.
  set (v := Series.sort (Series.dropna s)).
  assert (Lv : List.length v = List.length (Series.dropna s))
    by apply sort_length.
  assert (Ev : Nat.even (List.length v) = false).
  { rewrite Lv, <- Nat.negb_odd, Odd. reflexivity. }
  assert (Pos : List.length v / 2 < List.length v).
  { apply Nat.Div0.div_lt_upper_bound.
    destruct (List.length v) as [|k]; [discriminate Ev | lia]. }
  assert (Im : In (nth (List.length v / 2) v NaN) (Series.dropna s)).
  { apply sort_In. now apply nth_In. }
  destruct v as [|z rest] eqn:V; [simpl in Pos; lia |].
  rewrite Ev.
  set (md := nth (List.length (z :: rest) / 2) (z :: rest) NaN) in *.
  assert (Nm : isnan md = false) by now apply dropna_not_nan in Im.
  rewrite Nm. exists md. split; [reflexivity |]. split; [exact Im |].
  apply B, Im.
Qed.

End Statistics.

Section StatisticsExamples.

#[local] Existing Instance binary64.

Lemma statistics_ordered_witness :
  exists lo md hi,
    HistoricalAnalytics.min
      (analyze_pollutant
         [PyFloat (Fin 30) "30.0"; nan_cell; PyFloat (Fin 10) "10.0";
          PyOther "n/a" None; PyFloat (Fin 20) "20.0"] "o3" None)
    = Some lo
    /\ median
         (analyze_pollutant
            [PyFloat (Fin 30) "30.0"; nan_cell; PyFloat (Fin 10) "10.0";
             PyOther "n/a" None; PyFloat (Fin 20) "20.0"] "o3" None)
       = Some md
    /\ HistoricalAnalytics.max
         (analyze_pollutant
            [PyFloat (Fin 30) "30.0"; nan_cell; PyFloat (Fin 10) "10.0";
             PyOther "n/a" None; PyFloat (Fin 20) "20.0"] "o3" None)
       = Some hi
    /\ Float.le lo md = true /\ Float.le md hi = true.
Proof.
  destruct (statistics_ordered
              [PyFloat (Fin 30) "30.0"; nan_cell; PyFloat (Fin 10) "10.0";
               PyOther "n/a" None; PyFloat (Fin 20) "20.0"] "o3" None
              ltac:(discriminate))
    as (_ & lo & hi & Hlo & Hhi & _ & _ & _ & M).
  destruct (M eq_refl) as (md & Hmd & _ & L1 & L2).
  exists lo, md, hi. auto.
Defined.

End StatisticsExamples.

(** *** Thresholds that are not there *)

Lemma dict_get_absent {V : Type} (d : list (string * V)) (key : string)
  (default : V) :
  ~ In key (map fst d) -> dict_get d key default = default.
Proof.
  induction d as [|[k v] d IH]; simpl; intros H; [reflexivity |].
  destruct (String.eqb_spec k key) as [-> | N]; [tauto |].
  apply IH. tauto.
Qed.

Section ThresholdStatistics.

Context {fl : Float64}.

(** X9.  [percent_above_safe], respectively [hazard_entries], is absent
    exactly when the series has no number or the safe, respectively
    hazard, threshold is not in force.  The trend is absent exactly when
    the series has no number, and is otherwise the verdict of
    [_detect_trend], whatever the thresholds.  For a pollutant that has
    no defaults and no thresholds passed, both threshold statistics are
    absent. *)
Theorem threshold_statistics_when_in_force (series : list pyval)
  (name : string) (ths : option thresholds) :
  let r := analyze_pollutant series name ths in
  let eff := effective_thresholds name ths in
  let n := Series.count (map Series.to_numeric series) in
  (percent_above_safe r = None <-> n = 0 \/ usable (safe eff) = None)
  /\ (hazard_entries r = None <-> n = 0 \/ usable (hazard eff) = None)
  /\ trend r
     = (if n =? 0 then None
        else Some (_detect_trend (map Series.to_numeric series)))
  /\ (ths = None -> ~ In name POLLUTANTS ->
      percent_above_safe r = None /\ hazard_entries r = None).
Proof.
  cbv zeta. unfold analyze_pollutant.
  destruct (Nat.eqb_spec (Series.count (map Series.to_numeric series)) 0)
    as [E | NE]; cbn [percent_above_safe hazard_entries trend].
  - split; [tauto |]. split; [tauto |]. split; [reflexivity |].
    intros _ _. split; reflexivity.
  - split; [| split; [| split; [reflexivity |]]].
    + destruct (usable (safe (effective_thresholds name ths)));
        split; [discriminate | intros [? | ?]; [contradiction | discriminate]
               | right; reflexivity | reflexivity].
    + destruct (usable (hazard (effective_thresholds name ths)));
        split; [discriminate | intros [? | ?]; [contradiction | discriminate]
               | right; reflexivity | reflexivity].
    + intros -> N. unfold effective_thresholds.
      rewrite dict_get_absent by exact N. split; reflexivity.
Qed.

End ThresholdStatistics.

Section ThresholdStatisticsExamples.

#[local] Existing Instance binary64.

Lemma threshold_statistics_when_in_force_witness :
  percent_above_safe
    (analyze_pollutant [PyFloat (Fin 7) "7.0"] "pm1" None) = None
  /\ trend (analyze_pollutant [PyFloat (Fin 7) "7.0"] "pm1" None)
     = Some no_change
  /\ percent_above_safe (analyze_pollutant [nan_cell] "aqi" None) = None
  /\ trend (analyze_pollutant [nan_cell] "aqi" None) = None.
Proof.
  destruct (threshold_statistics_when_in_force
              [PyFloat (Fin 7) "7.0"] "pm1" None)
    as (_ & _ & T & A).
  destruct (threshold_statistics_when_in_force [nan_cell] "aqi" None)
    as (P & _ & T' & _).
  split; [| split; [exact T | split; [| exact T']]].
  - apply A; [reflexivity |]. simpl. intuition discriminate.
  - apply P. left. reflexivity.
Defined.

End ThresholdStatisticsExamples.

(** *** The city history *)

Section CityHistory.

Context {fl : Float64}.

Lemma defaults_by_name (series : list pyval) (p : string) :
  In p POLLUTANTS ->
  analyze_pollutant series p (thresholds_get DEFAULT_THRESHOLDS p)
  = analyze_pollutant series p None.
Proof.
  intros H. simpl in H.
  repeat (destruct H as [<- | H]; [reflexivity |]). destruct H.
Qed.

(** X10.  [analyze_city_history] analyses exactly the pollutants of its
    fixed list that are columns of the frame, in the order of that list
    whatever the order of the columns, and ignores every other column.
    Each is analysed with the thresholds passed for it; a pollutant that
    the passed thresholds do not name, or all of them when none are
    passed, is analysed with its defaults. *)
Theorem city_history_pollutants (df : frame)
  (ths : option (list (string * thresholds))) :
  let out := analyze_city_history df ths in
  n_rows out = frame_len df
  /\ map fst (pollutants out)
     = filter
         (fun p =>
            match column (frame_columns df) p with
            | Some _ => true
            | None => false
            end)
         POLLUTANTS
  /\ forall p r,
       In (p, r) (pollutants out) ->
       exists series,
         column (frame_columns df) p = Some series
         /\ r = analyze_pollutant series p
                  (match ths with
                   | Some t => thresholds_get t p
                   | None => None
                   end).
Proof.
  cbv zeta. unfold analyze_city_history. cbn [n_rows pollutants].
  split; [reflexivity |]. split.
  - induction POLLUTANTS as [|p l IH]; [reflexivity |].
    cbn [flat_map filter].
    destruct (column (frame_columns df) p); cbn [app map fst];
      now rewrite IH.
  - intros p r H. apply in_flat_map in H.
    destruct H as (p' & Hp & H).
    destruct (column (frame_columns df) p') as [series|] eqn:C;
      [| destruct H].
    destruct H as [H | []]. injection H as <- <-.
    exists series. split; [exact C |].
    destruct ths as [t|]; [reflexivity |].
    now apply defaults_by_name.
Qed.

End CityHistory.

Section CityHistoryExamples.

#[local] Existing Instance binary64.

Lemma city_history_pollutants_witness :
  map fst
    (pollutants
       (analyze_city_history frame_co_city_aqi
          (Some [("aqi", mk_thresholds 1 4)])))
  = ["aqi"; "co"]
  /\ exists r,
       In ("co", r)
         (pollutants
            (analyze_city_history frame_co_city_aqi
               (Some [("aqi", mk_thresholds 1 4)])))
       /\ r = analyze_pollutant
                [PyFloat (Fin 900) "900.0"; PyFloat (Fin 1200) "1200.0"]
                "co" None.
Proof.
  destruct (city_history_pollutants frame_co_city_aqi
              (Some [("aqi", mk_thresholds 1 4)])) as (_ & K & P).
  split; [exact K |].
  eexists. split; [right; left; reflexivity |].
  destruct (P "co" _ (or_intror (or_introl eq_refl)))
    as (series & C & E).
  injection C as <-. exact E.
Defined.

End CityHistoryExamples.

(** ** history_analyzer.py *)

(** *** Mapping a function that can raise *)

Lemma mapM_Forall2 {A B : Type} (f : A -> result B) (xs : list A)
  (ys : list B) :
  mapM f xs = Ok ys <-> Forall2 (fun x y => f x = Ok y) xs ys.
Proof.
  revert ys. induction xs as [|x xs IH]; intros ys; cbn [mapM].
  - split.
    + intros H. injection H as <-. constructor.
    + intros H. inversion H. reflexivity.
  - split.
    + intros H. destruct (f x) as [y|] eqn:Ey; [| discriminate].
      cbn [bind] in H.
      destruct (mapM f xs) as [ys'|] eqn:E; [| discriminate].
      cbn [bind] in H. injection H as <-.
      constructor; [exact Ey | now apply IH].
    + intros H. inversion H as [|x' y l l' Hy Hl]; subst.
      rewrite Hy. cbn [bind]. apply IH in Hl. rewrite Hl. reflexivity.
Qed.

Lemma mapM_length {A B : Type} (f : A -> result B) (xs : list A)
  (ys : list B) :
  mapM f xs = Ok ys -> List.length ys = List.length xs.
Proof.
  intros H. apply mapM_Forall2 in H. symmetry.
  eapply Forall2_length; eassumption.
Qed.

Lemma mapM_nth {A B : Type} (f : A -> result B) (xs : list A) (ys : list B)
  (i : nat) (x : A) :
  mapM f xs = Ok ys -> nth_error xs i = Some x ->
  exists y, nth_error ys i = Some y /\ f x = Ok y.
Proof.
  intros H. apply mapM_Forall2 in H. revert i.
  induction H as [|x' y xs ys Hy Hl IH]; intros [|i] Hi; simpl in *;
    try discriminate.
  - injection Hi as <-. eauto.
  - now apply IH.
Qed.

Lemma mapM_returns {A B : Type} (f : A -> result B) (xs : list A) :
  (forall x, In x xs -> exists y, f x = Ok y) ->
  exists ys, mapM f xs = Ok ys.
Proof.
  induction xs as [|x xs IH]; intros H; cbn [mapM].
  - eauto.
  - destruct (H x (or_introl eq_refl)) as (y & ->). cbn [bind].
    destruct IH as (ys & ->); [intros z Hz; apply H; now right |].
    cbn [bind]. eauto.
Qed.

Lemma mapM_raises {A B : Type} (f : A -> result B) (xs : list A) (e : exn) :
  mapM f xs = Raise e -> exists x, In x xs /\ f x = Raise e.
Proof.
  induction xs as [|x xs IH]; cbn [mapM]; [discriminate |].
  destruct (f x) as [y|e'] eqn:E; cbn [bind].
  - destruct (mapM f xs) as [ys|e'']; cbn [bind]; [discriminate |].
    intros H. injection H as ->.
    destruct (IH eq_refl) as (z & Hz & Hf). exists z. split; [now right | exact Hf].
  - intros H. injection H as ->. exists x. split; [now left | exact E].
Qed.

(** *** The fields of a returned summary *)

Lemma analyze_fields (city_name : string) (df : list Row)
  (out : city_summary) :
  analyze_city_from_csv city_name df = Ok out ->
  let rows := retained city_name df in
  exists outs drivers,
    mapM _apply_interpret_row rows = Ok outs
    /\ mapM driver_of rows = Ok drivers
    /\ worst_of rows (annotate outs drivers) = Ok (worst_moment out)
    /\ total_measurements out = List.length rows
    /\ distribution out
       = map (fun kv => (fst kv, {| count := snd kv;
                                    pct := share (snd kv)
                                             (List.length rows) |}))
           (Counter (map (fun i => risk_level (base i))
                       (annotate outs drivers)))
    /\ drivers_distribution out
       = map (fun k => (k, {| count := counter_get (Counter drivers) k;
                              pct := share (counter_get (Counter drivers) k)
                                       (List.length rows) |}))
           ["AQI"; "PM2.5"; "Both"]
    /\ moderate_or_worse_share_pct out
       = share (sum_in MODERATE_OR_WORSE_LEVELS
                  (Counter (map (fun i => risk_level (base i))
                              (annotate outs drivers))))
           (List.length rows)
    /\ unhealthy_or_worse_share_pct out
       = share (sum_in BAD_LEVELS
                  (Counter (map (fun i => risk_level (base i))
                              (annotate outs drivers))))
           (List.length rows)
    /\ period_start out
       = option_map ts_iso
           (if 0 <? List.length rows then earliest (map stamp rows)
            else None)
    /\ period_end out
       = option_map ts_iso
           (if 0 <? List.length rows then latest (map stamp rows) else None)
    /\ top_bad_windows_moderate_or_worse out
       = firstn 3
           (sorted_by (by_share moderate_or_worse_share)
              (if 0 <? List.length rows
               then day_stats_of rows (annotate outs drivers) else []))
    /\ top_bad_windows_unhealthy_or_worse out
       = firstn 3
           (sorted_by (by_share unhealthy_or_worse_share)
              (if 0 <? List.length rows
               then day_stats_of rows (annotate outs drivers) else []))
    /\ top_bad_windows out = top_bad_windows_moderate_or_worse out.
Proof.
  unfold analyze_city_from_csv, retained. intros H. cbv zeta.
  destruct (mapM _apply_interpret_row _) as [outs|] eqn:Eo; [| discriminate].
  cbn [bind] in H.
  destruct (mapM driver_of _) as [drivers|] eqn:Ed; [| discriminate].
  cbn [bind] in H.
  match type of H with
  | bind ?w _ = _ => destruct w as [worst|] eqn:W; [| discriminate]
  end.
  cbn [bind] in H. injection H as <-.
  exists outs, drivers.
  split; [reflexivity |]. split; [reflexivity |].
  split; [exact W |].
  repeat split; reflexivity.
Qed.

(** *** Counters *)

Lemma fold_add_list_sum (l : list nat) (acc : nat) :
  fold_left Nat.add l acc = acc + list_sum l.
Proof.
  revert acc. induction l as [|x l IH]; intros acc; simpl; [lia |].
  rewrite IH. lia.
Qed.

Lemma counter_add_sum (k : string) (c : list (string * nat)) :
  list_sum (map snd (counter_add k c)) = S (list_sum (map snd c)).
Proof.
  induction c as [|[k' m] c IH]; simpl; [reflexivity |].
  destruct (String.eqb k' k); simpl; [reflexivity | rewrite IH; lia].
Qed.

Lemma counter_add_keys (k x : string) (c : list (string * nat)) :
  In x (map fst (counter_add k c)) <-> x = k \/ In x (map fst c).
Proof.
  induction c as [|[k' m] c IH]; simpl; [intuition congruence |].
  destruct (String.eqb_spec k' k) as [-> | N]; simpl.
  - intuition congruence.
  - rewrite IH. intuition congruence.
Qed.

Lemma counter_add_NoDup (k : string) (c : list (string * nat)) :
  NoDup (map fst c) -> NoDup (map fst (counter_add k c)).
Proof.
  induction c as [|[k' m] c IH]; simpl; intros H.
  - constructor; [intros [] | constructor].
  - inversion H as [|? ? Hn Hd]; subst.
    destruct (String.eqb_spec k' k) as [-> | N]; simpl.
    + constructor; assumption.
    + constructor; [| now apply IH].
      rewrite counter_add_keys. intros [E | I]; [congruence | contradiction].
Qed.

Lemma counter_add_positive (k : string) (c : list (string * nat)) :
  (forall x m, In (x, m) c -> 1 <= m) ->
  forall x m, In (x, m) (counter_add k c) -> 1 <= m.
Proof.
  induction c as [|[k' m'] c IH]; simpl; intros H x m.
  - intros [E | []]. injection E as <- <-. lia.
  - destruct (String.eqb k' k); simpl.
    + intros [E | I]; [injection E as <- <-; lia | eapply H; eauto].
    + intros [E | I]; [eapply H; eauto |].
      eapply IH; [| exact I]. intros; eapply H; eauto.
Qed.

Lemma counter_add_sum_in (levels : list string) (k : string)
  (c : list (string * nat)) :
  sum_in levels (counter_add k c)
  = sum_in levels c + (if mem k levels then 1 else 0).
Proof.
  unfold sum_in. rewrite !fold_add_list_sum. simpl.
  induction c as [|[k' m] c IH]; simpl.
  - destruct (mem k levels); reflexivity.
  - destruct (String.eqb_spec k' k) as [-> | N]; simpl.
    + destruct (mem k levels); simpl; lia.
    + destruct (mem k' levels); simpl; rewrite IH; lia.
Qed.

Lemma counter_get_add (k k' : string) (c : list (string * nat)) :
  counter_get (counter_add k c) k'
  = counter_get c k' + (if String.eqb k k' then 1 else 0).
Proof.
  induction c as [|[x m] c IH]; simpl.
  - destruct (String.eqb k k'); reflexivity.
  - destruct (String.eqb_spec x k) as [-> | N]; simpl.
    + destruct (String.eqb k k'); lia.
    + destruct (String.eqb_spec x k') as [-> | N'].
      * destruct (String.eqb_spec k k') as [-> | _]; [congruence | lia].
      * exact IH.
Qed.

Lemma Counter_facts (xs : list string) :
  list_sum (map snd (Counter xs)) = List.length xs
  /\ NoDup (map fst (Counter xs))
  /\ (forall k, In k (map fst (Counter xs)) <-> In k xs)
  /\ (forall k m, In (k, m) (Counter xs) -> 1 <= m)
  /\ (forall levels,
        sum_in levels (Counter xs)
        = List.length (filter (fun x => mem x levels) xs))
  /\ (forall k,
        counter_get (Counter xs) k
        = List.length (filter (String.eqb k) xs)).
Proof.
  unfold Counter.
  assert (G : forall c,
    let r := fold_left (fun c k => counter_add k c) xs c in
    list_sum (map snd r) = list_sum (map snd c) + List.length xs
    /\ (NoDup (map fst c) -> NoDup (map fst r))
    /\ (forall k, In k (map fst r) <-> In k (map fst c) \/ In k xs)
    /\ ((forall k m, In (k, m) c -> 1 <= m) ->
        forall k m, In (k, m) r -> 1 <= m)
    /\ (forall levels,
          sum_in levels r
          = sum_in levels c
            + List.length (filter (fun x => mem x levels) xs))
    /\ (forall k,
          counter_get r k
          = counter_get c k + List.length (filter (String.eqb k) xs))).
  { induction xs as [|x xs IH]; intros c; cbn [fold_left].
    - cbv zeta. simpl. repeat split; intros; try tauto; try lia; eauto.
    - destruct (IH (counter_add x c)) as (S1 & N1 & K1 & P1 & L1 & G1).
      cbv zeta. repeat split.
      + rewrite S1, counter_add_sum. simpl. lia.
      + intros H. apply N1. now apply counter_add_NoDup.
      + intros H. apply K1 in H. rewrite counter_add_keys in H.
        simpl. intuition congruence.
      + intros H. apply K1. rewrite counter_add_keys.
        simpl in H. intuition congruence.
      + intros H. apply P1. now apply counter_add_positive.
      + intros levels. rewrite L1, counter_add_sum_in. simpl.
        destruct (mem x levels); simpl; lia.
      + intros k. rewrite G1, counter_get_add. simpl.
        rewrite (String.eqb_sym x k).
        destruct (String.eqb k x); simpl; lia. }
  destruct (G []) as (S1 & N1 & K1 & P1 & L1 & G1).
  repeat split.
  - exact S1.
  - apply N1. constructor.
  - intros H. apply K1 in H. destruct H as [[] | H]. exact H.
  - intros H. apply K1. now right.
  - apply P1. intros k m [].
  - intros levels. rewrite L1. reflexivity.
  - intros k. rewrite G1. reflexivity.
Qed.

(** *** The annotated interpretations *)

Lemma annotate_from (s : nat) (outs : list interpretation)
  (drivers : list string) :
  List.length drivers = List.length outs ->
  let l :=
    map (fun p => {| base := fst (fst p); driver := snd (fst p);
                     idx := snd p |})
      (combine (combine outs drivers) (seq s (List.length outs))) in
  map base l = outs /\ map driver l = drivers
  /\ map idx l = seq s (List.length outs).
Proof.
  revert s drivers. induction outs as [|o outs IH]; intros s drivers H.
  - destruct drivers; [| discriminate]. repeat split; reflexivity.
  - destruct drivers as [|d drivers]; [discriminate |].
    injection H as H. destruct (IH (S s) drivers H) as (B & D & I).
    cbv zeta. cbn [List.length seq combine map base driver idx fst snd].
    rewrite B, D, I. repeat split; reflexivity.
Qed.

Lemma annotate_facts (outs : list interpretation) (drivers : list string) :
  List.length drivers = List.length outs ->
  map base (annotate outs drivers) = outs
  /\ map driver (annotate outs drivers) = drivers
  /\ map idx (annotate outs drivers) = seq 0 (List.length outs)
  /\ List.length (annotate outs drivers) = List.length outs.
Proof.
  intros H. destruct (annotate_from 0 outs drivers H) as (B & D & I).
  fold (annotate outs drivers) in B, D, I.
  repeat split; try assumption.
  rewrite <- B at 2. now rewrite length_map.
Qed.

Lemma Forall2_In_r {A B : Type} (R : A -> B -> Prop) (xs : list A)
  (ys : list B) (y : B) :
  Forall2 R xs ys -> In y ys -> exists x, In x xs /\ R x y.
Proof.
  induction 1 as [|x y' xs ys Hr Hl IH]; intros Hy; [destruct Hy |].
  destruct Hy as [<- | Hy].
  - exists x. split; [now left | exact Hr].
  - destruct (IH Hy) as (x' & Hx & Hr'). exists x'. split; [now right | exact Hr'].
Qed.

Lemma interpreted_label (row : Row) (o : interpretation) :
  _apply_interpret_row row = Ok o ->
  score o <= 3 /\ index LEVEL_NAMES (score o) = Ok (risk_level o).
Proof.
  unfold _apply_interpret_row. intros H.
  destruct (score_is_max_when_returned _ _ _ _ _ H)
    as (la & lp & _ & _ & Ba & Bp & Hs & Hn).
  split; [lia | exact Hn].
Qed.

Lemma label_of_score (o : interpretation) :
  score o <= 3 -> index LEVEL_NAMES (score o) = Ok (risk_level o) ->
  In (risk_level o) LEVEL_NAMES
  /\ mem (risk_level o) MODERATE_OR_WORSE_LEVELS = (1 <=? score o)
  /\ mem (risk_level o) BAD_LEVELS = (2 <=? score o).
Proof.
  intros B H.
  destruct (score o) as [|[|[|[|k]]]]; try lia;
    cbn in H; injection H as <-; repeat split; simpl; tauto.
Qed.

Lemma filter_map_length {A B : Type} (f : A -> B) (p : B -> bool)
  (l : list A) :
  List.length (filter p (map f l))
  = List.length (filter (fun x => p (f x)) l).
Proof.
  induction l as [|x l IH]; simpl; [reflexivity |].
  destruct (p (f x)); simpl; now rewrite IH.
Qed.

(** *** Distribution of the risk levels *)

(** X11.  In a returned summary the counts of the level distribution add
    up to the number of retained rows ([total_measurements]).  Its keys
    are distinct level names; each count is the number of retained rows
    interpreted at that level, is at least 1, and its percentage is that
    count over the total. *)
Theorem distribution_adds_up (city_name : string) (df : list Row)
  (out : city_summary) :
  analyze_city_from_csv city_name df = Ok out ->
  counted (distribution out) = total_measurements out
  /\ NoDup (map fst (distribution out))
  /\ exists outs,
       mapM _apply_interpret_row (retained city_name df) = Ok outs
       /\ forall k cp,
            In (k, cp) (distribution out) ->
            In k LEVEL_NAMES
            /\ count cp
               = List.length
                   (filter (fun o => String.eqb k (risk_level o)) outs)
            /\ 1 <= count cp
            /\ pct cp = share (count cp) (total_measurements out).
Proof.
  intros H.
  destruct (analyze_fields _ _ _ H)
    as (outs & drivers & Eo & Ed & _ & T & D & _).
  pose proof (mapM_length _ _ _ Eo) as Lo.
  pose proof (mapM_length _ _ _ Ed) as Ld.
  destruct (annotate_facts outs drivers ltac:(congruence))
    as (B & _ & _ & _).
  assert (Lv : map (fun i => risk_level (base i)) (annotate outs drivers)
               = map risk_level outs).
  { rewrite <- B at 2. now rewrite map_map. }
  rewrite Lv in D.
  destruct (Counter_facts (map risk_level outs))
    as (S1 & N1 & K1 & P1 & _ & G1).
  rewrite D, T. unfold counted.
  rewrite !map_map. cbn [fst snd count].
  split; [| split].
  - change (fun x : string * nat => snd x) with (@snd string nat).
    rewrite S1, length_map. congruence.
  - change (fun x : string * nat => fst x) with (@fst string nat).
    exact N1.
  - exists outs. split; [exact Eo |].
    intros k cp Hin. apply in_map_iff in Hin.
    destruct Hin as ([k' m] & E & Hin). cbn [fst snd] in E.
    injection E as <- <-. cbn [count pct].
    assert (Kin : In k' (map risk_level outs)).
    { apply K1. apply in_map_iff. exists (k', m). split; [reflexivity | exact Hin]. }
    apply in_map_iff in Kin. destruct Kin as (o & <- & Ho).
    apply mapM_Forall2 in Eo.
    destruct (Forall2_In_r _ _ _ _ Eo Ho) as (row & _ & Hr).
    destruct (interpreted_label _ _ Hr) as [Bs Hn].
    destruct (label_of_score o Bs Hn) as (Lin & _).
    split; [exact Lin |].
    assert (Gm : counter_get (Counter (map risk_level outs)) (risk_level o)
                 = m).
    { clear - N1 Hin. revert N1 Hin.
      generalize (Counter (map risk_level outs)) as c.
      induction c as [|[x n] c IH]; simpl; [tauto |].
      intros Nd [E | I].
      - injection E as -> ->. now rewrite String.eqb_refl.
      - inversion Nd as [|? ? Hn Hd]; subst.
        destruct (String.eqb_spec x (risk_level o)) as [-> | _].
        + exfalso. apply Hn. apply in_map_iff.
          exists (risk_level o, m). split; [reflexivity | exact I].
        + now apply IH. }
    split.
    + rewrite <- Gm, G1, filter_map_length. reflexivity.
    + split; [eapply P1; exact Hin | reflexivity].
Qed.

Lemma distribution_adds_up_witness :
  exists out,
    analyze_city_from_csv "Almaty" sample_frame = Ok out
    /\ total_measurements out = 3
    /\ counted (distribution out) = 3
    /\ map fst (distribution out) = ["Unhealthy"; "Normal"].
Proof.
  eexists. split; [reflexivity |]. split; [reflexivity |].
  split; [| reflexivity].
  apply (distribution_adds_up "Almaty" sample_frame _ eq_refl).
Defined.

(** *** Distribution of the drivers *)

Lemma driver_label (row : Row) (d : string) :
  driver_of row = Ok d -> d = "AQI" \/ d = "PM2.5" \/ d = "Both".
Proof.
  unfold driver_of. intros H.
  destruct (_aqi_to_level (col_aqi row)) as [la|]; [| discriminate].
  destruct (_pm25_to_level (col_pm2_5 row)) as [lp|]; [| discriminate].
  cbn [bind] in H. injection H as <-.
  destruct (lp <? la); [now left |].
  destruct (la <? lp); [right; now left | right; now right].
Qed.

Lemma three_labels_cover (xs : list string) :
  (forall x, In x xs -> x = "AQI" \/ x = "PM2.5" \/ x = "Both") ->
  List.length (filter (String.eqb "AQI") xs)
  + List.length (filter (String.eqb "PM2.5") xs)
  + List.length (filter (String.eqb "Both") xs)
  = List.length xs.
Proof.
  induction xs as [|x xs IH]; intros H; [reflexivity |].
  assert (IH' := IH (fun y Hy => H y (or_intror Hy))).
  destruct (H x (or_introl eq_refl)) as [-> | [-> | ->]];
    cbn [filter];
    repeat match goal with
           | |- context [String.eqb ?a ?b] =>
               let v := eval vm_compute in (String.eqb a b) in
               change (String.eqb a b) with v
           end;
    cbn [List.length]; lia.
Qed.

(** X12.  In a returned summary the driver distribution has the three
    keys AQI, PM2.5 and Both, in this order and also when a count is zero;
    each count is the number of retained rows with that driver, the
    counts add up to [total_measurements], and each percentage is its
    count over the total. *)
Theorem drivers_distribution_adds_up (city_name : string) (df : list Row)
  (out : city_summary) :
  analyze_city_from_csv city_name df = Ok out ->
  map fst (drivers_distribution out) = ["AQI"; "PM2.5"; "Both"]
  /\ counted (drivers_distribution out) = total_measurements out
  /\ exists drivers,
       mapM driver_of (retained city_name df) = Ok drivers
       /\ forall k cp,
            In (k, cp) (drivers_distribution out) ->
            count cp = List.length (filter (String.eqb k) drivers)
            /\ pct cp = share (count cp) (total_measurements out).
Proof.
  intros H.
  destruct (analyze_fields _ _ _ H)
    as (outs & drivers & Eo & Ed & _ & T & _ & D & _).
  pose proof (mapM_length _ _ _ Ed) as Ld.
  destruct (Counter_facts drivers) as (_ & _ & _ & _ & _ & G).
  rewrite D, T. split; [reflexivity |]. split.
  - unfold counted. cbn [map snd count list_sum]. rewrite !G.
    unfold list_sum. cbn [fold_right].
    rewrite <- (three_labels_cover drivers) in Ld; [lia |].
    intros d Hd. apply mapM_Forall2 in Ed.
    destruct (Forall2_In_r _ _ _ _ Ed Hd) as (row & _ & Hr).
    eapply driver_label; eassumption.
  - exists drivers. split; [exact Ed |].
    intros k cp Hin. cbn [map] in Hin.
    destruct Hin as [E | [E | [E | []]]];
      injection E as <- <-; cbn [count pct]; rewrite G;
      split; reflexivity.
Qed.

Lemma drivers_distribution_adds_up_witness :
  exists out,
    analyze_city_from_csv "Almaty" sample_frame = Ok out
    /\ map fst (drivers_distribution out) = ["AQI"; "PM2.5"; "Both"]
    /\ counted (drivers_distribution out) = 3.
Proof.
  eexists. split; [reflexivity |].
  destruct (drivers_distribution_adds_up "Almaty" sample_frame _ eq_refl)
    as (K & S0 & _).
  split; [exact K | exact S0].
Defined.

(** *** When the analysis returns *)

Lemma interpret_raise_kind (a p : pyval) (ts c : option string) (e : exn) :
  interpret a p ts c = Raise e ->
  unroundable a = true /\ (e = ValueError \/ e = OverflowError).
Proof.
  intros H. pose proof (interpret_outcome a p ts c) as K.
  unfold unroundable.
  destruct (py_float a) as [[q| | |]|e'].
  - destruct K as (out & K). congruence.
  - split; [reflexivity |]. right. congruence.
  - split; [reflexivity |]. right. congruence.
  - split; [reflexivity |]. left. congruence.
  - destruct K as (out & K). congruence.
Qed.

Lemma driver_of_returns (row : Row) :
  unroundable (col_aqi row) = false -> exists d, driver_of row = Ok d.
Proof.
  intros H. unfold driver_of.
  destruct (aqi_level_returns _ H) as (la & ->).
  destruct (pm25_level_total (col_pm2_5 row)) as (lp & -> & _).
  cbn [bind]. eauto.
Qed.

Lemma driver_of_raise_kind (row : Row) (e : exn) :
  driver_of row = Raise e ->
  unroundable (col_aqi row) = true /\ e = OverflowError.
Proof.
  intros H. split.
  - destruct (unroundable (col_aqi row)) eqn:U; [reflexivity |].
    destruct (driver_of_returns row U) as (d & E). congruence.
  - unfold driver_of, _aqi_to_level, aqi_level_of_float in H.
    destruct (pm25_level_total (col_pm2_5 row)) as (lp & Hp & _).
    rewrite Hp in H.
    destruct (col_aqi row) as [|x s|s [x|]]; cbn in H; try discriminate;
      destruct x; cbn in H; repeat break_if; cbn in H;
      try discriminate; congruence.
Qed.

Lemma worst_of_outcome (rows : list Row) (interps : list annotated) :
  (exists w, worst_of rows interps = Ok w)
  \/ (exists row e, In row rows /\ driver_of row = Raise e
                    /\ worst_of rows interps = Raise e).
Proof.
  unfold worst_of. destruct interps as [|i interps]; [left; eauto |].
  cbv zeta.
  destruct (choose_earliest rows _ None) as [chosen|]; [| left; eauto].
  destruct (nth_error rows (idx chosen)) as [orig|] eqn:N.
  - destruct (driver_of orig) as [d|e] eqn:D; cbn [bind].
    + left. eauto.
    + right. exists orig, e. apply nth_error_In in N. auto.
  - cbn [bind]. left. eauto.
Qed.

(** The computation of the summary ends in one of two ways, by the
    retained rows alone. *)
Lemma analysis_outcome (city_name : string) (df : list Row) :
  (exists out, analyze_city_from_csv city_name df = Ok out
               /\ forall r, In r (retained city_name df) ->
                            unroundable (col_aqi r) = false)
  \/ (exists e r, analyze_city_from_csv city_name df = Raise e
                  /\ (e = ValueError \/ e = OverflowError)
                  /\ In r (retained city_name df)
                  /\ unroundable (col_aqi r) = true).
Proof.
  unfold analyze_city_from_csv. fold (retained city_name df).
  destruct (mapM _apply_interpret_row (retained city_name df))
    as [outs|e] eqn:Eo.
  2:{ right. destruct (mapM_raises _ _ _ Eo) as (r & Hr & Hf).
      destruct (interpret_raise_kind _ _ _ _ _ Hf) as [U K].
      exists e, r. cbn [bind]. auto. }
  assert (Good : forall r, In r (retained city_name df) ->
                           unroundable (col_aqi r) = false).
  { intros r Hr. apply In_nth_error in Hr. destruct Hr as (i & Hi).
    destruct (mapM_nth _ _ _ _ _ Eo Hi) as (o & _ & Ho).
    unfold _apply_interpret_row in Ho.
    eapply (proj1 (interpret_returns_iff _ _ _ _)). exists o. exact Ho. }
  destruct (mapM_returns driver_of (retained city_name df))
    as (drivers & Ed).
  { intros r Hr. apply driver_of_returns. now apply Good. }
  rewrite Ed. cbn [bind].
  destruct (worst_of_outcome (retained city_name df)
              (annotate outs drivers))
    as [(w & W) | (row & e & Hin & Hd & _)].
  - left. unfold worst_of, annotate, no_row in W.
    match goal with
    | |- context [bind ?x _] => change x with (@Ok (option worst_entry) w)
                                || rewrite W
    end.
    cbn [bind]. eexists. split; [reflexivity | exact Good].
  - destruct (driver_of_returns row (Good row Hin)) as (d & E).
    congruence.
Qed.

(** X13.  A call of the analysis returns a summary exactly when the
    module compiles, no retained row of the city has an index reading
    that converts to NaN or to an infinity, and the summary file can be
    written; rows of other cities and dropped rows never matter.  The
    summary returned is the one computed.  A call that ends in an
    exception of the computation ends in [ValueError] or [OverflowError],
    and a retained row of the city has such a reading; when the module
    compiles, one such row makes the whole call end so, and no summary
    is produced for the other rows.  In the program as shipped the module
    does not compile, and every call ends in [SyntaxError]. *)
Theorem analysis_returns_iff (source : list nat) (fs : filesystem)
  (output_dir city_name : string) (df : list Row) :
  ((exists out,
      run_analyze_city_from_csv source fs output_dir city_name df
      = Returns out)
   <-> compile_module source = Returns tt
       /\ (forall r, In r (retained city_name df) ->
                     unroundable (col_aqi r) = false)
       /\ write_summary fs output_dir city_name = Returns tt)
  /\ (forall out,
        run_analyze_city_from_csv source fs output_dir city_name df
        = Returns out ->
        analyze_city_from_csv city_name df = Ok out)
  /\ (forall e,
        run_analyze_city_from_csv source fs output_dir city_name df
        = Fails (Uncaught e) ->
        (e = ValueError \/ e = OverflowError)
        /\ exists r, In r (retained city_name df)
                     /\ unroundable (col_aqi r) = true)
  /\ (compile_module source = Returns tt ->
      forall r,
        In r (retained city_name df) ->
        unroundable (col_aqi r) = true ->
        exists e,
          run_analyze_city_from_csv source fs output_dir city_name df
          = Fails (Uncaught e))
  /\ run_analyze_city_from_csv TRIPLE_QUOTE_LINES fs output_dir city_name df
     = Fails SyntaxError.
Proof.
  pose proof (analysis_outcome city_name df) as Cases.
  split; [| split; [| split; [| split; [| reflexivity]]]].
  - split.
    + intros (out & R).
      destruct (run_analyze_returns_inv _ _ _ _ _ _ R) as (C & A & W).
      split; [exact C |]. split; [| exact W].
      exact (analyze_returns_roundable _ _ _ A).
    + intros (C & G & W).
      destruct Cases as [(out & H & _) | (e & r & _ & _ & Hin & U)].
      * exists out. now apply run_analyze_returns.
      * rewrite (G r Hin) in U. discriminate.
  - intros out R.
    exact (proj1 (proj2 (run_analyze_returns_inv _ _ _ _ _ _ R))).
  - intros e R. unfold run_analyze_city_from_csv, compile_module in R.
    destruct (Nat.even (List.length source)); [| discriminate].
    destruct Cases as [(out & H & _) | (e' & r & E & K & Hin & U)].
    + rewrite H in R. unfold write_summary in R.
      destruct (mkdir_ok fs output_dir);
        [destruct (open_ok fs (out_path output_dir city_name)) |];
        discriminate.
    + rewrite E in R. injection R as <-. split; [exact K | eauto].
  - intros C r Hin U. unfold run_analyze_city_from_csv. rewrite C.
    destruct Cases as [(out & _ & G) | (e & r' & E & _)].
    + rewrite (G r Hin) in U. discriminate.
    + rewrite E. eauto.
Qed.

Lemma analysis_returns_iff_witness :
  (exists out,
     run_analyze_city_from_csv triple_quotes_closed fs_outputs "outputs"
       "Almaty" sample_frame = Returns out)
  /\ (exists e,
        run_analyze_city_from_csv triple_quotes_closed fs_outputs "outputs"
          "Almaty" [row_complete; row_without_index] = Fails (Uncaught e))
  /\ ~ (exists out,
          run_analyze_city_from_csv TRIPLE_QUOTE_LINES fs_outputs "outputs"
            "Almaty" sample_frame = Returns out).
Proof.
  split; [| split].
  - apply (proj1 (analysis_returns_iff triple_quotes_closed fs_outputs
                    "outputs" "Almaty" sample_frame)).
    split; [reflexivity |]. split; [| reflexivity].
    intros r [<- | [<- | [<- | []]]]; reflexivity.
  - apply (proj1 (proj2 (proj2 (proj2
             (analysis_returns_iff triple_quotes_closed fs_outputs
                "outputs" "Almaty" [row_complete; row_without_index]))))
             eq_refl row_without_index).
    + right. left. reflexivity.
    + reflexivity.
  - intros R.
    destruct (proj1 (proj1 (analysis_returns_iff TRIPLE_QUOTE_LINES
                fs_outputs "outputs" "Almaty" sample_frame)) R) as (C & _).
    discriminate C.
Defined.

(** *** The worst moment *)

Lemma fold_max_ge (l : list nat) (a : nat) :
  a <= fold_left Nat.max l a
  /\ (forall x, In x l -> x <= fold_left Nat.max l a)
  /\ (fold_left Nat.max l a = a \/ In (fold_left Nat.max l a) l).
Proof.
  revert a. induction l as [|y l IH]; intros a; cbn [fold_left].
  - split; [lia |]. split; [intros x [] | now left].
  - destruct (IH (Nat.max a y)) as (G & A & M).
    split; [lia |]. split.
    + intros x [<- | Hx]; [lia | now apply A].
    + destruct M as [M | M]; [| right; now right].
      rewrite M. destruct (Nat.max_spec a y) as [[_ E] | [_ E]]; rewrite E.
      * right. now left.
      * now left.
Qed.

Lemma ascending_filter (f : annotated -> bool) (l : list annotated) :
  ascending l -> ascending (filter f l).
Proof.
  induction l as [|a l IH]; cbn [filter ascending]; [tauto |].
  intros [H A]. destruct (f a); cbn [ascending].
  - split; [| now apply IH].
    intros b Hb. apply filter_In in Hb. now apply H.
  - now apply IH.
Qed.

Lemma ascending_of_seq (l : list annotated) (s n : nat) :
  map idx l = seq s n -> ascending l.
Proof.
  revert s n. induction l as [|a l IH]; intros s n H; cbn [ascending];
    [exact I |].
  destruct n as [|n]; [discriminate |].
  cbn [map seq] in H. injection H as Ha Hl.
  split; [| eapply IH; exact Hl].
  intros b Hb. apply (in_map idx) in Hb. rewrite Hl in Hb.
  apply in_seq in Hb. lia.
Qed.

Lemma choose_earliest_spec (rows : list Row) (cs : list annotated)
  (ch : annotated) :
  (forall c, In c cs -> idx ch < idx c) -> ascending cs ->
  exists r,
    choose_earliest rows cs (Some ch) = Some r
    /\ In r (ch :: cs)
    /\ forall c, In c (ch :: cs) -> not_after rows r c.
Proof.
  revert ch. induction cs as [|c1 rest IH]; intros ch Hlt Hasc;
    cbn [choose_earliest].
  - exists ch. split; [reflexivity |]. split; [now left |].
    intros c [<- | []]. right. split; [reflexivity | lia].
  - destruct Hasc as [H1 Hasc].
    fold no_row. fold (moment rows c1). fold (moment rows ch).
    destruct (Z.ltb_spec (moment rows c1) (moment rows ch)) as [L | L].
    + destruct (IH c1 H1 Hasc) as (r & E & Hin & B).
      exists r. split; [exact E |]. split; [now right |].
      intros c [<- | Hc]; [| now apply B].
      destruct (B c1 (or_introl eq_refl)) as [B1 | [B1 _]];
        left; lia.
    + destruct (IH ch) as (r & E & Hin & B).
      { intros c Hc. apply Hlt. now right. }
      { exact Hasc. }
      exists r. split; [exact E |].
      split; [destruct Hin as [<- | Hin]; [now left | right; now right] |].
      intros c [<- | [<- | Hc]].
      * apply B. now left.
      * pose proof (Hlt c1 (or_introl eq_refl)) as I1.
        destruct (B ch (or_introl eq_refl)) as [B1 | [B1 B2]].
        -- left. lia.
        -- destruct (Z.eq_dec (moment rows ch) (moment rows c1)) as [E1 | N1].
           ++ right. split; [lia | lia].
           ++ left. lia.
      * apply B. now right.
Qed.

Lemma nth_error_seq0 (n i : nat) :
  i < n -> nth_error (seq 0 n) i = Some i.
Proof.
  intros H. rewrite nth_error_seq.
  destruct (Nat.ltb_spec i n); [reflexivity | lia].
Qed.

Lemma annotate_nth (outs : list interpretation) (drivers : list string)
  (i : nat) (o : interpretation) :
  List.length drivers = List.length outs ->
  nth_error outs i = Some o ->
  exists a, nth_error (annotate outs drivers) i = Some a
            /\ base a = o /\ idx a = i.
Proof.
  intros L Ho.
  destruct (annotate_facts outs drivers L) as (B & _ & I & Len).
  assert (Hi : i < List.length (annotate outs drivers)).
  { rewrite Len. apply nth_error_Some. congruence. }
  destruct (nth_error (annotate outs drivers) i) as [a|] eqn:Ea.
  2:{ apply nth_error_None in Ea. lia. }
  exists a. split; [reflexivity |]. split.
  - pose proof (map_nth_error base _ _ Ea) as M. rewrite B in M. congruence.
  - pose proof (map_nth_error idx _ _ Ea) as M. rewrite I in M.
    rewrite nth_error_seq0 in M by (rewrite <- Len; exact Hi).
    congruence.
Qed.

Lemma annotate_In (outs : list interpretation) (drivers : list string)
  (a : annotated) :
  List.length drivers = List.length outs ->
  In a (annotate outs drivers) ->
  nth_error outs (idx a) = Some (base a)
  /\ nth_error (annotate outs drivers) (idx a) = Some a.
Proof.
  intros L Ha. apply In_nth_error in Ha. destruct Ha as (i & Hi).
  destruct (annotate_facts outs drivers L) as (B & _ & I & Len).
  assert (Lt : i < List.length (annotate outs drivers))
    by (apply nth_error_Some; congruence).
  pose proof (map_nth_error idx _ _ Hi) as M. rewrite I in M.
  rewrite nth_error_seq0 in M by (rewrite <- Len; exact Lt).
  injection M as M. rewrite <- M.
  split; [| exact Hi].
  pose proof (map_nth_error base _ _ Hi) as M'. now rewrite B in M'.
Qed.

Lemma worst_of_nonempty (rows : list Row) (interps : list annotated) :
  interps <> [] ->
  worst_of rows interps
  = match
      choose_earliest rows
        (filter
           (fun i =>
              score (base i)
              =? fold_left Nat.max
                   (map (fun i => score (base i)) interps) 0)
           interps)
        None
    with
    | None => Ok None
    | Some chosen =>
        determined <-
          (match nth_error rows (idx chosen) with
           | Some orig_row => driver_of orig_row
           | None => Ok (driver chosen)
           end) ;;
        Ok (Some
              {| worst_timestamp :=
                   Some (ts_iso (stamp (at_ rows (idx chosen) no_row)));
                 worst_risk_level := risk_level (base chosen);
                 worst_reasons := reasons (base chosen);
                 determined_by := determined |})
    end.
Proof. destruct interps; [contradiction | reflexivity]. Qed.

Lemma at_nth_error {A : Type} (xs : list A) (i : nat) (x d : A) :
  nth_error xs i = Some x -> at_ xs i d = x.
Proof. intros H. unfold at_. now apply nth_error_nth. Qed.

(** X14.  When some row is retained, a returned summary has a worst
    moment, and it is the retained row with the highest score; among the
    rows with that score the one earliest on the time line; among those
    at the same instant the first in the frame.  Its risk level and
    reasons are those of the row's interpretation, its timestamp the
    row's, and [determined_by] is the driver of that row. *)
Theorem worst_moment_selection (city_name : string) (df : list Row)
  (out : city_summary) :
  analyze_city_from_csv city_name df = Ok out ->
  retained city_name df <> [] ->
  exists i row o w,
    nth_error (retained city_name df) i = Some row
    /\ _apply_interpret_row row = Ok o
    /\ worst_moment out = Some w
    /\ worst_risk_level w = risk_level o
    /\ worst_reasons w = reasons o
    /\ worst_timestamp w = Some (ts_iso (stamp row))
    /\ driver_of row = Ok (determined_by w)
    /\ forall j row' o',
         nth_error (retained city_name df) j = Some row' ->
         _apply_interpret_row row' = Ok o' ->
         score o' < score o
         \/ (score o' = score o
             /\ ((ts_ns (stamp row) < ts_ns (stamp row'))%Z
                 \/ (ts_ns (stamp row) = ts_ns (stamp row') /\ i <= j))).
Proof.
  intros H NE.
  destruct (analyze_fields _ _ _ H)
    as (outs & drivers & Eo & Ed & W & _).
  set (rows := retained city_name df) in *.
  pose proof (mapM_length _ _ _ Eo) as Lo.
  pose proof (mapM_length _ _ _ Ed) as Ld.
  assert (L : List.length drivers = List.length outs) by congruence.
  destruct (annotate_facts outs drivers L) as (B & _ & I & Len).
  remember (annotate outs drivers) as interps eqn:Ei.
  assert (NEi : interps <> []).
  { intros Z0. rewrite Z0 in Len. simpl in Len.
    destruct rows; [contradiction | simpl in Lo; lia]. }
  rewrite (worst_of_nonempty rows interps NEi) in W.
  set (mx := fold_left Nat.max (map (fun i => score (base i)) interps) 0)
    in *.
  destruct (fold_max_ge (map (fun i => score (base i)) interps) 0)
    as (_ & Amax & Mmax).
  fold mx in Amax, Mmax.
  assert (Asc : ascending interps) by (eapply ascending_of_seq; exact I).
  set (cands := filter (fun i => score (base i) =? mx) interps) in *.
  assert (Hc : cands <> []).
  { assert (X : exists a, In a interps /\ score (base a) = mx).
    { destruct Mmax as [M0 | M].
      - destruct interps as [|a0 rest]; [contradiction |].
        exists a0. split; [now left |].
        assert (score (base a0) <= mx) by (apply Amax; now left). lia.
      - apply in_map_iff in M. destruct M as (a & Ea & Ha). eauto. }
    destruct X as (a & Ha & Sa). intros Z0.
    assert (Ia : In a cands).
    { apply filter_In. split; [exact Ha | now apply Nat.eqb_eq]. }
    rewrite Z0 in Ia. destruct Ia. }
  pose proof (ascending_filter (fun i => score (base i) =? mx) interps Asc)
    as AscC.
  fold cands in AscC.
  assert (InC : forall c, In c cands -> In c interps /\ score (base c) = mx).
  { intros c Hin. apply filter_In in Hin. destruct Hin as [Hin E].
    split; [exact Hin | now apply Nat.eqb_eq]. }
  assert (CIn : forall c, In c interps -> score (base c) = mx -> In c cands).
  { intros c Hin E. apply filter_In. split; [exact Hin | now apply Nat.eqb_eq]. }
  clearbody cands.
  destruct cands as [|c1 crest]; [contradiction |].
  cbn [choose_earliest] in W. destruct AscC as [A1 AscC].
  destruct (choose_earliest_spec rows crest c1 A1 AscC)
    as (r & Er & Rin & Bnd).
  rewrite Er in W.
  destruct (InC r Rin) as [Rint Rsc].
  rewrite Ei in Rint. destruct (annotate_In outs drivers r L Rint)
    as [Ro _].
  assert (Ri : idx r < List.length rows).
  { rewrite <- Lo. apply nth_error_Some. congruence. }
  destruct (nth_error rows (idx r)) as [row|] eqn:Erow.
  2:{ apply nth_error_None in Erow. lia. }
  destruct (mapM_nth _ _ _ _ _ Eo Erow) as (o & Ho & Hio).
  assert (o = base r) by congruence. subst o.
  destruct (driver_of row) as [d|] eqn:Dr; [| discriminate].
  cbn [bind] in W. injection W as W.
  rewrite (at_nth_error rows (idx r) row no_row Erow) in W.
  exists (idx r), row, (base r). eexists.
  split; [exact Erow |]. split; [exact Hio |].
  split; [symmetry; exact W |].
  cbn [worst_risk_level worst_reasons worst_timestamp determined_by].
  split; [reflexivity |]. split; [reflexivity |].
  split; [reflexivity |]. split; [exact Dr |].
  intros j row' o' Hj Ho'.
  destruct (mapM_nth _ _ _ _ _ Eo Hj) as (y & Hy & Hiy).
  assert (y = o') by congruence. subst y.
  destruct (annotate_nth outs drivers j o' L Hy) as (aj & Haj & Bj & Ij).
  rewrite <- Ei in Haj.
  assert (Inj : In aj interps) by (eapply nth_error_In; exact Haj).
  assert (Le : score o' <= mx).
  { apply Amax. apply in_map_iff. exists aj. split; [now rewrite Bj | exact Inj]. }
  rewrite Rsc.
  destruct (Nat.eq_dec (score o') mx) as [Eq | Nq]; [| left; lia].
  right. split; [exact Eq |].
  assert (Cj : In aj (c1 :: crest)) by (apply CIn; [exact Inj | now rewrite Bj]).
  destruct (Bnd aj Cj) as [Lt | [Eqm Lei]];
    unfold moment in *;
    rewrite (at_nth_error rows (idx r) row no_row Erow) in *;
    rewrite Ij in *;
    rewrite (at_nth_error rows j row' no_row Hj) in *.
  - left. exact Lt.
  - right. split; [exact Eqm | exact Lei].
Qed.

Lemma worst_moment_selection_witness :
  exists out,
    analyze_city_from_csv "Almaty" sample_frame = Ok out
    /\ retained "Almaty" sample_frame <> []
    /\ exists i row o w,
         nth_error (retained "Almaty" sample_frame) i = Some row
         /\ _apply_interpret_row row = Ok o
         /\ worst_moment out = Some w
         /\ worst_risk_level w = risk_level o
         /\ worst_reasons w = reasons o
         /\ worst_timestamp w = Some (ts_iso (stamp row))
         /\ driver_of row = Ok (determined_by w)
         /\ forall j row' o',
              nth_error (retained "Almaty" sample_frame) j = Some row' ->
              _apply_interpret_row row' = Ok o' ->
              score o' < score o
              \/ (score o' = score o
                  /\ ((ts_ns (stamp row) < ts_ns (stamp row'))%Z
                      \/ (ts_ns (stamp row) = ts_ns (stamp row')
                          /\ i <= j))).
Proof.
  eexists. split; [reflexivity |]. split; [discriminate |].
  apply (worst_moment_selection "Almaty" sample_frame);
    [reflexivity | discriminate].
Defined.

(** *** The period *)

Lemma fold_earliest (rest : list Timestamp) (m : Timestamp) :
  let r := fold_left (fun m x => if (ts_ns x <? ts_ns m)%Z then x else m)
             rest m in
  (r = m \/ In r rest)
  /\ (ts_ns r <= ts_ns m)%Z
  /\ forall x, In x rest -> (ts_ns r <= ts_ns x)%Z.
Proof.
  revert m. induction rest as [|y rest IH]; intros m; cbn [fold_left].
  - split; [now left |]. split; [lia |]. intros x [].
  - cbv zeta in IH.
    destruct (Z.ltb_spec (ts_ns y) (ts_ns m)) as [Lt | Ge].
    + destruct (IH y) as (I & B & A).
      split; [destruct I as [-> | I]; right; [now left | now right] |].
      split; [lia |].
      intros x [<- | Hx]; [exact B | now apply A].
    + destruct (IH m) as (I & B & A).
      split; [destruct I as [-> | I]; [now left | right; now right] |].
      split; [exact B |].
      intros x [<- | Hx]; [lia | now apply A].
Qed.

Lemma fold_latest (rest : list Timestamp) (m : Timestamp) :
  let r := fold_left (fun m x => if (ts_ns m <? ts_ns x)%Z then x else m)
             rest m in
  (r = m \/ In r rest)
  /\ (ts_ns m <= ts_ns r)%Z
  /\ forall x, In x rest -> (ts_ns x <= ts_ns r)%Z.
Proof.
  revert m. induction rest as [|y rest IH]; intros m; cbn [fold_left].
  - split; [now left |]. split; [lia |]. intros x [].
  - cbv zeta in IH.
    destruct (Z.ltb_spec (ts_ns m) (ts_ns y)) as [Lt | Ge].
    + destruct (IH y) as (I & B & A).
      split; [destruct I as [-> | I]; right; [now left | now right] |].
      split; [lia |].
      intros x [<- | Hx]; [exact B | now apply A].
    + destruct (IH m) as (I & B & A).
      split; [destruct I as [-> | I]; [now left | right; now right] |].
      split; [exact B |].
      intros x [<- | Hx]; [lia | now apply A].
Qed.

Lemma earliest_spec (ts : list Timestamp) :
  ts <> [] ->
  exists t, earliest ts = Some t /\ In t ts
            /\ forall x, In x ts -> (ts_ns t <= ts_ns x)%Z.
Proof.
  destruct ts as [|t0 rest]; [contradiction |]. intros _.
  destruct (fold_earliest rest t0) as (I & B & A).
  eexists. split; [reflexivity |].
  split; [destruct I as [-> | I]; [now left | now right] |].
  intros x [<- | Hx]; [exact B | now apply A].
Qed.

Lemma latest_spec (ts : list Timestamp) :
  ts <> [] ->
  exists t, latest ts = Some t /\ In t ts
            /\ forall x, In x ts -> (ts_ns x <= ts_ns t)%Z.
Proof.
  destruct ts as [|t0 rest]; [contradiction |]. intros _.
  destruct (fold_latest rest t0) as (I & B & A).
  eexists. split; [reflexivity |].
  split; [destruct I as [-> | I]; [now left | now right] |].
  intros x [<- | Hx]; [exact B | now apply A].
Qed.

(** X15.  When some row is retained, [period_start] and [period_end] of
    a returned summary are the ISO texts of the timestamps of two retained
    rows, and the timestamp of every retained row lies between them. *)
Theorem period_bounds (city_name : string) (df : list Row)
  (out : city_summary) :
  analyze_city_from_csv city_name df = Ok out ->
  retained city_name df <> [] ->
  exists first last,
    In first (retained city_name df)
    /\ In last (retained city_name df)
    /\ period_start out = Some (ts_iso (stamp first))
    /\ period_end out = Some (ts_iso (stamp last))
    /\ forall row,
         In row (retained city_name df) ->
         (ts_ns (stamp first) <= ts_ns (stamp row) <= ts_ns (stamp last))%Z.
Proof.
  intros H NE.
  destruct (analyze_fields _ _ _ H)
    as (_ & _ & _ & _ & _ & _ & _ & _ & _ & _ & Ps & Pe & _).
  set (rows := retained city_name df) in *.
  assert (Pos : (0 <? List.length rows) = true).
  { apply Nat.ltb_lt. destruct rows; [contradiction | simpl; lia]. }
  rewrite Pos in Ps, Pe.
  assert (NM : map stamp rows <> []).
  { destruct rows; [contradiction | discriminate]. }
  destruct (earliest_spec _ NM) as (t1 & E1 & I1 & A1).
  destruct (latest_spec _ NM) as (t2 & E2 & I2 & A2).
  rewrite E1 in Ps. rewrite E2 in Pe. cbn [option_map] in Ps, Pe.
  apply in_map_iff in I1. destruct I1 as (r1 & <- & I1).
  apply in_map_iff in I2. destruct I2 as (r2 & <- & I2).
  exists r1, r2. repeat (split; [assumption |]).
  intros row Hr. split; [apply A1 | apply A2]; now apply in_map.
Qed.

Lemma period_bounds_witness :
  exists out,
    analyze_city_from_csv "Almaty" sample_frame = Ok out
    /\ retained "Almaty" sample_frame <> []
    /\ period_start out = Some "2023-11-14T22:13:20"
    /\ period_end out = Some "2023-11-16T02:00:01"
    /\ exists first last,
         In first (retained "Almaty" sample_frame)
         /\ In last (retained "Almaty" sample_frame)
         /\ period_start out = Some (ts_iso (stamp first))
         /\ period_end out = Some (ts_iso (stamp last))
         /\ forall row,
              In row (retained "Almaty" sample_frame) ->
              (ts_ns (stamp first) <= ts_ns (stamp row)
               <= ts_ns (stamp last))%Z.
Proof.
  eexists. split; [reflexivity |]. split; [discriminate |].
  split; [reflexivity |]. split; [reflexivity |].
  apply (period_bounds "Almaty" sample_frame);
    [reflexivity | discriminate].
Defined.

(** *** The shares *)

Lemma share_value (c t : nat) :
  0 < t ->
  share c t
  = Fin (inject_Z (Z.of_nat c) / inject_Z (Z.of_nat t) * 100).
Proof.
  intros H. unfold share.
  destruct (Nat.ltb_spec 0 t) as [_ | ?]; [| lia].
  unfold Float.of_nat, Float.div.
  destruct (Qeq_bool (inject_Z (Z.of_nat t)) 0) eqn:E; [| reflexivity].
  apply Qeq_bool_iff in E.
  destruct t as [|k]; [lia |].
  pose proof (inject_nat_pos k) as P. rewrite E in P. lra.
Qed.

Lemma share_le (c c' t : nat) :
  c <= c' -> Float.le (share c t) (share c' t) = true.
Proof.
  intros H. destruct t as [|k]; [reflexivity |].
  rewrite !share_value by lia. cbn [Float.le].
  apply Qle_bool_iff.
  pose proof (inject_nat_pos k) as P.
  pose proof (inject_nat_le c c' H) as L.
  apply Qmult_le_compat_r; [| lra].
  unfold Qdiv. apply Qmult_le_compat_r; [exact L |].
  apply Qlt_le_weak. now apply Qinv_lt_0_compat.
Qed.

Lemma share_range (c t : nat) :
  c <= t ->
  Float.le (Fin 0) (share c t) = true
  /\ Float.le (share c t) (Fin 100) = true.
Proof.
  intros H. destruct t as [|k]; [split; reflexivity |].
  rewrite !share_value by lia. cbn [Float.le].
  pose proof (inject_nat_pos k) as P.
  pose proof (inject_nat_le c (S k) H) as L.
  pose proof (inject_nat_le 0 c ltac:(lia)) as L0.
  change (inject_Z (Z.of_nat 0)) with 0%Q in L0.
  assert (D0 : (0 <= inject_Z (Z.of_nat c) / inject_Z (Z.of_nat (S k)))%Q).
  { apply Qle_shift_div_l; [exact P | lra]. }
  assert (D1 : (inject_Z (Z.of_nat c) / inject_Z (Z.of_nat (S k)) <= 1)%Q).
  { apply Qle_shift_div_r; [exact P | lra]. }
  split; apply Qle_bool_iff; lra.
Qed.

Lemma filter_length_le {A : Type} (p q : A -> bool) (l : list A) :
  (forall x, p x = true -> q x = true) ->
  List.length (filter p l) <= List.length (filter q l).
Proof.
  intros H. induction l as [|x l IH]; simpl; [lia |].
  destruct (p x) eqn:P.
  - rewrite (H x P). simpl. lia.
  - destruct (q x); simpl; lia.
Qed.

Lemma filter_length_le_all {A : Type} (p : A -> bool) (l : list A) :
  List.length (filter p l) <= List.length l.
Proof.
  induction l as [|x l IH]; simpl; [lia |]. destruct (p x); simpl; lia.
Qed.

Lemma filter_ext_in_length {A : Type} (p q : A -> bool) (l : list A) :
  (forall x, In x l -> p x = q x) ->
  List.length (filter p l) = List.length (filter q l).
Proof.
  intros H. induction l as [|x l IH]; simpl; [reflexivity |].
  rewrite (H x (or_introl eq_refl)).
  destruct (q x); simpl; rewrite IH; auto; intros; apply H; now right.
Qed.

(** X16.  The two headline shares of a returned summary are plain row
    counts by score: the share of retained rows with score 1 or more,
    and with score 2 or more, of all retained rows, times 100.  Hence
    0 <= unhealthy share <= moderate share <= 100. *)
Theorem shares_by_score (city_name : string) (df : list Row)
  (out : city_summary) :
  analyze_city_from_csv city_name df = Ok out ->
  exists outs,
    mapM _apply_interpret_row (retained city_name df) = Ok outs
    /\ moderate_or_worse_share_pct out
       = share (List.length (at_least 1 outs)) (List.length outs)
    /\ unhealthy_or_worse_share_pct out
       = share (List.length (at_least 2 outs)) (List.length outs)
    /\ Float.le (Fin 0) (unhealthy_or_worse_share_pct out) = true
    /\ Float.le (unhealthy_or_worse_share_pct out)
         (moderate_or_worse_share_pct out) = true
    /\ Float.le (moderate_or_worse_share_pct out) (Fin 100) = true.
Proof.
  intros H.
  destruct (analyze_fields _ _ _ H)
    as (outs & drivers & Eo & Ed & _ & _ & _ & _ & M & U & _).
  pose proof (mapM_length _ _ _ Eo) as Lo.
  pose proof (mapM_length _ _ _ Ed) as Ld.
  destruct (annotate_facts outs drivers ltac:(congruence))
    as (B & _ & _ & _).
  assert (Lv : map (fun i => risk_level (base i)) (annotate outs drivers)
               = map risk_level outs).
  { rewrite <- B at 2. now rewrite map_map. }
  rewrite Lv in M, U.
  destruct (Counter_facts (map risk_level outs))
    as (_ & _ & _ & _ & S1 & _).
  rewrite S1, filter_map_length in M, U.
  assert (Lab : forall o, In o outs ->
            mem (risk_level o) MODERATE_OR_WORSE_LEVELS = (1 <=? score o)
            /\ mem (risk_level o) BAD_LEVELS = (2 <=? score o)).
  { intros o Ho.
    destruct (Forall2_In_r _ _ _ _ (proj1 (mapM_Forall2 _ _ _) Eo) Ho)
      as (row & _ & Hr).
    destruct (interpreted_label _ _ Hr) as (Bd & Ix).
    destruct (label_of_score o Bd Ix) as (_ & A & C). now split. }
  assert (EM : List.length
                 (filter (fun x => mem (risk_level x) MODERATE_OR_WORSE_LEVELS)
                    outs)
               = List.length (at_least 1 outs)).
  { unfold at_least. apply filter_ext_in_length.
    intros o Ho. apply (Lab o Ho). }
  assert (EU : List.length
                 (filter (fun x => mem (risk_level x) BAD_LEVELS) outs)
               = List.length (at_least 2 outs)).
  { unfold at_least. apply filter_ext_in_length.
    intros o Ho. apply (Lab o Ho). }
  rewrite EM in M. rewrite EU in U. rewrite <- Lo in M, U.
  exists outs. split; [exact Eo |]. split; [exact M |]. split; [exact U |].
  rewrite M, U.
  assert (L21 : List.length (at_least 2 outs)
                <= List.length (at_least 1 outs)).
  { unfold at_least. apply filter_length_le.
    intros x Hx. apply Nat.leb_le in Hx. apply Nat.leb_le. lia. }
  assert (L1 : List.length (at_least 1 outs) <= List.length outs).
  { unfold at_least. apply filter_length_le_all. }
  split; [apply share_range; lia |].
  split; [now apply share_le | apply share_range; lia].
Qed.

Lemma shares_by_score_witness :
  exists out,
    analyze_city_from_csv "Almaty" sample_frame = Ok out
    /\ Float.le (unhealthy_or_worse_share_pct out)
         (moderate_or_worse_share_pct out) = true.
Proof.
  destruct (shares_by_score "Almaty" sample_frame _ eq_refl)
    as (outs & _ & _ & _ & _ & L & _).
  eexists. split; [reflexivity | exact L].
Defined.

(** *** The day windows *)

Section InsertionSort.

Context {A : Type} (before : A -> A -> bool) (P : A -> Prop).

Hypothesis before_asym :
  forall x y, P x -> P y -> before x y = true -> before y x = false.
Hypothesis before_ntrans :
  forall x y z, P x -> P y -> P z ->
    before y x = false -> before z y = false -> before z x = false.

Lemma insert_by_In (x z : A) (s : list A) :
  In z (insert_by before x s) <-> z = x \/ In z s.
Proof.
  induction s as [|y s IH]; cbn [insert_by].
  - simpl. intuition congruence.
  - destruct (before x y); simpl; [intuition congruence |].
    rewrite IH. intuition congruence.
Qed.

Lemma insert_by_length (x : A) (s : list A) :
  List.length (insert_by before x s) = S (List.length s).
Proof.
  induction s as [|y s IH]; cbn [insert_by]; [reflexivity |].
  destruct (before x y); simpl; [reflexivity | now rewrite IH].
Qed.

Lemma insert_by_ranked (x : A) (s : list A) :
  P x -> (forall y, In y s -> P y) ->
  ranked (fun a b => before b a = false) s ->
  ranked (fun a b => before b a = false) (insert_by before x s).
Proof.
  intros Px. induction s as [|y s IH]; intros Ps R; cbn [insert_by].
  - simpl. split; [intros ? [] | exact I].
  - destruct R as [Ry Rs].
    assert (Py : P y) by (apply Ps; now left).
    destruct (before x y) eqn:B.
    + split; [| split; assumption].
      intros z [<- | Hz].
      * now apply before_asym.
      * apply (before_ntrans x y z);
          [exact Px | exact Py | apply Ps; now right
          | now apply before_asym | now apply Ry].
    + split.
      * intros z Hz. apply insert_by_In in Hz.
        destruct Hz as [-> | Hz]; [exact B | now apply Ry].
      * apply IH; [| exact Rs]. intros z Hz. apply Ps. now right.
Qed.

Lemma sorted_from (xs acc : list A) :
  (forall y, In y xs -> P y) -> (forall y, In y acc -> P y) ->
  ranked (fun a b => before b a = false) acc ->
  let r := fold_left (fun acc x => insert_by before x acc) xs acc in
  ranked (fun a b => before b a = false) r
  /\ (forall z, In z r <-> In z xs \/ In z acc)
  /\ List.length r = List.length xs + List.length acc.
Proof.
  revert acc. induction xs as [|x xs IH]; intros acc Pxs Pacc R;
    cbn [fold_left].
  - split; [exact R |]. split; [simpl; tauto | reflexivity].
  - cbv zeta in IH.
    destruct (IH (insert_by before x acc)) as (R' & I' & L').
    + intros y Hy. apply Pxs. now right.
    + intros y Hy. apply insert_by_In in Hy.
      destruct Hy as [-> | Hy]; [apply Pxs; now left | now apply Pacc].
    + apply insert_by_ranked; auto. apply Pxs. now left.
    + split; [exact R' |]. split.
      * intros z. rewrite I', insert_by_In. simpl. intuition congruence.
      * rewrite L', insert_by_length. simpl. lia.
Qed.

Lemma sorted_by_facts (xs : list A) :
  (forall y, In y xs -> P y) ->
  ranked (fun a b => before b a = false) (sorted_by before xs)
  /\ (forall z, In z (sorted_by before xs) <-> In z xs)
  /\ List.length (sorted_by before xs) = List.length xs.
Proof.
  intros Pxs. unfold sorted_by.
  destruct (sorted_from xs [] Pxs) as (R & I & L).
  - intros ? [].
  - exact I.
  - split; [exact R |]. split.
    + intros z. rewrite I. simpl. tauto.
    + rewrite L. simpl. lia.
Qed.

End InsertionSort.

Lemma sorted_by_In {A : Type} (before : A -> A -> bool) (xs : list A)
  (z : A) :
  In z (sorted_by before xs) -> In z xs.
Proof.
  unfold sorted_by.
  assert (G : forall acc,
            In z (fold_left (fun acc x => insert_by before x acc) xs acc) ->
            In z xs \/ In z acc).
  { induction xs as [|x xs IH]; intros acc H; cbn [fold_left] in H.
    - now right.
    - destruct (IH _ H) as [Hx | Hx]; [left; now right |].
      apply insert_by_In in Hx.
      destruct Hx as [-> | Hx]; [left; now left | now right]. }
  intros H. destruct (G [] H) as [Hx | []]. exact Hx.
Qed.

Lemma ranked_firstn {A : Type} (R : A -> A -> Prop) (k : nat) (l : list A) :
  ranked R l -> ranked R (firstn k l).
Proof.
  revert k. induction l as [|x l IH]; intros [|k] H; simpl; auto.
  destruct H as [Hx Hl]. split; [| now apply IH].
  intros y Hy. apply Hx. eapply firstn_incl; eassumption.
Qed.

Lemma ranked_weaken {A : Type} (R S : A -> A -> Prop) (P : A -> Prop)
  (l : list A) :
  (forall x y, P x -> P y -> R x y -> S x y) ->
  (forall x, In x l -> P x) -> ranked R l -> ranked S l.
Proof.
  intros W. induction l as [|x l IH]; intros Pl H; [exact I |].
  destruct H as [Hx Hl]. split.
  - intros y Hy. apply W; [apply Pl; now left | apply Pl; now right |].
    now apply Hx.
  - apply IH; [| exact Hl]. intros z Hz. apply Pl. now right.
Qed.

Lemma Qle_bool_false (a b : Q) : Qle_bool a b = false -> (b < a)%Q.
Proof.
  intros H. apply Qnot_le_lt. intros L.
  apply Qle_bool_iff in L. congruence.
Qed.

Lemma Qeq_bool_false (a b : Q) : Qeq_bool a b = false -> ~ (a == b)%Q.
Proof. intros H E. apply Qeq_bool_iff in E. congruence. Qed.

Ltac reflect_comparisons :=
  repeat match goal with
    | H : Qle_bool _ _ = true |- _ => apply Qle_bool_iff in H
    | H : Qle_bool _ _ = false |- _ => apply Qle_bool_false in H
    | H : Qeq_bool _ _ = true |- _ => apply Qeq_bool_iff in H
    | H : Qeq_bool _ _ = false |- _ => apply Qeq_bool_false in H
    | H : (_ <? _) = true |- _ => apply Nat.ltb_lt in H
    | H : (_ <? _) = false |- _ => apply Nat.ltb_ge in H
    end.

Ltac split_comparisons :=
  repeat match goal with
    | |- context [Qle_bool ?a ?b] => destruct (Qle_bool a b) eqn:?
    | |- context [Qeq_bool ?a ?b] => destruct (Qeq_bool a b) eqn:?
    | |- context [?a <? ?b] => destruct (a <? b) eqn:?
    | H : context [Qle_bool ?a ?b] |- _ =>
        lazymatch type of H with
        | Qle_bool a b = _ => fail
        | _ => destruct (Qle_bool a b) eqn:?
        end
    | H : context [Qeq_bool ?a ?b] |- _ =>
        lazymatch type of H with
        | Qeq_bool a b = _ => fail
        | _ => destruct (Qeq_bool a b) eqn:?
        end
    | H : context [?a <? ?b] |- _ =>
        lazymatch type of H with
        | (a <? b) = _ => fail
        | _ => destruct (a <? b) eqn:?
        end
    end.

Lemma by_share_asym (f : day_stat -> pyfloat) (x y : day_stat) :
  finite (f x) = true -> finite (f y) = true ->
  by_share f x y = true -> by_share f y x = false.
Proof.
  unfold by_share. destruct (f x) as [a| | |], (f y) as [b| | |];
    try discriminate. intros _ _.
  cbn [Float.gt Float.eqb]. intros H.
  split_comparisons; cbn [negb orb andb] in *; try reflexivity; try discriminate;
    reflect_comparisons; exfalso; try lra; try lia.
Qed.

Lemma by_share_ntrans (f : day_stat -> pyfloat) (x y z : day_stat) :
  finite (f x) = true -> finite (f y) = true -> finite (f z) = true ->
  by_share f y x = false -> by_share f z y = false ->
  by_share f z x = false.
Proof.
  unfold by_share.
  destruct (f x) as [a| | |], (f y) as [b| | |], (f z) as [c| | |];
    try discriminate. intros _ _ _.
  cbn [Float.gt Float.eqb]. intros H1 H2.
  split_comparisons; cbn [negb orb andb] in *; try reflexivity; try discriminate;
    reflect_comparisons; exfalso; try lra; try lia.
Qed.

Lemma by_share_no_worse (f : day_stat -> pyfloat) (x y : day_stat) :
  finite (f x) = true -> finite (f y) = true ->
  by_share f y x = false -> no_worse f x y.
Proof.
  unfold by_share, no_worse.
  destruct (f x) as [a| | |], (f y) as [b| | |]; try discriminate.
  intros _ _. cbn [Float.gt Float.eqb Float.le]. intros H.
  split.
  - split_comparisons; cbn [negb orb andb] in *; try reflexivity; try discriminate;
      reflect_comparisons; exfalso; try lra; try lia.
  - intros E.
    split_comparisons; cbn [negb orb andb] in *; try discriminate;
      reflect_comparisons; try lia; exfalso; try lra.
Qed.

Lemma share_finite (c t : nat) : finite (share c t) = true.
Proof.
  destruct t as [|k]; [reflexivity |].
  rewrite share_value by lia. reflexivity.
Qed.

Lemma day_stats_In (rows : list Row) (interps : list annotated)
  (w : day_stat) :
  In w (day_stats_of rows interps) ->
  exists d member,
    let g := filter (fun a => on_day rows d (idx a)) interps in
    In member g
    /\ n w = List.length g
    /\ date w = ts_date (stamp (at_ rows (idx member) no_row))
    /\ moderate_or_worse_share w
       = share (List.length (filter (level_in MODERATE_OR_WORSE_LEVELS) g))
           (List.length g)
    /\ unhealthy_or_worse_share w
       = share (List.length (filter (level_in BAD_LEVELS) g))
           (List.length g).
Proof.
  unfold day_stats_of. intros H. apply in_flat_map in H.
  destruct H as (d & _ & H). cbv zeta in H.
  exists d.
  change (filter
            (fun a => (day_of (stamp (at_ rows (idx a)
                                        (Build_Row None None PyNone PyNone)))
                       =? d)%Z) interps)
    with (filter (fun a => on_day rows d (idx a)) interps) in H.
  cbv zeta.
  destruct (filter (fun a => on_day rows d (idx a)) interps)
    as [|member g'] eqn:G; [destruct H |].
  destruct (sorted_by (worse_then_earlier rows) (member :: g'))
    as [|top tops]; [destruct H |].
  destruct H as [<- | []].
  exists member. cbn [n date moderate_or_worse_share unhealthy_or_worse_share].
  split; [now left |]. repeat split; reflexivity.
Qed.

Lemma day_stats_finite (rows : list Row) (interps : list annotated)
  (w : day_stat) :
  In w (day_stats_of rows interps) ->
  finite (moderate_or_worse_share w) = true
  /\ finite (unhealthy_or_worse_share w) = true.
Proof.
  intros H. destruct (day_stats_In _ _ _ H) as (d & m & _ & _ & _ & M & U).
  rewrite M, U. split; apply share_finite.
Qed.

(** X17.  The lists of worst days of a returned summary hold at most
    three days each, and equally many; [top_bad_windows] is the list by
    the Moderate-or-worse share.  Each list is in ranking order: a day is
    followed only by days with a share that is no higher, and among days
    of equal share by days with no more measurements. *)
Theorem top_windows_ranked (city_name : string) (df : list Row)
  (out : city_summary) :
  analyze_city_from_csv city_name df = Ok out ->
  top_bad_windows out = top_bad_windows_moderate_or_worse out
  /\ List.length (top_bad_windows_moderate_or_worse out) <= 3
  /\ List.length (top_bad_windows_unhealthy_or_worse out)
     = List.length (top_bad_windows_moderate_or_worse out)
  /\ ranked (no_worse moderate_or_worse_share)
       (top_bad_windows_moderate_or_worse out)
  /\ ranked (no_worse unhealthy_or_worse_share)
       (top_bad_windows_unhealthy_or_worse out).
Proof.
  intros H.
  destruct (analyze_fields _ _ _ H)
    as (outs & drivers & _ & _ & _ & _ & _ & _ & _ & _ & _ & _ & TM & TU & T).
  set (rows := retained city_name df) in *.
  set (days := if 0 <? List.length rows
               then day_stats_of rows (annotate outs drivers) else []) in *.
  assert (Fd : forall w, In w days ->
                 finite (moderate_or_worse_share w) = true
                 /\ finite (unhealthy_or_worse_share w) = true).
  { intros w Hw. unfold days in Hw.
    destruct (0 <? List.length rows); [| destruct Hw].
    eapply day_stats_finite; exact Hw. }
  destruct (sorted_by_facts (by_share moderate_or_worse_share)
              (fun w => finite (moderate_or_worse_share w) = true)
              (by_share_asym _) (by_share_ntrans _) days
              (fun w Hw => proj1 (Fd w Hw))) as (RM & IM & LM).
  destruct (sorted_by_facts (by_share unhealthy_or_worse_share)
              (fun w => finite (unhealthy_or_worse_share w) = true)
              (by_share_asym _) (by_share_ntrans _) days
              (fun w Hw => proj2 (Fd w Hw))) as (RU & IU & LU).
  split; [exact T |]. rewrite TM, TU.
  split; [apply firstn_le_length |].
  split; [rewrite !length_firstn; lia |].
  split.
  - apply (ranked_weaken
             (fun a b => by_share moderate_or_worse_share b a = false)
             (no_worse moderate_or_worse_share)
             (fun w => finite (moderate_or_worse_share w) = true)).
    + intros x y Px Py. now apply by_share_no_worse.
    + intros x Hx. apply firstn_incl in Hx. apply IM in Hx.
      now apply Fd.
    + now apply ranked_firstn.
  - apply (ranked_weaken
             (fun a b => by_share unhealthy_or_worse_share b a = false)
             (no_worse unhealthy_or_worse_share)
             (fun w => finite (unhealthy_or_worse_share w) = true)).
    + intros x y Px Py. now apply by_share_no_worse.
    + intros x Hx. apply firstn_incl in Hx. apply IU in Hx.
      now apply Fd.
    + now apply ranked_firstn.
Qed.

Lemma top_windows_ranked_witness :
  exists out,
    analyze_city_from_csv "Almaty" sample_frame = Ok out
    /\ map date (top_bad_windows out) = ["2023-11-14"; "2023-11-16"]
    /\ ranked (no_worse moderate_or_worse_share) (top_bad_windows out).
Proof.
  destruct (top_windows_ranked "Almaty" sample_frame _ eq_refl)
    as (T & _ & _ & R & _).
  eexists. split; [reflexivity |]. split; [reflexivity |].
  rewrite T. exact R.
Defined.

Lemma filter_filter_length {A : Type} (p q : A -> bool) (l : list A) :
  List.length (filter q (filter p l))
  = List.length (filter (fun x => p x && q x) l).
Proof.
  induction l as [|x l IH]; simpl; [reflexivity |].
  destruct (p x); simpl; [| exact IH].
  destruct (q x); simpl; now rewrite IH.
Qed.

(** X18.  Every day listed among the worst days of a returned summary is
    a calendar day of a retained row, named by that row's date; [n] counts
    the retained rows on that day (at least one), and the two shares are
    the rows of that day with score 1 or more, and 2 or more, out of
    [n], times 100. *)
Theorem day_window_content (city_name : string) (df : list Row)
  (out : city_summary) :
  analyze_city_from_csv city_name df = Ok out ->
  forall w,
    In w (top_bad_windows_moderate_or_worse out)
    \/ In w (top_bad_windows_unhealthy_or_worse out) ->
    exists outs i row,
      mapM _apply_interpret_row (retained city_name df) = Ok outs
      /\ nth_error (retained city_name df) i = Some row
      /\ date w = ts_date (stamp row)
      /\ let rows := retained city_name df in
         let d := day_of (stamp row) in
         let positions := seq 0 (List.length rows) in
         n w = List.length (filter (on_day rows d) positions)
         /\ 1 <= n w
         /\ moderate_or_worse_share w
            = share (List.length
                       (filter (fun j => on_day rows d j && scored outs 1 j)
                          positions))
                (n w)
         /\ unhealthy_or_worse_share w
            = share (List.length
                       (filter (fun j => on_day rows d j && scored outs 2 j)
                          positions))
                (n w).
Proof.
  intros H w Hw.
  destruct (analyze_fields _ _ _ H)
    as (outs & drivers & Eo & Ed & _ & _ & _ & _ & _ & _ & _ & _ & TM & TU & _).
  cbv zeta.
  set (rows := retained city_name df) in *.
  pose proof (mapM_length _ _ _ Eo) as Lo.
  pose proof (mapM_length _ _ _ Ed) as Ld.
  assert (L : List.length drivers = List.length outs) by congruence.
  destruct (annotate_facts outs drivers L) as (B & _ & Ix & _).
  set (interps := annotate outs drivers) in *.
  assert (Hd : In w (day_stats_of rows interps)).
  { assert (X : In w (if 0 <? List.length rows
                      then day_stats_of rows interps else [])).
    { destruct Hw as [Hw | Hw]; [rewrite TM in Hw | rewrite TU in Hw];
        apply firstn_incl in Hw.
      - eapply sorted_by_In; exact Hw.
      - eapply sorted_by_In; exact Hw. }
    destruct (0 <? List.length rows); [exact X | destruct X]. }
  destruct (day_stats_In _ _ _ Hd) as (d & member & Hm & Hn & Hdate & M & U).
  cbv zeta in Hm, Hn, M, U.
  apply filter_In in Hm. destruct Hm as [Hmi Hmd].
  destruct (annotate_In outs drivers member L Hmi) as [Mo _].
  assert (Mi : idx member < List.length rows).
  { rewrite <- Lo. apply nth_error_Some. congruence. }
  destruct (nth_error rows (idx member)) as [row|] eqn:Erow.
  2:{ apply nth_error_None in Erow. lia. }
  pose proof (at_nth_error rows (idx member) row no_row Erow) as At.
  assert (Dd : d = day_of (stamp row)).
  { unfold on_day in Hmd. rewrite At in Hmd.
    apply Z.eqb_eq in Hmd. now symmetry. }
  subst d.
  assert (Lab : forall a, In a interps ->
            level_in MODERATE_OR_WORSE_LEVELS a = scored outs 1 (idx a)
            /\ level_in BAD_LEVELS a = scored outs 2 (idx a)).
  { intros a Ha.
    destruct (annotate_In outs drivers a L Ha) as [Ao _].
    assert (Hin : In (base a) outs) by (eapply nth_error_In; exact Ao).
    destruct (Forall2_In_r _ _ _ _ (proj1 (mapM_Forall2 _ _ _) Eo) Hin)
      as (r & _ & Hr).
    destruct (interpreted_label _ _ Hr) as (Bd & Il).
    destruct (label_of_score (base a) Bd Il) as (_ & A1 & A2).
    unfold level_in, scored. rewrite Ao. now split. }
  assert (Cnt : forall p : nat -> bool,
            List.length (filter (fun a => p (idx a)) interps)
            = List.length (filter p (seq 0 (List.length rows)))).
  { intros p. rewrite <- (filter_map_length idx p interps).
    rewrite Ix. now rewrite Lo. }
  assert (N : n w = List.length
                      (filter (on_day rows (day_of (stamp row)))
                         (seq 0 (List.length rows)))).
  { rewrite Hn. apply (Cnt (on_day rows (day_of (stamp row)))). }
  exists outs, (idx member), row.
  split; [exact Eo |]. split; [exact Erow |].
  split; [now rewrite Hdate, At |].
  split; [exact N |].
  split.
  { rewrite Hn.
    assert (X : In member
                  (filter (fun a => on_day rows (day_of (stamp row)) (idx a))
                     interps)).
    { apply filter_In. now split. }
    destruct (filter _ interps); [destruct X | simpl; lia]. }
  split.
  - rewrite M, <- Hn. f_equal.
    rewrite filter_filter_length.
    rewrite <- (Cnt (fun j => on_day rows (day_of (stamp row)) j
                              && scored outs 1 j)).
    apply filter_ext_in_length. intros a Ha.
    now rewrite (proj1 (Lab a Ha)).
  - rewrite U, <- Hn. f_equal.
    rewrite filter_filter_length.
    rewrite <- (Cnt (fun j => on_day rows (day_of (stamp row)) j
                              && scored outs 2 j)).
    apply filter_ext_in_length. intros a Ha.
    now rewrite (proj2 (Lab a Ha)).
Qed.

Lemma day_window_content_witness :
  exists out w,
    analyze_city_from_csv "Almaty" sample_frame = Ok out
    /\ hd_error (top_bad_windows_moderate_or_worse out) = Some w
    /\ date w = "2023-11-14"
    /\ n w = 1
    /\ 1 <= n w.
Proof.
  eexists. eexists. split; [reflexivity |].
  split; [vm_compute; reflexivity |].
  split; [reflexivity |]. split; [reflexivity |].
  match goal with
  | |- 1 <= n ?w =>
      destruct (day_window_content "Almaty" sample_frame _ eq_refl w
                  (or_introl (or_introl eq_refl)))
        as (outs & i & row & _ & _ & _ & _ & P & _)
  end.
  exact P.
Defined.

(** ** The report builder *)

Import CityReportBuilder.

Lemma iloc_last_app {A : Type} (l : list A) (x : A) :
  iloc_last (l ++ [x]) = Some x.
Proof.
  destruct l as [|y l]; [reflexivity |].
  cbn [iloc_last app]. now rewrite last_last.
Qed.

Lemma iloc_last_spec {A : Type} (l : list A) :
  l <> [] -> exists pre x, l = (pre ++ [x])%list /\ iloc_last l = Some x.
Proof.
  intros H. destruct (exists_last H) as (pre & x & ->).
  exists pre, x. split; [reflexivity | apply iloc_last_app].
Qed.

Lemma ranked_app_last {A : Type} (R : A -> A -> Prop) (pre : list A)
  (x : A) :
  ranked R (pre ++ [x]) -> forall y, In y pre -> R y x.
Proof.
  induction pre as [|z pre IH]; intros H y Hy; [destruct Hy |].
  destruct H as [Hz Hr]. destruct Hy as [<- | Hy].
  - apply Hz. apply in_or_app. right. now left.
  - now apply IH.
Qed.

Lemma earlier_asym (x y : Row) : earlier x y = true -> earlier y x = false.
Proof.
  unfold earlier.
  destruct (col_timestamp x) as [tx|], (col_timestamp y) as [ty|];
    try reflexivity; try discriminate.
  intros H. apply Z.ltb_lt in H. apply Z.ltb_ge. lia.
Qed.

Lemma earlier_ntrans (x y z : Row) :
  earlier y x = false -> earlier z y = false -> earlier z x = false.
Proof.
  unfold earlier.
  destruct (col_timestamp x) as [tx|], (col_timestamp y) as [ty|],
    (col_timestamp z) as [tz|]; try reflexivity; try discriminate.
  intros H1 H2. apply Z.ltb_ge in H1, H2. apply Z.ltb_ge. lia.
Qed.

Lemma insertion_sort_values_sorts : sorts_by_timestamp insertion_sort_values.
Proof.
  intros df. unfold insertion_sort_values.
  destruct (sorted_by_facts earlier (fun _ => True)
              (fun x y _ _ => earlier_asym x y)
              (fun x y z _ _ _ => earlier_ntrans x y z)
              df (fun _ _ => I)) as (R & In' & L).
  split; [exact In' |]. split; [exact L |].
  apply (ranked_weaken (fun a b => earlier b a = false) precedes
           (fun _ => True)); [| auto | exact R].
  intros x y _ _. unfold earlier, precedes.
  destruct (col_timestamp y) as [ty|]; [| auto].
  destruct (col_timestamp x) as [tx|]; [| discriminate].
  intros H. apply Z.ltb_ge in H. exact H.
Qed.

(** X19.  For a city with rows, the row the report takes as the current
    measurement is a row of the city, whatever sort orders the frame.
    When every row of the city has a timestamp it is a row with the
    latest timestamp.  As soon as one row of the city has no parseable
    timestamp the current row is a row without timestamp, because the
    sort puts such rows last: the latest dated measurement is then not
    the one reported. *)
Theorem current_row_selection (sort_values : list Row -> list Row)
  (df_city : list Row) :
  sorts_by_timestamp sort_values ->
  df_city <> [] ->
  exists last,
    last_row sort_values df_city = Some last
    /\ In last df_city
    /\ ((exists r, In r df_city /\ col_timestamp r = None) ->
        col_timestamp last = None /\ current_timestamp last = None)
    /\ ((forall r, In r df_city -> col_timestamp r <> None) ->
        forall r, In r df_city ->
                  (ts_ns (stamp r) <= ts_ns (stamp last))%Z).
Proof.
  intros S NE. unfold last_row.
  destruct df_city as [|r0 rest] eqn:Edf; [contradiction |].
  rewrite <- Edf in *. clear NE.
  assert (NE : df_city <> []) by (rewrite Edf; discriminate).
  clear Edf r0 rest.
  destruct (existsb notna_timestamp df_city) eqn:Ex.
  - destruct (S df_city) as (Hin & Hlen & Hr).
    assert (NS : sort_values df_city <> []).
    { intros Z0. rewrite Z0 in Hlen. destruct df_city; [contradiction |].
      discriminate. }
    destruct (iloc_last_spec _ NS) as (pre & x & Epre & El).
    exists x. split; [exact El |].
    assert (Hx : In x df_city).
    { apply Hin. rewrite Epre. apply in_or_app. right. now left. }
    split; [exact Hx |].
    rewrite Epre in Hr. pose proof (ranked_app_last _ _ _ Hr) as P.
    assert (Pre : forall r, In r df_city -> r = x \/ In r pre).
    { intros r Hr'. apply Hin in Hr'. rewrite Epre in Hr'.
      apply in_app_or in Hr'. destruct Hr' as [Hp | [<- | []]]; auto. }
    split.
    + intros (r & Hr' & Nr).
      assert (C : col_timestamp x = None).
      { destruct (Pre r Hr') as [-> | Hp]; [exact Nr |].
        specialize (P r Hp). unfold precedes in P.
        destruct (col_timestamp x) as [tx|]; [| reflexivity].
        rewrite Nr in P. destruct P. }
      unfold current_timestamp. rewrite C. split; reflexivity.
    + intros All r Hr'.
      destruct (Pre r Hr') as [-> | Hp]; [lia |].
      specialize (P r Hp). unfold precedes in P. unfold stamp.
      destruct (col_timestamp x) as [tx|] eqn:Cx.
      2:{ exfalso. now apply (All x Hx). }
      destruct (col_timestamp r) as [tr|]; [exact P | destruct P].
  - destruct (iloc_last_spec _ NE) as (pre & x & Epre & El).
    exists x. split; [exact El |].
    assert (Hx : In x df_city).
    { rewrite Epre. apply in_or_app. right. now left. }
    split; [exact Hx |].
    assert (C : col_timestamp x = None).
    { destruct (col_timestamp x) as [tx|] eqn:Cx; [| reflexivity].
      assert (K : existsb notna_timestamp df_city = true).
      { apply existsb_exists. exists x. split; [exact Hx |].
        unfold notna_timestamp. now rewrite Cx. }
      congruence. }
    split.
    + intros _. unfold current_timestamp. rewrite C. split; reflexivity.
    + intros All. exfalso. now apply (All x Hx).
Qed.

Lemma current_row_selection_witness :
  sorts_by_timestamp insertion_sort_values
  /\ filter (city_is "Almaty") sample_frame <> []
  /\ exists last,
       last_row insertion_sort_values (filter (city_is "Almaty") sample_frame)
       = Some last
       /\ last = row_without_timestamp
       /\ current_timestamp last = None.
Proof.
  split; [exact insertion_sort_values_sorts |].
  split; [discriminate |].
  destruct (current_row_selection insertion_sort_values
              (filter (city_is "Almaty") sample_frame)
              insertion_sort_values_sorts ltac:(discriminate))
    as (last & E & _ & N & _).
  exists last. split; [exact E |].
  split; [vm_compute in E; injection E as <-; reflexivity |].
  apply N. exists row_without_timestamp.
  split; [right; left; reflexivity | reflexivity].
Defined.

Lemma interpret_whatever_timestamp (a p : pyval) (ts ts' c : option string) :
  match interpret a p ts c with
  | Ok o =>
      exists o',
        interpret a p ts' c = Ok o'
        /\ score o' = score o /\ risk_level o' = risk_level o
        /\ reasons o' = reasons o
        /\ recommendations o' = recommendations o
        /\ explanation o' = explanation o
        /\ DecisionEngine.city o' = DecisionEngine.city o
  | Raise e => interpret a p ts' c = Raise e
  end.
Proof.
  unfold interpret.
  destruct (_aqi_to_level a) as [la|]; [| reflexivity].
  destruct (_pm25_to_level p) as [lp|]; [| reflexivity].
  cbn [bind].
  destruct (_reason_strings a p) as [rs|]; [| reflexivity].
  cbn [bind].
  destruct (index LEVEL_NAMES (Nat.max la lp)) as [name|]; [| reflexivity].
  cbn [bind]. eexists. split; [reflexivity |].
  repeat split; reflexivity.
Qed.

(** What a returned report holds: the module compiled, the history
    analyzer returned the summary for the same frame, and [current] was
    built from the last row of the city. *)
Lemma run_build_returns_inv (sort_values : list Row -> list Row)
  (int_of_object : string -> result Z) (source : list nat) (fs : filesystem)
  (city_name : string) (df : list Row) (rep : city_report) :
  run_build_city_report sort_values int_of_object source fs city_name df
  = Returns rep ->
  compile_module source = Returns tt
  /\ run_analyze_city_from_csv source fs "outputs" city_name df
     = Returns (history rep)
  /\ report_city rep = city_name
  /\ (filter (city_is city_name) df = [] -> current rep = no_current)
  /\ (forall last,
        last_row sort_values (filter (city_is city_name) df) = Some last ->
        current_of int_of_object last city_name = Ok (current rep)).
Proof.
  unfold run_build_city_report. cbv zeta.
  destruct (compile_module source) as [[]|]; [| discriminate].
  destruct (filter (city_is city_name) df) as [|x rest] eqn:Ef.
  - destruct (run_analyze_city_from_csv source fs "outputs" city_name df)
      as [h|]; [| discriminate].
    intros H. injection H as <-. cbn.
    repeat split; try reflexivity. intros last L. discriminate L.
  - destruct (last_row sort_values (x :: rest)) as [last|]; [| discriminate].
    destruct (current_of int_of_object last city_name) as [cur|] eqn:Ec;
      [| discriminate].
    destruct (run_analyze_city_from_csv source fs "outputs" city_name df)
      as [h|]; [| discriminate].
    intros H. injection H as <-. cbn.
    repeat split; try reflexivity; [discriminate |].
    intros last' L. injection L as <-. exact Ec.
Qed.

Lemma current_of_inv (int_of_object : string -> result Z) (last : Row)
  (city_name : string) (cur : current_entry) :
  current_of int_of_object last city_name = Ok cur ->
  cur_decision cur = decision last city_name
  /\ cur_timestamp cur = current_timestamp last.
Proof.
  unfold current_of. cbv zeta.
  destruct (unless_none _ _) as [a|]; [| discriminate]. cbn [bind].
  destruct (unless_none _ _) as [p|]; [| discriminate]. cbn [bind].
  intros H. injection H as <-. split; reflexivity.
Qed.

(** X20.  On a row of the city whose two readings are both present, the
    value that lines 82-96 bind to [decision] and the history analyzer's
    interpretation of that row agree: one exists exactly when the other
    does, and then they have the same score, risk level, reasons,
    recommendations, explanation and city (the timestamp texts differ in
    format only).  A report that is returned for a frame whose last row
    this is carries that value as the decision of [current], next to the
    summary that the history analyzer returned for the same frame. *)
Theorem decision_agrees_on_complete_rows (row : Row) (city_name : string) :
  col_city row = Some city_name ->
  isna (col_aqi row) = false ->
  isna (col_pm2_5 row) = false ->
  (decision row city_name = None
   <-> exists e, _apply_interpret_row row = Raise e)
  /\ (forall o,
        _apply_interpret_row row = Ok o ->
        exists d,
          decision row city_name = Some d
          /\ score d = score o /\ risk_level d = risk_level o
          /\ reasons d = reasons o
          /\ recommendations d = recommendations o
          /\ explanation d = explanation o
          /\ DecisionEngine.city d = DecisionEngine.city o)
  /\ (forall sort_values int_of_object source fs df rep,
        last_row sort_values (filter (city_is city_name) df) = Some row ->
        run_build_city_report sort_values int_of_object source fs
          city_name df = Returns rep ->
        cur_decision (current rep) = decision row city_name
        /\ run_analyze_city_from_csv source fs "outputs" city_name df
           = Returns (history rep)).
Proof.
  intros C Na Np.
  assert (Value :
    (decision row city_name = None
     <-> exists e, _apply_interpret_row row = Raise e)
    /\ (forall o,
          _apply_interpret_row row = Ok o ->
          exists d,
            decision row city_name = Some d
            /\ score d = score o /\ risk_level d = risk_level o
            /\ reasons d = reasons o
            /\ recommendations d = recommendations o
            /\ explanation d = explanation o
            /\ DecisionEngine.city d = DecisionEngine.city o)).
  { unfold decision, _apply_interpret_row, _safe_get.
    rewrite Na, Np, C. cbv zeta.
    pose proof (interpret_whatever_timestamp (col_aqi row) (col_pm2_5 row)
                  (match col_timestamp row with
                   | Some ts => Some (ts_str ts)
                   | None => None
                   end)
                  (match col_timestamp row with
                   | Some ts => Some (ts_iso ts)
                   | None => None
                   end)
                  (Some city_name)) as W.
    destruct (interpret (col_aqi row) (col_pm2_5 row)
                (match col_timestamp row with
                 | Some ts => Some (ts_str ts)
                 | None => None
                 end) (Some city_name)) as [o|e].
    - destruct W as (o' & -> & W). split.
      + split; [discriminate | intros (e & He); discriminate].
      + intros o0 E. injection E as <-. exists o'.
        split; [reflexivity | exact W].
    - rewrite W. split.
      + split; [eauto | reflexivity].
      + intros o0 E. discriminate. }
  destruct Value as [V1 V2]. split; [exact V1 |]. split; [exact V2 |].
  intros sort_values int_of_object source fs df rep L R.
  destruct (run_build_returns_inv _ _ _ _ _ _ _ R) as (_ & H & _ & _ & Cur).
  split; [| exact H].
  exact (proj1 (current_of_inv _ _ _ _ (Cur row L))).
Qed.

Lemma decision_agrees_on_complete_rows_witness :
  (exists d o,
     decision row_complete "Almaty" = Some d
     /\ _apply_interpret_row row_complete = Ok o
     /\ score d = score o
     /\ DecisionEngine.timestamp d <> DecisionEngine.timestamp o)
  /\ (exists rep,
        run_build_city_report insertion_sort_values int_of_no_literal
          triple_quotes_closed fs_outputs "Almaty" [row_complete]
        = Returns rep
        /\ cur_decision (current rep) = decision row_complete "Almaty"
        /\ aqi_category (current rep) = Some 2%Z)
  /\ (exists d,
        decision row_with_text_index "Almaty" = Some d
        /\ run_build_city_report insertion_sort_values int_of_no_literal
             triple_quotes_closed fs_outputs "Almaty" [row_with_text_index]
           = Fails (Uncaught ValueError))
  /\ run_build_city_report insertion_sort_values int_of_no_literal
       TRIPLE_QUOTE_LINES fs_outputs "Almaty" [row_complete]
     = Fails SyntaxError.
Proof.
  destruct (decision_agrees_on_complete_rows row_complete "Almaty"
              eq_refl eq_refl eq_refl) as (_ & A & B).
  split; [| split; [| split; [| reflexivity]]].
  - destruct (A _ eq_refl) as (d & Ed & Sd & _).
    exists d. eexists. split; [exact Ed |]. split; [reflexivity |].
    split; [exact Sd |].
    vm_compute in Ed. injection Ed as <-. discriminate.
  - eexists. split; [reflexivity |]. split; [| reflexivity].
    exact (proj1 (B insertion_sort_values int_of_no_literal
                    triple_quotes_closed fs_outputs [row_complete] _
                    eq_refl eq_refl)).
  - destruct (decision_agrees_on_complete_rows row_with_text_index "Almaty"
                eq_refl eq_refl eq_refl) as (_ & A' & _).
    destruct (A' _ eq_refl) as (d & Ed & _).
    exists d. split; [exact Ed | reflexivity].
Defined.

(** X21.  On a row with a missing cell the two paths differ.  With the
    index cell missing (NaN) the history analyzer's interpretation
    raises, while the value that lines 82-96 bind to [decision] exists,
    records the index as missing and takes its score from the particulate
    reading alone; that value reaches no report, because no report is
    returned for a frame in which the history analyzer retains such a
    row: line 110 calls the analyzer on the same frame.  With the
    particulate cell missing (NaN) the history analyzer grades the row
    Hazardous (score 3), while the value bound to [decision] takes its
    score from the index alone. *)
Theorem decision_differs_on_missing_cells (row : Row) (city_name : string) :
  (forall s,
     col_aqi row = PyFloat NaN s ->
     (exists e, _apply_interpret_row row = Raise e)
     /\ (exists d lp,
           decision row city_name = Some d
           /\ _pm25_to_level (_safe_get (Some (col_pm2_5 row))) = Ok lp
           /\ score d = lp
           /\ hd_error (reasons d) = Some "AQI=missing")
     /\ (forall sort_values int_of_object source fs df rep,
           In row (retained city_name df) ->
           run_build_city_report sort_values int_of_object source fs
             city_name df <> Returns rep))
  /\ (forall s o,
        col_pm2_5 row = PyFloat NaN s ->
        _apply_interpret_row row = Ok o ->
        score o = 3 /\ risk_level o = "Hazardous"
        /\ exists d la,
             decision row city_name = Some d
             /\ _aqi_to_level (col_aqi row) = Ok la
             /\ score d = la).
Proof.
  split.
  - intros s Ea. split; [| split].
    + unfold _apply_interpret_row. apply interpret_raises.
      rewrite Ea. reflexivity.
    + unfold decision. rewrite Ea.
      change (_safe_get (Some (PyFloat NaN s))) with PyNone. cbv zeta.
      set (p := _safe_get (Some (col_pm2_5 row))).
      set (ts := match col_timestamp row with
                 | Some t => Some (ts_iso t)
                 | None => None
                 end).
      destruct (interpret_returns PyNone p ts (Some city_name) eq_refl)
        as (d & Hd).
      rewrite Hd.
      destruct (interpret_inv _ _ _ _ _ Hd)
        as (la & lp & rs & name & Hla & Hlp & Hr & _ & Hs & _ & Hrs & _).
      exists d, lp. split; [reflexivity |]. split; [exact Hlp |].
      cbn in Hla. injection Hla as <-. split; [rewrite Hs; lia |].
      rewrite Hrs.
      unfold _reason_strings in Hr. cbn [is_none negb bind] in Hr.
      destruct (negb (is_none p)).
      * destruct (_pm25_to_level p) as [l|]; [| discriminate].
        cbn [bind] in Hr.
        destruct (index LEVEL_NAMES l); [| discriminate].
        cbn [bind] in Hr. injection Hr as <-. reflexivity.
      * cbn [bind] in Hr. injection Hr as <-. reflexivity.
    + intros sort_values int_of_object source fs df rep Hin R.
      destruct (run_build_returns_inv _ _ _ _ _ _ _ R) as (_ & H & _).
      destruct (run_analyze_returns_inv _ _ _ _ _ _ H) as (_ & A & _).
      pose proof (analyze_returns_roundable _ _ _ A row Hin) as U.
      rewrite Ea in U. discriminate U.
  - intros s o Ep Ho. unfold _apply_interpret_row in Ho. rewrite Ep in Ho.
    destruct (score_is_max_when_returned _ _ _ _ _ Ho)
      as (la & lp & Hla & Hlp & Bla & _ & Hs & Hn).
    assert (lp = 3) by (cbn in Hlp; congruence). subst lp.
    assert (S3 : score o = 3) by lia.
    split; [exact S3 |].
    split; [rewrite S3 in Hn; cbn in Hn; congruence |].
    assert (Ua : unroundable (col_aqi row) = false).
    { eapply (proj1 (interpret_returns_iff _ _ _ _)). exists o. exact Ho. }
    assert (Sa : _aqi_to_level (_safe_get (Some (col_aqi row))) = Ok la).
    { unfold _safe_get. destruct (col_aqi row) as [|x sx|sx c] eqn:Ea;
        cbn [isna]; try exact Hla.
      destruct x; cbn [isnan]; try exact Hla. discriminate Ua. }
    unfold decision. rewrite Ep.
    change (_safe_get (Some (PyFloat NaN s))) with PyNone. cbv zeta.
    set (a := _safe_get (Some (col_aqi row))) in *.
    set (ts := match col_timestamp row with
               | Some t => Some (ts_iso t)
               | None => None
               end).
    assert (Ua' : unroundable a = false).
    { unfold a, _safe_get. destruct (isna (col_aqi row)); [reflexivity |].
      exact Ua. }
    destruct (interpret_returns a PyNone ts (Some city_name) Ua')
      as (d & Hd).
    rewrite Hd.
    destruct (interpret_inv _ _ _ _ _ Hd)
      as (la' & lp' & _ & _ & Hla' & Hlp' & _ & _ & Hs' & _).
    exists d, la. split; [reflexivity |]. split; [exact Hla |].
    cbn in Hlp'. injection Hlp' as <-.
    assert (la' = la) by congruence. subst. rewrite Hs'. lia.
Qed.

Lemma decision_differs_on_missing_cells_witness :
  (exists e, _apply_interpret_row row_without_index = Raise e)
  /\ (exists d, decision row_without_index "Almaty" = Some d /\ score d = 0)
  /\ In row_without_index (retained "Almaty" [row_complete; row_without_index])
  /\ (forall rep,
        run_build_city_report insertion_sort_values int_of_no_literal
          triple_quotes_closed fs_outputs "Almaty"
          [row_complete; row_without_index] <> Returns rep)
  /\ run_build_city_report insertion_sort_values int_of_no_literal
       triple_quotes_closed fs_outputs "Almaty"
       [row_complete; row_without_index] = Fails (Uncaught ValueError)
  /\ (exists o d,
        _apply_interpret_row row_without_particulate = Ok o
        /\ score o = 3
        /\ decision row_without_particulate "Almaty" = Some d
        /\ score d = 1).
Proof.
  destruct (decision_differs_on_missing_cells row_without_index "Almaty")
    as (A & _).
  destruct (A _ eq_refl) as (R & (d & lp & Ed & El & Sd & _) & N).
  destruct (decision_differs_on_missing_cells row_without_particulate
              "Almaty") as (_ & B).
  destruct (B _ _ eq_refl eq_refl) as (S3 & _ & d' & la & Ed' & Ela & Sd').
  assert (Hin : In row_without_index
                  (retained "Almaty" [row_complete; row_without_index]))
    by (right; left; reflexivity).
  split; [exact R |]. split; [| split; [exact Hin | split; [| split]]].
  - exists d. split; [exact Ed |]. rewrite Sd.
    vm_compute in El. congruence.
  - intros rep. exact (N _ _ _ _ _ rep Hin).
  - reflexivity.
  - eexists. exists d'. split; [reflexivity |]. split; [exact S3 |].
    split; [exact Ed' |]. rewrite Sd'. vm_compute in Ela. congruence.
Defined.

(** ** The cleaning of timestamp texts *)

Lemma lstrip_incl (s : Str.pystr) (x : N) : In x (Str.lstrip s) -> In x s.
Proof.
  induction s as [|y s IH]; cbn [Str.lstrip]; [tauto |].
  destruct (Str.isspace y); [intros H; right; now apply IH | tauto].
Qed.

Lemma lstrip_length (s : Str.pystr) :
  List.length (Str.lstrip s) <= List.length s.
Proof.
  induction s as [|y s IH]; cbn [Str.lstrip]; [lia |].
  destruct (Str.isspace y); simpl; lia.
Qed.

Lemma strip_incl (s : Str.pystr) (x : N) : In x (Str.strip s) -> In x s.
Proof.
  unfold Str.strip, Str.rstrip. intros H.
  apply in_rev in H. apply lstrip_incl in H. apply in_rev in H.
  now apply lstrip_incl.
Qed.

Lemma strip_length (s : Str.pystr) :
  List.length (Str.strip s) <= List.length s.
Proof.
  unfold Str.strip, Str.rstrip. rewrite length_rev.
  pose proof (lstrip_length (rev (Str.lstrip s))) as H.
  rewrite length_rev in H. pose proof (lstrip_length s). lia.
Qed.

Lemma filter_id {A : Type} (p : A -> bool) (l : list A) :
  (forall x, In x l -> p x = true) -> filter p l = l.
Proof.
  induction l as [|x l IH]; intros H; simpl; [reflexivity |].
  rewrite (H x (or_introl eq_refl)). f_equal. apply IH.
  intros y Hy. apply H. now right.
Qed.

Lemma map_id_in {A : Type} (f : A -> A) (l : list A) :
  (forall x, In x l -> f x = x) -> map f l = l.
Proof.
  induction l as [|x l IH]; intros H; simpl; [reflexivity |].
  rewrite (H x (or_introl eq_refl)). f_equal. apply IH.
  intros y Hy. apply H. now right.
Qed.

Lemma clean_char_inv (x : N) :
  clean_char x = true <->
  x <> Str.BOM /\ (0x1f < x)%N /\ x <> Str.LETTER_T /\ x <> Str.LETTER_Z.
Proof.
  unfold clean_char. rewrite !andb_true_iff, !negb_true_iff.
  rewrite !N.eqb_neq, N.leb_gt. tauto.
Qed.

Lemma cleaned_text_chars (s : Str.pystr) (x : N) :
  In x (cleaned_text s) ->
  clean_char x = true /\ (In x s \/ x = Str.SPACE).
Proof.
  unfold cleaned_text, Str.remove, Str.replace, Str.remove_controls.
  intros H. apply filter_In in H. destruct H as [H NZ].
  apply negb_true_iff, N.eqb_neq in NZ.
  apply in_map_iff in H. destruct H as (y & E & H).
  apply strip_incl in H. apply filter_In in H. destruct H as [H NC].
  apply negb_true_iff, N.leb_gt in NC.
  apply filter_In in H. destruct H as [H NB].
  apply negb_true_iff, N.eqb_neq in NB.
  destruct (N.eqb_spec y Str.LETTER_T) as [ET | NT].
  - subst x. split; [reflexivity | now right].
  - subst x. split; [| now left].
    apply clean_char_inv. auto.
Qed.

Lemma cleaned_text_length (s : Str.pystr) :
  List.length (cleaned_text s) <= List.length s.
Proof.
  unfold cleaned_text, Str.remove, Str.replace, Str.remove_controls.
  eapply Nat.le_trans; [apply filter_length_le_all |].
  rewrite length_map.
  eapply Nat.le_trans; [apply strip_length |].
  eapply Nat.le_trans; [apply filter_length_le_all |].
  apply filter_length_le_all.
Qed.

Lemma cleaned_text_of_clean (s : Str.pystr) :
  (forall x, In x s -> clean_char x = true) ->
  cleaned_text s = Str.strip s.
Proof.
  intros G. unfold cleaned_text.
  assert (E1 : Str.remove Str.BOM s = s).
  { apply filter_id. intros x Hx. apply G, clean_char_inv in Hx.
    apply negb_true_iff, N.eqb_neq. tauto. }
  rewrite E1.
  assert (E2 : Str.remove_controls s = s).
  { apply filter_id. intros x Hx. apply G, clean_char_inv in Hx.
    apply negb_true_iff, N.leb_gt. tauto. }
  rewrite E2.
  assert (E3 : Str.replace Str.LETTER_T Str.SPACE (Str.strip s)
               = Str.strip s).
  { apply map_id_in. intros x Hx. apply strip_incl, G, clean_char_inv in Hx.
    destruct (N.eqb_spec x Str.LETTER_T); [tauto | reflexivity]. }
  rewrite E3.
  apply filter_id. intros x Hx. apply strip_incl, G, clean_char_inv in Hx.
  apply negb_true_iff, N.eqb_neq. tauto.
Qed.

(** X22.  Both programs clean a timestamp text in the same way, and a
    missing text stays missing.  The cleaned text holds no byte-order
    mark, no control character, no [T] and no [Z]; each of its characters
    is a character of the raw text or a space that stands for a [T]; it
    is never longer than the raw text. *)
Theorem ts_clean_shape (ts_raw : option Str.pystr) :
  JsonToCsvParser.ts_clean ts_raw = TimestampCleaner.ts_clean ts_raw
  /\ match ts_raw with
     | None => TimestampCleaner.ts_clean ts_raw = None
     | Some s =>
         exists c,
           TimestampCleaner.ts_clean ts_raw = Some c
           /\ (forall x, In x c ->
                 clean_char x = true
                 /\ (In x s \/ (x = Str.SPACE /\ In Str.LETTER_T s)))
           /\ List.length c <= List.length s
     end.
Proof.
  split; [reflexivity |].
  destruct ts_raw as [s|]; [| reflexivity].
  exists (cleaned_text s). split; [reflexivity |].
  split; [| apply cleaned_text_length].
  intros x Hx. destruct (cleaned_text_chars s x Hx) as [C [I | E]].
  - split; [exact C | now left].
  - split; [exact C |].
    unfold cleaned_text, Str.remove, Str.replace, Str.remove_controls in Hx.
    apply filter_In in Hx. destruct Hx as [Hx _].
    apply in_map_iff in Hx. destruct Hx as (y & Ey & Hy).
    apply strip_incl in Hy. apply filter_In in Hy. destruct Hy as [Hy _].
    apply filter_In in Hy. destruct Hy as [Hy _].
    destruct (N.eqb_spec y Str.LETTER_T) as [ET | NT].
    + right. split; [exact E | now rewrite <- ET].
    + left. now rewrite <- Ey.
Qed.

(** X23.  A text is left as it is by the cleaning exactly when it holds
    none of the characters the cleaning removes or replaces and has no
    white space at either end.  On a cleaned text a second cleaning does
    what [strip] does, so cleaning is not idempotent: a [T] at either end
    of the text becomes a space that only a second cleaning removes. *)
Theorem ts_clean_fixed_points (s : Str.pystr) :
  (TimestampCleaner.ts_clean (Some s) = Some s
   <-> (forall x, In x s -> clean_char x = true) /\ Str.strip s = s)
  /\ TimestampCleaner.ts_clean (TimestampCleaner.ts_clean (Some s))
     = option_map Str.strip (TimestampCleaner.ts_clean (Some s)).
Proof.
  unfold TimestampCleaner.ts_clean. cbn [option_map].
  fold (cleaned_text s). fold (cleaned_text (cleaned_text s)).
  assert (Second : cleaned_text (cleaned_text s)
                   = Str.strip (cleaned_text s)).
  { apply cleaned_text_of_clean. intros x Hx.
    now destruct (cleaned_text_chars s x Hx). }
  split.
  - split.
    + intros E. injection E as E.
      assert (G : forall x, In x s -> clean_char x = true).
      { intros x Hx. rewrite <- E in Hx.
        now destruct (cleaned_text_chars s x Hx). }
      split; [exact G |]. now rewrite <- (cleaned_text_of_clean s G).
    + intros [G E]. now rewrite (cleaned_text_of_clean s G), E.
  - now rewrite Second.
Qed.

Lemma ts_clean_fixed_points_witness :
  let s := code_points "T10:00" in
  TimestampCleaner.ts_clean (Some s) = Some (code_points " 10:00")
  /\ TimestampCleaner.ts_clean (TimestampCleaner.ts_clean (Some s))
     = Some (code_points "10:00")
  /\ TimestampCleaner.ts_clean (Some (code_points "2024-01-01 10:00:00"))
     = Some (code_points "2024-01-01 10:00:00").
Proof.
  cbv zeta. split; [reflexivity |]. split.
  - rewrite (proj2 (ts_clean_fixed_points (code_points "T10:00"))).
    reflexivity.
  - apply (proj1 (ts_clean_fixed_points
                    (code_points "2024-01-01 10:00:00"))).
    split; [| reflexivity].
    intros x Hx. cbn in Hx.
    repeat (destruct Hx as [<- | Hx]; [reflexivity |]). destruct Hx.
Defined.

Lemma ts_clean_shape_witness :
  exists c,
    TimestampCleaner.ts_clean
      (Some (Str.BOM :: code_points " 2024-01-01T10:00:00Z "))
    = Some c
    /\ c = code_points "2024-01-01 10:00:00"
    /\ (forall x, In x c -> clean_char x = true).
Proof.
  destruct (ts_clean_shape
              (Some (Str.BOM :: code_points " 2024-01-01T10:00:00Z ")))
    as (_ & c & E & G & _).
  exists c. split; [exact E |].
  split; [vm_compute in E; injection E as <-; reflexivity |].
  intros x Hx. now destruct (G x Hx).
Defined.

(** ** The parser's rows *)

Lemma parse_record_readable (rec : JsonToCsvParser.json) :
  match JsonToCsvParser.parse_record rec with
  | JsonToCsvParser.Returned r =>
      readable_record rec = true
      /\ exists fields,
           rec = JsonToCsvParser.JObject fields
           /\ JsonToCsvParser.timestamp r
              = JsonToCsvParser.get fields "timestamp"
           /\ JsonToCsvParser.city r = JsonToCsvParser.get fields "city"
           /\ match JsonToCsvParser.get fields "data" with
              | JsonToCsvParser.JObject d =>
                  JsonToCsvParser.aqi r = JsonToCsvParser.get d "aqi"
                  /\ JsonToCsvParser.pm2_5 r = JsonToCsvParser.get d "pm2_5"
              | _ =>
                  JsonToCsvParser.aqi r = JsonToCsvParser.JNull
                  /\ JsonToCsvParser.pm2_5 r = JsonToCsvParser.JNull
              end
  | JsonToCsvParser.AttributeError => readable_record rec = false
  end.
Proof.
  destruct rec as [| b | z | x | s | items | fields]; try reflexivity.
  unfold JsonToCsvParser.parse_record, readable_record. cbv zeta.
  destruct (JsonToCsvParser.get fields "data")
    as [| b | z | x | s | items | d] eqn:D; cbn [JsonToCsvParser.truthy].
  - split; [reflexivity |]. exists fields. rewrite D. auto.
  - destruct b; [reflexivity |].
    split; [reflexivity |]. exists fields. rewrite D. auto.
  - destruct (negb (z =? 0)%Z); [reflexivity |].
    split; [reflexivity |]. exists fields. rewrite D. auto.
  - destruct x as [q| | |]; try reflexivity.
    destruct (negb (Qeq_bool q 0)); [reflexivity |].
    split; [reflexivity |]. exists fields. rewrite D. auto.
  - destruct s; [| reflexivity].
    split; [reflexivity |]. exists fields. rewrite D. auto.
  - destruct items; [| reflexivity].
    split; [reflexivity |]. exists fields. rewrite D. auto.
  - destruct d as [|kv d].
    + split; [reflexivity |]. exists fields. rewrite D. auto.
    + split; [reflexivity |]. exists fields. rewrite D. auto.
Qed.

Lemma parse_records_spec (recs : list JsonToCsvParser.json)
  (rows : list JsonToCsvParser.parsed) :
  match JsonToCsvParser.parse_records recs rows with
  | JsonToCsvParser.Returned rows' =>
      exists new,
        rows' = (rows ++ new)%list
        /\ Forall2
             (fun rec r =>
                JsonToCsvParser.parse_record rec = JsonToCsvParser.Returned r)
             recs new
  | JsonToCsvParser.AttributeError =>
      exists rec, In rec recs /\ readable_record rec = false
  end.
Proof.
  revert rows. induction recs as [|rec recs IH]; intros rows;
    cbn [JsonToCsvParser.parse_records].
  - exists []. split; [now rewrite app_nil_r | constructor].
  - pose proof (parse_record_readable rec) as P.
    destruct (JsonToCsvParser.parse_record rec) as [r|] eqn:E.
    + specialize (IH (append rows r)).
      destruct (JsonToCsvParser.parse_records recs (append rows r))
        as [rows'|].
      * destruct IH as (new & -> & F). exists (r :: new).
        split; [unfold append; now rewrite <- app_assoc |].
        constructor; assumption.
      * destruct IH as (rec' & Hin & Hr). exists rec'.
        split; [now right | exact Hr].
    + exists rec. split; [now left | exact P].
Qed.

Lemma read_rows_spec (files : list (option JsonToCsvParser.json))
  (rows : list JsonToCsvParser.parsed) :
  match JsonToCsvParser.read_rows files rows with
  | JsonToCsvParser.Returned rows' =>
      exists new,
        rows' = (rows ++ new)%list
        /\ Forall2
             (fun rec r =>
                JsonToCsvParser.parse_record rec = JsonToCsvParser.Returned r)
             (flat_map records_of files) new
  | JsonToCsvParser.AttributeError =>
      exists rec,
        In rec (flat_map records_of files) /\ readable_record rec = false
  end.
Proof.
  revert rows. induction files as [|f files IH]; intros rows;
    cbn [JsonToCsvParser.read_rows flat_map].
  - exists []. split; [now rewrite app_nil_r | constructor].
  - destruct f as [[| b | z | x | s | obj | fields]|];
      cbn [records_of app]; try apply IH.
    pose proof (parse_records_spec obj rows) as P.
    destruct (JsonToCsvParser.parse_records obj rows) as [rows1|].
    + destruct P as (new1 & -> & F1).
      specialize (IH (rows ++ new1)%list).
      destruct (JsonToCsvParser.read_rows files (rows ++ new1)%list)
        as [rows2|].
      * destruct IH as (new2 & -> & F2). exists (new1 ++ new2)%list.
        split; [now rewrite app_assoc |]. now apply Forall2_app.
      * destruct IH as (rec & Hin & Hr). exists rec.
        split; [apply in_or_app; now right | exact Hr].
    + destruct P as (rec & Hin & Hr). exists rec.
      split; [apply in_or_app; now left | exact Hr].
Qed.

(** X24.  [read_all] collects one row for every element of every file
    whose top level is a list, in the order of the files and of the
    elements; a file that cannot be loaded, or whose top level is no
    list, is skipped and contributes nothing.  A record can be read
    exactly when it is a dict whose ["data"] is a dict or is falsy (or
    absent); the readings are those of ["data"] alone, [None] without it.
    One record that cannot be read makes the whole call raise
    [AttributeError], whatever the other files hold. *)
Theorem read_all_rows (files : list (option JsonToCsvParser.json)) :
  (forall rec,
     (exists r, JsonToCsvParser.parse_record rec = JsonToCsvParser.Returned r)
     <-> readable_record rec = true)
  /\ (forall fields r,
        JsonToCsvParser.parse_record (JsonToCsvParser.JObject fields)
        = JsonToCsvParser.Returned r ->
        JsonToCsvParser.timestamp r = JsonToCsvParser.get fields "timestamp"
        /\ JsonToCsvParser.city r = JsonToCsvParser.get fields "city"
        /\ match JsonToCsvParser.get fields "data" with
           | JsonToCsvParser.JObject d =>
               JsonToCsvParser.aqi r = JsonToCsvParser.get d "aqi"
               /\ JsonToCsvParser.pm2_5 r = JsonToCsvParser.get d "pm2_5"
           | _ =>
               JsonToCsvParser.aqi r = JsonToCsvParser.JNull
               /\ JsonToCsvParser.pm2_5 r = JsonToCsvParser.JNull
           end)
  /\ match JsonToCsvParser.read_rows files [] with
     | JsonToCsvParser.Returned rows =>
         forallb readable_record (flat_map records_of files) = true
         /\ List.length rows = List.length (flat_map records_of files)
         /\ Forall2
              (fun rec r =>
                 JsonToCsvParser.parse_record rec
                 = JsonToCsvParser.Returned r)
              (flat_map records_of files) rows
     | JsonToCsvParser.AttributeError =>
         exists rec,
           In rec (flat_map records_of files)
           /\ readable_record rec = false
     end.
Proof.
  split; [| split].
  - intros rec. pose proof (parse_record_readable rec) as P.
    destruct (JsonToCsvParser.parse_record rec) as [r|].
    + split; [intros _; apply P | eauto].
    + split; [intros (r & E); discriminate | congruence].
  - intros fields r E.
    pose proof (parse_record_readable (JsonToCsvParser.JObject fields)) as P.
    rewrite E in P. destruct P as (_ & fields' & Ef & T & C & D).
    injection Ef as <-. auto.
  - pose proof (read_rows_spec files []) as P.
    destruct (JsonToCsvParser.read_rows files []) as [rows|];
      [| exact P].
    destruct P as (new & -> & F). cbn [app].
    split; [| split; [symmetry; eapply Forall2_length; exact F | exact F]].
    apply forallb_forall. intros rec Hin.
    apply In_nth_error in Hin. destruct Hin as (i & Hi).
    clear -F Hi. revert i Hi.
    induction F as [|rec' r recs rows E F IH]; intros [|i] Hi;
      try discriminate.
    + injection Hi as <-. pose proof (parse_record_readable rec') as P.
      rewrite E in P. apply P.
    + eapply IH. exact Hi.
Qed.

Lemma read_all_rows_witness :
  (exists rows,
     JsonToCsvParser.read_rows sample_files [] = JsonToCsvParser.Returned rows
     /\ map JsonToCsvParser.aqi rows
        = [JsonToCsvParser.JInt 2; JsonToCsvParser.JNull]
     /\ List.length rows = 2)
  /\ JsonToCsvParser.read_rows
       (sample_files
        ++ [Some (JsonToCsvParser.JArray [record_with_text_data])])%list []
     = JsonToCsvParser.AttributeError.
Proof.
  split.
  - eexists. split; [reflexivity |]. split; [reflexivity |].
    exact (proj1 (proj2 (proj2 (proj2 (read_all_rows sample_files))))).
  - reflexivity.
Defined.

(** ** The cleaner's outcome *)

Lemma div_of_nat (c t : nat) :
  0 < t ->
  Float.div (Float.of_nat c) (Float.of_nat t)
  = Fin (inject_Z (Z.of_nat c) / inject_Z (Z.of_nat t)).
Proof.
  intros H. unfold Float.of_nat, Float.div.
  destruct (Qeq_bool (inject_Z (Z.of_nat t)) 0) eqn:E; [| reflexivity].
  apply Qeq_bool_iff in E.
  destruct t as [|k]; [lia |].
  pose proof (inject_nat_pos k) as P. rewrite E in P. lra.
Qed.

Lemma rate_below_threshold (c t : nat) :
  0 < t ->
  Float.lt (Float.div (Float.of_nat c) (Float.of_nat t)) (Fin (5 # 100))
  = (20 * c <? t).
Proof.
  intros H. rewrite (div_of_nat c t H).
  unfold Float.lt. cbn [Float.gt].
  destruct t as [|k]; [lia |].
  pose proof (inject_nat_pos k) as P.
  set (qt := inject_Z (Z.of_nat (S k))) in *.
  set (qc := inject_Z (Z.of_nat c)).
  assert (M : (inject_Z (Z.of_nat (20 * c)) == 20 * qc)%Q).
  { rewrite Nat2Z.inj_mul, inject_Z_mult. reflexivity. }
  destruct (Nat.ltb_spec (20 * c) (S k)) as [Lt | Ge].
  - assert (L : (inject_Z (Z.of_nat (20 * c)) < qt)%Q).
    { unfold qt. rewrite <- Zlt_Qlt. lia. }
    rewrite M in L.
    apply negb_true_iff.
    destruct (Qle_bool (5 # 100) (qc / qt)) eqn:E; [| reflexivity].
    apply Qle_bool_iff in E.
    assert (K : (qc / qt < 5 # 100)%Q).
    { apply Qlt_shift_div_r; [exact P | lra]. }
    lra.
  - assert (L : (qt <= inject_Z (Z.of_nat (20 * c)))%Q).
    { unfold qt. rewrite <- Zle_Qle. lia. }
    rewrite M in L.
    apply negb_false_iff. apply Qle_bool_iff.
    apply Qle_shift_div_l; [exact P | lra].
Qed.

(** X25.  The cleaner drops the rows whose timestamp does not parse
    exactly when fewer than one row in twenty is such a row (or the file
    has no rows); the output then holds the other rows, each with a
    parsed timestamp, and no row is lost between the two files.
    Otherwise every row is written to the output, among them at least
    one without timestamp.  The file of invalid rows is written exactly
    when there is such a row, and holds exactly those rows, in either
    case. *)
Theorem cleaner_outcome {R T : Type} (timestamp_of : R -> option Str.pystr)
  (to_datetime : option Str.pystr -> option T) (df : list R) :
  let w := TimestampCleaner.main timestamp_of to_datetime df in
  let bad_row := TimestampCleaner.is_invalid timestamp_of to_datetime in
  let bad := filter bad_row df in
  (TimestampCleaner.dropped_invalid w = true
   <-> 20 * List.length bad < List.length df \/ df = [])
  /\ (TimestampCleaner.invalid w = None <-> bad = [])
  /\ (forall l, TimestampCleaner.invalid w = Some l -> l = bad)
  /\ (TimestampCleaner.dropped_invalid w = true ->
      map fst (TimestampCleaner.cleaned w)
      = filter (fun r => negb (bad_row r)) df
      /\ (forall r t, In (r, t) (TimestampCleaner.cleaned w) -> t <> None)
      /\ List.length (TimestampCleaner.cleaned w) + List.length bad
         = List.length df)
  /\ (TimestampCleaner.dropped_invalid w = false ->
      map fst (TimestampCleaner.cleaned w) = df
      /\ exists r, In r bad /\ In (r, None) (TimestampCleaner.cleaned w)).
Proof.
  cbv zeta.
  set (bad_row := TimestampCleaner.is_invalid timestamp_of to_datetime).
  set (bad := filter bad_row df).
  assert (Mode :
    TimestampCleaner.dropped_invalid
      (TimestampCleaner.main timestamp_of to_datetime df)
    = Nat.eqb (List.length df) 0 || (20 * List.length bad <? List.length df)).
  { unfold TimestampCleaner.main. fold bad_row. fold bad. cbv zeta.
    destruct df as [|r df'] eqn:Edf.
    - reflexivity.
    - rewrite <- Edf. assert (Pos : 0 < List.length df) by (rewrite Edf; simpl; lia).
      destruct (Nat.ltb_spec 0 (List.length df)) as [_ | ?]; [| lia].
      rewrite (rate_below_threshold _ _ Pos).
      destruct (Nat.eqb_spec (List.length df) 0) as [? | _]; [lia |].
      cbn [orb].
      destruct (20 * List.length bad <? List.length df); reflexivity. }
  assert (Inv :
    TimestampCleaner.invalid
      (TimestampCleaner.main timestamp_of to_datetime df)
    = if 0 <? List.length bad then Some bad else None).
  { unfold TimestampCleaner.main. fold bad_row. fold bad. cbv zeta.
    match goal with |- context [if Float.lt ?a ?b then _ else _] =>
      destruct (Float.lt a b) end; reflexivity. }
  assert (Cl :
    TimestampCleaner.cleaned
      (TimestampCleaner.main timestamp_of to_datetime df)
    = if TimestampCleaner.dropped_invalid
           (TimestampCleaner.main timestamp_of to_datetime df)
      then map (fun row =>
                  (row, TimestampCleaner.parsed_of timestamp_of to_datetime
                          row))
             (filter (fun r => negb (bad_row r)) df)
      else map (fun row =>
                  (row, TimestampCleaner.parsed_of timestamp_of to_datetime
                          row)) df).
  { unfold TimestampCleaner.main. fold bad_row. cbv zeta.
    match goal with |- context [if Float.lt ?a ?b then _ else _] =>
      destruct (Float.lt a b) end; reflexivity. }
  assert (Fst : forall l : list R,
            map fst (map (fun row =>
                            (row, TimestampCleaner.parsed_of timestamp_of
                                    to_datetime row)) l) = l).
  { intros l. rewrite map_map. cbn [fst]. apply map_id. }
  split; [| split; [| split; [| split]]].
  - rewrite Mode, orb_true_iff, Nat.eqb_eq, Nat.ltb_lt.
    split; intros [H | H]; auto.
    + right. now apply length_zero_iff_nil.
    + left. now subst df.
  - rewrite Inv. destruct bad as [|b bad']; cbn; split;
      congruence || discriminate.
  - rewrite Inv. intros l. destruct (0 <? List.length bad);
      [congruence | discriminate].
  - intros D. rewrite Cl, D. split; [apply Fst |]. split.
    + intros r t Hin. apply in_map_iff in Hin.
      destruct Hin as (r' & E & Hin). injection E as -> <-.
      apply filter_In in Hin. destruct Hin as [_ Hin].
      apply negb_true_iff in Hin.
      unfold bad_row, TimestampCleaner.is_invalid in Hin.
      destruct (TimestampCleaner.parsed_of timestamp_of to_datetime r);
        discriminate.
    + rewrite length_map. unfold bad.
      pose proof (filter_length bad_row df). lia.
  - intros D. rewrite Cl, D. split; [apply Fst |].
    rewrite Mode in D. apply orb_false_iff in D. destruct D as [D1 D2].
    apply Nat.eqb_neq in D1. apply Nat.ltb_ge in D2.
    destruct bad as [|r bad'] eqn:Eb; [simpl in D2; lia |].
    exists r. split; [now left |].
    assert (Hr : In r (filter bad_row df)).
    { fold bad. rewrite Eb. now left. }
    apply filter_In in Hr. destruct Hr as [Hr Br].
    apply in_map_iff. exists r. split; [| exact Hr].
    unfold bad_row, TimestampCleaner.is_invalid in Br.
    destruct (TimestampCleaner.parsed_of timestamp_of to_datetime r);
      [discriminate | reflexivity].
Qed.

Lemma cleaner_outcome_witness :
  let w := TimestampCleaner.main (fun c => c) sample_to_datetime
             sample_cells in
  TimestampCleaner.dropped_invalid w = false
  /\ TimestampCleaner.invalid w = Some [Some (code_points "yesterday")]
  /\ map fst (TimestampCleaner.cleaned w) = sample_cells
  /\ exists r, In (r, None) (TimestampCleaner.cleaned w).
Proof.
  cbv zeta.
  destruct (cleaner_outcome (fun c => c) sample_to_datetime sample_cells)
    as (_ & _ & _ & _ & K).
  destruct (K eq_refl) as (F & r & _ & Hr).
  split; [reflexivity |]. split; [reflexivity |].
  split; [exact F | exists r; exact Hr].
Defined.

(** ** The representative of a day *)

Lemma worse_then_earlier_asym (rows : list Row) (x y : annotated) :
  worse_then_earlier rows x y = true -> worse_then_earlier rows y x = false.
Proof.
  unfold worse_then_earlier. cbv zeta.
  rewrite orb_true_iff, orb_false_iff, andb_true_iff, andb_false_iff,
    !Nat.ltb_lt, !Nat.ltb_ge, Nat.eqb_eq, Nat.eqb_neq, Z.ltb_lt, Z.ltb_ge.
  lia.
Qed.

Lemma worse_then_earlier_ntrans (rows : list Row) (x y z : annotated) :
  worse_then_earlier rows y x = false ->
  worse_then_earlier rows z y = false ->
  worse_then_earlier rows z x = false.
Proof.
  unfold worse_then_earlier. cbv zeta.
  rewrite !orb_false_iff, !andb_false_iff,
    !Nat.ltb_ge, !Nat.eqb_neq, !Z.ltb_ge.
  lia.
Qed.

Lemma day_stats_representative (rows : list Row) (interps : list annotated)
  (w : day_stat) :
  In w (day_stats_of rows interps) ->
  exists d,
    let g := filter (fun a => on_day rows d (idx a)) interps in
    n w = List.length g
    /\ In (representative_worst w) g
    /\ forall a, In a g ->
                 worse_then_earlier rows a (representative_worst w) = false.
Proof.
  unfold day_stats_of. intros H. apply in_flat_map in H.
  destruct H as (d & _ & H). cbv zeta in H.
  exists d.
  change (filter
            (fun a => (day_of (stamp (at_ rows (idx a)
                                        (Build_Row None None PyNone PyNone)))
                       =? d)%Z) interps)
    with (filter (fun a => on_day rows d (idx a)) interps) in H.
  cbv zeta.
  set (g := filter (fun a => on_day rows d (idx a)) interps) in *.
  destruct (sorted_by_facts (worse_then_earlier rows) (fun _ => True)
              (fun x y _ _ => worse_then_earlier_asym rows x y)
              (fun x y z _ _ _ => worse_then_earlier_ntrans rows x y z)
              g (fun _ _ => I)) as (R & Hin & _).
  destruct g as [|member g'] eqn:G; [destruct H |].
  destruct (sorted_by (worse_then_earlier rows) (member :: g'))
    as [|top tops]; [destruct H |].
  destruct H as [<- | []].
  cbn [n representative_worst].
  split; [reflexivity |].
  split; [apply Hin; now left |].
  intros a Ha. apply Hin in Ha. destruct R as [Rt _].
  destruct Ha as [<- | Ha]; [| now apply Rt].
  destruct (worse_then_earlier rows top top) eqn:E; [| reflexivity].
  pose proof (worse_then_earlier_asym rows top top E). congruence.
Qed.

(** X27.  The representative of a day listed among the worst days is the
    interpretation of a retained row of that day, with that row's driver;
    no row of the day has a higher score, and none with the same score
    has an earlier timestamp. *)
Theorem day_representative (city_name : string) (df : list Row)
  (out : city_summary) :
  analyze_city_from_csv city_name df = Ok out ->
  forall w,
    In w (top_bad_windows_moderate_or_worse out)
    \/ In w (top_bad_windows_unhealthy_or_worse out) ->
    exists i row o,
      nth_error (retained city_name df) i = Some row
      /\ _apply_interpret_row row = Ok o
      /\ base (representative_worst w) = o
      /\ idx (representative_worst w) = i
      /\ driver_of row = Ok (driver (representative_worst w))
      /\ n w
         = List.length
             (filter (on_day (retained city_name df) (day_of (stamp row)))
                (seq 0 (List.length (retained city_name df))))
      /\ forall j row' o',
           nth_error (retained city_name df) j = Some row' ->
           day_of (stamp row') = day_of (stamp row) ->
           _apply_interpret_row row' = Ok o' ->
           score o' < score o
           \/ (score o' = score o
               /\ (ts_ns (stamp row) <= ts_ns (stamp row'))%Z).
Proof.
  intros H w Hw.
  destruct (analyze_fields _ _ _ H)
    as (outs & drivers & Eo & Ed & _ & _ & _ & _ & _ & _ & _ & _ & TM & TU & _).
  set (rows := retained city_name df) in *.
  pose proof (mapM_length _ _ _ Eo) as Lo.
  pose proof (mapM_length _ _ _ Ed) as Ld.
  assert (L : List.length drivers = List.length outs) by congruence.
  destruct (annotate_facts outs drivers L) as (B & Dr & Ix & _).
  set (interps := annotate outs drivers) in *.
  assert (Hd : In w (day_stats_of rows interps)).
  { assert (X : In w (if 0 <? List.length rows
                      then day_stats_of rows interps else [])).
    { destruct Hw as [Hw | Hw]; [rewrite TM in Hw | rewrite TU in Hw];
        apply firstn_incl in Hw; eapply sorted_by_In; exact Hw. }
    destruct (0 <? List.length rows); [exact X | destruct X]. }
  destruct (day_stats_representative _ _ _ Hd) as (d & Hn & Hrep & Best).
  cbv zeta in Hn, Hrep, Best.
  set (rep := representative_worst w) in *.
  apply filter_In in Hrep. destruct Hrep as [Hri Hrd].
  destruct (annotate_In outs drivers rep L Hri) as [Ro Rn].
  fold interps in Rn.
  assert (Ri : idx rep < List.length rows).
  { rewrite <- Lo. apply nth_error_Some. congruence. }
  destruct (nth_error rows (idx rep)) as [row|] eqn:Erow.
  2:{ apply nth_error_None in Erow. lia. }
  pose proof (at_nth_error rows (idx rep) row no_row Erow) as At.
  assert (Dd : d = day_of (stamp row)).
  { unfold on_day in Hrd. rewrite At in Hrd.
    apply Z.eqb_eq in Hrd. now symmetry. }
  subst d.
  destruct (mapM_nth _ _ _ _ _ Eo Erow) as (o & Ho & Hio).
  assert (o = base rep) by congruence. subst o.
  destruct (mapM_nth _ _ _ _ _ Ed Erow) as (dv & Hdv & Hidv).
  assert (Edv : dv = driver rep).
  { pose proof (map_nth_error driver _ _ Rn) as K.
    rewrite Dr in K. congruence. }
  subst dv.
  exists (idx rep), row, (base rep).
  split; [exact Erow |]. split; [exact Hio |].
  split; [reflexivity |]. split; [reflexivity |].
  split; [exact Hidv |].
  split.
  { rewrite Hn.
    rewrite <- (filter_map_length idx (on_day rows (day_of (stamp row)))
                  interps).
    rewrite Ix. now rewrite Lo. }
  intros j row' o' Hj Hday Ho'.
  destruct (mapM_nth _ _ _ _ _ Eo Hj) as (y & Hy & Hiy).
  assert (y = o') by congruence. subst y.
  destruct (annotate_nth outs drivers j o' L Hy) as (aj & Haj & Bj & Ij).
  fold interps in Haj.
  assert (Inj : In aj interps) by (eapply nth_error_In; exact Haj).
  pose proof (at_nth_error rows j row' no_row Hj) as At'.
  assert (Gj : In aj (filter (fun a => on_day rows (day_of (stamp row))
                                         (idx a)) interps)).
  { apply filter_In. split; [exact Inj |].
    unfold on_day. rewrite Ij, At'. now apply Z.eqb_eq. }
  pose proof (Best aj Gj) as K.
  unfold worse_then_earlier in K. cbv zeta in K.
  change (Build_Row None None PyNone PyNone) with no_row in K.
  rewrite Ij, At', At, Bj in K.
  rewrite orb_false_iff, andb_false_iff, Nat.ltb_ge, Nat.eqb_neq, Z.ltb_ge
    in K.
  lia.
Qed.

Lemma day_representative_witness :
  exists out w,
    analyze_city_from_csv "Almaty" sample_frame = Ok out
    /\ nth_error (top_bad_windows_moderate_or_worse out) 1 = Some w
    /\ date w = "2023-11-16"
    /\ exists i row o,
         nth_error (retained "Almaty" sample_frame) i = Some row
         /\ _apply_interpret_row row = Ok o
         /\ base (representative_worst w) = o
         /\ idx (representative_worst w) = i.
Proof.
  eexists. eexists. split; [reflexivity |].
  split; [vm_compute; reflexivity |].
  split; [reflexivity |].
  match goal with
  | |- exists i row o, _ /\ _ /\ base (representative_worst ?w) = _ /\ _ =>
      destruct (day_representative "Almaty" sample_frame _ eq_refl w
                  (or_introl (or_intror (or_introl eq_refl))))
        as (i & row & o & A & B & C & D & _)
  end.
  exists i, row, o. auto.
Defined.
